(** * Appointment scheduling and lifecycle engine of beyond-speech

    A shallow embedding of the handlers of
    [backend/src/routes/appointments.ts] together with the Joi schemas of
    [middleware/validation.ts] that guard them.

    Conventions of the embedding:
    - a JavaScript [Date] is its [getTime()] value, a [Z] number of
      milliseconds since the epoch; request bodies are taken after Joi
      validation, so every date is a valid one;
    - a finite JavaScript [number] is the rational it denotes ([Q]), and
      the arithmetic on money rounds to the nearest double ([fl]);
    - the Prisma tables are lists of records, in insertion order;
    - [new Date()] is the [now] argument of a handler (one request is served
      at one instant), and the identifier Prisma generates for a new row is
      the [newId] argument; the time zone of the server process, which
      [addDays] of date-fns depends on, is a parameter of the creation
      handler;
    - a handler is a function on the database that answers with a value or
      with the error it throws; the database it leaves is returned in both
      cases. *)

From Stdlib Require Import ZArith QArith Qround Qabs String List Bool Lia.
From Stdlib Require Import Sorted Permutation.
From Stdlib Require Floats.PrimFloat Floats.FloatOps Floats.SpecFloat.
Import ListNotations.

Local Open Scope string_scope.
Local Open Scope Z_scope.

(** ** Enumerations of the Prisma schema, as the Joi schemas and the route
    handlers spell them *)

Inductive AppointmentStatus : Set :=
| SCHEDULED | CONFIRMED | IN_PROGRESS | COMPLETED | CANCELLED | NO_SHOW.

Inductive ServiceType : Set :=
| SPEECH_THERAPY | OCCUPATIONAL_THERAPY | PHYSICAL_THERAPY
| LITERACY_SUPPORT | GROUP_SESSION | EVALUATION.

Inductive UserRole : Set :=
| FAMILY | SLP | OT | PT | OTA | PTA | SCHOOL | ADMIN.

Module PaymentStatus.
Inductive t : Set := PENDING | COMPLETED | FAILED | REFUNDED.
End PaymentStatus.

Definition AppointmentStatus_eqb (a b : AppointmentStatus) : bool :=
  match a, b with
  | SCHEDULED, SCHEDULED | CONFIRMED, CONFIRMED | IN_PROGRESS, IN_PROGRESS
  | COMPLETED, COMPLETED | CANCELLED, CANCELLED | NO_SHOW, NO_SHOW => true
  | _, _ => false
  end.

Definition UserRole_eqb (a b : UserRole) : bool :=
  match a, b with
  | FAMILY, FAMILY | SLP, SLP | OT, OT | PT, PT | OTA, OTA | PTA, PTA
  | SCHOOL, SCHOOL | ADMIN, ADMIN => true
  | _, _ => false
  end.

(** The string a status is printed as inside a template literal. *)
Definition statusName (s : AppointmentStatus) : string :=
  match s with
  | SCHEDULED => "SCHEDULED"
  | CONFIRMED => "CONFIRMED"
  | IN_PROGRESS => "IN_PROGRESS"
  | COMPLETED => "COMPLETED"
  | CANCELLED => "CANCELLED"
  | NO_SHOW => "NO_SHOW"
  end.

(** [Array.prototype.includes] on an array of statuses. *)
Definition includes (l : list AppointmentStatus) (s : AppointmentStatus) : bool :=
  existsb (AppointmentStatus_eqb s) l.

(** ** Records *)

Definition Date := Z.

Module User.
Record t : Type := mk {
  id : string;
  email : string;
  firstName : string;
  lastName : string;
  role : UserRole
}.
End User.

Module ProviderProfile.
Record t : Type := mk {
  id : string;
  userId : string;
  hourlyRate : option Q;
  licenseVerified : bool;
  backgroundCheck : bool
}.
End ProviderProfile.

Module Appointment.
Record t : Type := mk {
  id : string;
  clientId : string;
  providerId : string;
  serviceType : ServiceType;
  title : string;
  description : option string;
  startTime : Date;
  endTime : Date;
  duration : Z;
  isRemote : bool;
  location : option string;
  meetingLink : option string;
  notes : option string;
  goals : option string;
  materials : list string;
  homework : option string;
  hourlyRate : Q;
  totalAmount : Q;
  status : AppointmentStatus;
  paymentStatus : PaymentStatus.t;
  cancelledAt : option Date;
  cancellationReason : option string;
  createdAt : Date;
  updatedAt : Date
}.
End Appointment.

(** Body accepted by [schemas.createAppointment]: [startTime] and [endTime]
    are two required [Joi.date()] fields, with no constraint between them. *)
Module CreateAppointmentRequest.
Record t : Type := mk {
  providerId : string;
  serviceType : ServiceType;
  title : string;
  description : option string;
  startTime : Date;
  endTime : Date;
  isRemote : option bool;
  location : option string;
  notes : option string;
  goals : option string;
  materials : option (list string)
}.
End CreateAppointmentRequest.

(** Body accepted by [schemas.updateAppointment]: every field optional. *)
Module UpdateAppointmentRequest.
Record t : Type := mk {
  title : option string;
  description : option string;
  startTime : option Date;
  endTime : option Date;
  status : option AppointmentStatus;
  isRemote : option bool;
  location : option string;
  meetingLink : option string;
  notes : option string;
  goals : option string;
  materials : option (list string);
  homework : option string;
  cancellationReason : option string
}.

(** The empty body [{}]. *)
Definition empty : t :=
  mk None None None None None None None None None None None None None.
End UpdateAppointmentRequest.

(** ** Errors: [createError(message, statusCode)] *)

Record ApiError : Type := createError {
  message : string;
  statusCode : Z
}.

Definition ProviderNotFound : ApiError := createError "Provider not found" 404.
Definition ProviderNotEligible : ApiError := createError "Provider is not verified" 400.
Definition PastBooking : ApiError :=
  createError "Cannot schedule appointments in the past" 400.
Definition BookingTooFarOut : ApiError :=
  createError "Cannot schedule appointments more than 90 days in advance" 400.
Definition SchedulingConflict : ApiError :=
  createError "Provider has a conflicting appointment at this time" 400.
Definition NotFound : ApiError := createError "Appointment not found" 404.
Definition Forbidden : ApiError := createError "Access denied" 403.
Definition IllegalStatusTransition (from to : AppointmentStatus) : ApiError :=
  createError
    ("Cannot change status from " ++ statusName from ++ " to " ++ statusName to)
    400.
Definition CannotBeCancelled : ApiError :=
  createError "Appointment cannot be cancelled" 400.
(** Not a [createError]: what reaches the error middleware when the
    JavaScript runtime or Prisma itself throws. *)
Definition InternalError : ApiError := createError "Internal server error" 500.

(** ** The database and the handler monad *)

Record Db : Type := mkDb {
  appointments : list Appointment.t;
  providerProfiles : list ProviderProfile.t
}.

Inductive Response (A : Type) : Type :=
| Ok (a : A)
| Throw (e : ApiError).
Arguments Ok {A} a.
Arguments Throw {A} e.

Definition Handler (A : Type) : Type := Db -> Db * Response A.

Definition ret {A} (a : A) : Handler A := fun db => (db, Ok a).
Definition throw {A} (e : ApiError) : Handler A := fun db => (db, Throw e).
Definition bind {A B} (m : Handler A) (k : A -> Handler B) : Handler B :=
  fun db =>
    match m db with
    | (db', Ok a) => k a db'
    | (db', Throw e) => (db', Throw e)
    end.

Notation "x <- m ;; k" := (bind m (fun x => k))
  (at level 61, m at next level, right associativity).

(** ** Prisma queries used by the handlers *)

Definition providerProfile_findUnique (id : string)
  : Handler (option ProviderProfile.t) :=
  fun db =>
    (db, Ok (find (fun p => String.eqb (ProviderProfile.id p) id)
                  (providerProfiles db))).

Definition appointment_findUnique (id : string)
  : Handler (option Appointment.t) :=
  fun db =>
    (db, Ok (find (fun a => String.eqb (Appointment.id a) id)
                  (appointments db))).

Definition appointment_findFirst (where_ : Appointment.t -> bool)
  : Handler (option Appointment.t) :=
  fun db => (db, Ok (find where_ (appointments db))).

Definition appointment_create (a : Appointment.t) : Handler Appointment.t :=
  fun db =>
    (mkDb (appointments db ++ [a])%list (providerProfiles db), Ok a).

(** [prisma.appointment.update({ where: { id }, data })]: the row with that
    id is rewritten by [data]; Prisma throws when there is none. *)
Definition appointment_update (id : string) (data : Appointment.t -> Appointment.t)
  : Handler Appointment.t :=
  fun db =>
    match find (fun a => String.eqb (Appointment.id a) id) (appointments db) with
    | None => (db, Throw InternalError)
    | Some a =>
        (mkDb (map (fun x => if String.eqb (Appointment.id x) id
                             then data x else x)
                   (appointments db))
              (providerProfiles db),
         Ok (data a))
    end.

(** ** date-fns and JavaScript helpers *)

Definition isBefore (date dateToCompare : Date) : bool := date <? dateToCompare.
Definition isAfter (date dateToCompare : Date) : bool := dateToCompare <? date.

Definition msPerDay : Z := 24 * 60 * 60 * 1000.

(** The time zone of the server process, as ECMAScript sees it: the offset
    of local time from UTC at a UTC instant ([LocalTZA(t, true)]) and the
    offset that a local time is read with ([LocalTZA(t, false)]), both in
    milliseconds. *)
Module TimeZone.
Record t : Type := mk {
  offsetAtUtc : Date -> Z;
  offsetAtLocal : Z -> Z
}.

Definition utc : t := mk (fun _ => 0) (fun _ => 0).

(** No zone is a day or more away from UTC. *)
Definition bounded (tz : t) : Prop :=
  forall x, - msPerDay < offsetAtUtc tz x < msPerDay
            /\ - msPerDay < offsetAtLocal tz x < msPerDay.
End TimeZone.

(** [addDays(date, amount)] of date-fns: the date unchanged when [amount]
    is 0, and otherwise [date.setDate(date.getDate() + amount)], which
    moves the local time by whole calendar days and reads the result back
    as a local time. *)
Definition addDaysIn (tz : TimeZone.t) (date : Date) (amount : Z) : Date :=
  if amount =? 0 then date
  else
    let local := date + TimeZone.offsetAtUtc tz date + amount * msPerDay in
    local - TimeZone.offsetAtLocal tz local.

(** [addDays] on a server whose zone is UTC: every calendar day is 24
    hours. *)
Definition addDays (date : Date) (amount : Z) : Date := date + amount * msPerDay.

(** [Math.round]: the nearest integer, halves going up. *)
Definition Math_round (x : Q) : Z := Qfloor (x + (1 # 2)).

(** [x || 0] on a nullable number: [null] and [0] are both falsy. *)
Definition orZero (x : option Q) : Q :=
  match x with
  | Some r => if Qeq_bool r 0 then 0%Q else r
  | None => 0%Q
  end.

(** [x || d] on an optional boolean and on an optional array. *)
Definition orFalse (x : option bool) : bool :=
  match x with Some b => b | None => false end.
Definition orEmpty {A} (x : option (list A)) : list A :=
  match x with Some l => l | None => [] end.

(** ** POST / : create an appointment *)

(** The [where] clause of the conflict query. *)
Definition conflictWhere (providerId : string) (startTime endTime : Date)
    (a : Appointment.t) : bool :=
  String.eqb (Appointment.providerId a) providerId
  && includes [SCHEDULED; CONFIRMED; IN_PROGRESS] (Appointment.status a)
  && (((startTime <=? Appointment.startTime a)
       && (Appointment.startTime a <? endTime))
      || ((startTime <? Appointment.endTime a)
          && (Appointment.endTime a <=? endTime))).

Definition minutesBetween (startTime endTime : Date) : Q :=
  (inject_Z (endTime - startTime) / inject_Z (1000 * 60))%Q.

(** *** Numbers

    An ECMAScript [Number] is an IEEE 754 double; a finite one is a
    rational. [*] and [/] give the exact result rounded to the nearest
    double, a tie going to the one whose significand is even. *)

(** The integer nearest to [n / d], for [0 <= n] and [0 < d]; of two that
    are equally near, the even one. *)
Definition roundHalfEven (n d : Z) : Z :=
  let q := n / d in
  let r := n mod d in
  if 2 * r <? d then q
  else if d <? 2 * r then q + 1
  else if Z.even q then q else q + 1.

(** The double nearest to [q]. With [2 ^ k <= |q| < 2 ^ (k + 1)], the
    doubles around [q] are the multiples of [2 ^ e] for [e = k - 52] (53
    significant bits), and of [2 ^ -1074] where that is more (the
    subnormal numbers); [q] is rounded to a multiple of it. The range
    above [Number_MAX_VALUE], where the result would be an infinity, is
    not modelled. *)
Definition fl (q : Q) : Q :=
  let n := Z.abs (Qnum q) in
  let d := Z.pos (Qden q) in
  if n =? 0 then 0%Q
  else
    let k0 := Z.log2 n - Z.log2 d in
    let k := if (if 0 <=? k0 then d * 2 ^ k0 <=? n else d <=? n * 2 ^ (- k0))
             then k0 else k0 - 1 in
    let e := Z.max (k - 52) (-1074) in
    let m := if 0 <=? e then roundHalfEven n (d * 2 ^ e)
             else roundHalfEven (n * 2 ^ (- e)) d in
    let s := Z.sgn (Qnum q) in
    if 0 <=? e then inject_Z (s * m * 2 ^ e)
    else Qmake (s * m) (Z.to_pos (2 ^ (- e))).

(** [Number.MAX_VALUE], the largest double. *)
Definition Number_MAX_VALUE : Q := inject_Z ((2 ^ 53 - 1) * 2 ^ 971).

(** A rational that is a double. *)
Definition isDouble (q : Q) : bool :=
  Qeq_bool (fl q) q && Qle_bool (Qabs q) Number_MAX_VALUE.

(** The doubles of the machine, which the kernel computes with, to set
    [fl] against: a whole number as a double, a finite double as the
    rational it is, and [(hourlyRate * duration) / 60] in doubles. *)
Module Machine.
Definition number : Set := PrimFloat.float.

Definition ofZ (n : Z) : number :=
  match n with
  | Z0 => PrimFloat.zero
  | Zpos p => FloatOps.SF2Prim (SpecFloat.S754_finite false p 0)
  | Zneg p => FloatOps.SF2Prim (SpecFloat.S754_finite true p 0)
  end.

Definition toQ (x : number) : option Q :=
  match FloatOps.Prim2SF x with
  | SpecFloat.S754_zero _ => Some 0%Q
  | SpecFloat.S754_finite s m e =>
      let v := if 0 <=? e then inject_Z (Z.pos m * 2 ^ e)
               else Qmake (Z.pos m) (Z.to_pos (2 ^ (- e))) in
      Some (if s then Qopp v else v)
  | _ => None
  end.

Definition equals (x : number) (q : Q) : bool :=
  match toQ x with
  | Some v => Qeq_bool v q
  | None => false
  end.

Definition totalAmount (hourlyRate : number) (duration : Z) : number :=
  PrimFloat.div (PrimFloat.mul hourlyRate (ofZ duration)) (ofZ 60).
End Machine.

(** [(endTime.getTime() - startTime.getTime()) / (1000 * 60)] as the
    doubles compute it. [Math.round] takes it to the same whole number as
    the exact quotient [minutesBetween] when the two times are less than
    [2 ^ 53] milliseconds apart, as valid dates are when one of them is
    inside the booking window. *)
Definition minutesBetweenNumber (startTime endTime : Date) : Q :=
  fl (fl (inject_Z (endTime - startTime)) / inject_Z (1000 * 60)).

(** The [data] object of the insertion; [meetingLink], [homework],
    [cancelledAt] and [cancellationReason] are not given and start out null,
    [paymentStatus] takes the default the seed script spells out.

    Modelled from the spec: the Prisma schema is not among the sources;
    [createdAt] and [updatedAt] are the audit timestamps of the spec's data
    model, which the storage layer writes when a row is inserted. *)
Definition createDataOf (currentUser : User.t) (now : Date) (newId : string)
    (appointmentData : CreateAppointmentRequest.t)
    (provider : ProviderProfile.t) : Appointment.t :=
  let startTime := CreateAppointmentRequest.startTime appointmentData in
  let endTime := CreateAppointmentRequest.endTime appointmentData in
  let duration := Math_round (minutesBetween startTime endTime) in
  let hourlyRate := orZero (ProviderProfile.hourlyRate provider) in
  let totalAmount := fl (fl (hourlyRate * inject_Z duration) / 60) in
  {| Appointment.id := newId;
     Appointment.clientId := User.id currentUser;
     Appointment.providerId :=
       CreateAppointmentRequest.providerId appointmentData;
     Appointment.serviceType :=
       CreateAppointmentRequest.serviceType appointmentData;
     Appointment.title := CreateAppointmentRequest.title appointmentData;
     Appointment.description :=
       CreateAppointmentRequest.description appointmentData;
     Appointment.startTime := startTime;
     Appointment.endTime := endTime;
     Appointment.duration := duration;
     Appointment.isRemote :=
       orFalse (CreateAppointmentRequest.isRemote appointmentData);
     Appointment.location := CreateAppointmentRequest.location appointmentData;
     Appointment.meetingLink := None;
     Appointment.notes := CreateAppointmentRequest.notes appointmentData;
     Appointment.goals := CreateAppointmentRequest.goals appointmentData;
     Appointment.materials :=
       orEmpty (CreateAppointmentRequest.materials appointmentData);
     Appointment.homework := None;
     Appointment.hourlyRate := hourlyRate;
     Appointment.totalAmount := totalAmount;
     Appointment.status := SCHEDULED;
     Appointment.paymentStatus := PaymentStatus.PENDING;
     Appointment.cancelledAt := None;
     Appointment.cancellationReason := None;
     Appointment.createdAt := now;
     Appointment.updatedAt := now |}.

(** The two confirmation e-mails sent after the insertion sit in a
    [try]/[catch] that only logs: they change neither the answer nor the
    database, and are left out. [addDays_] is the [addDays] of date-fns,
    which depends on the time zone of the server process. *)
Definition createWith (addDays_ : Date -> Z -> Date)
    (currentUser : User.t) (now : Date) (newId : string)
    (appointmentData : CreateAppointmentRequest.t) : Handler Appointment.t :=
  provider <- providerProfile_findUnique
                (CreateAppointmentRequest.providerId appointmentData) ;;
  match provider with
  | None => throw ProviderNotFound
  | Some provider =>
    if negb (ProviderProfile.licenseVerified provider)
       || negb (ProviderProfile.backgroundCheck provider)
    then throw ProviderNotEligible
    else
      let startTime := CreateAppointmentRequest.startTime appointmentData in
      let endTime := CreateAppointmentRequest.endTime appointmentData in
      if isBefore startTime now then throw PastBooking
      else if isAfter startTime (addDays_ now 90) then throw BookingTooFarOut
      else
        conflictingAppointment <-
          appointment_findFirst
            (conflictWhere (CreateAppointmentRequest.providerId appointmentData)
                           startTime endTime) ;;
        match conflictingAppointment with
        | Some _ => throw SchedulingConflict
        | None =>
            appointment_create
              (createDataOf currentUser now newId appointmentData provider)
        end
  end.

(** The handler on a server in the zone [tz]; [addDays] is the only part of
    it that looks at the zone. *)
Definition createIn (tz : TimeZone.t) :
  User.t -> Date -> string -> CreateAppointmentRequest.t
  -> Handler Appointment.t :=
  createWith (addDaysIn tz).

(** The handler on a server whose zone is UTC. *)
Definition create (currentUser : User.t) (now : Date) (newId : string)
    (appointmentData : CreateAppointmentRequest.t) : Handler Appointment.t :=
  createWith addDays currentUser now newId appointmentData.

(** ** PUT /:id : update an appointment *)

(** [role === 'ADMIN' || clientId === user.id || provider.userId === user.id]
    over the appointment with its provider row included; [||] stops at the
    first true operand, and reading [userId] of a missing provider throws. *)
Definition hasAccess (currentUser : User.t) (appointment : Appointment.t)
  : Handler bool :=
  if UserRole_eqb (User.role currentUser) ADMIN then ret true
  else if String.eqb (Appointment.clientId appointment) (User.id currentUser)
  then ret true
  else
    provider <- providerProfile_findUnique (Appointment.providerId appointment) ;;
    match provider with
    | None => throw InternalError
    | Some p => ret (String.eqb (ProviderProfile.userId p) (User.id currentUser))
    end.

Definition validTransitions (from : AppointmentStatus) : list AppointmentStatus :=
  match from with
  | SCHEDULED => [CONFIRMED; CANCELLED]
  | CONFIRMED => [IN_PROGRESS; CANCELLED]
  | IN_PROGRESS => [COMPLETED; CANCELLED]
  | COMPLETED => []
  | CANCELLED => []
  | NO_SHOW => []
  end.

(** A column keeps its value unless the [data] object carries one. *)
Definition patch {A} (new : option A) (old : A) : A :=
  match new with Some v => v | None => old end.
Definition patchOpt {A} (new old : option A) : option A :=
  match new with Some v => Some v | None => old end.

(** Modelled from the spec: the Prisma schema is not among the sources;
    [updatedAt] is the audit timestamp of the spec's data model, which the
    storage layer rewrites at every update of a row. *)
Definition touch (now : Date) (old : Date) : Date := now.

(** The [data] object of the update:
    [{ ...updateData, startTime?, endTime?, cancelledAt? }]. *)
Definition updateDataOf (updateData : UpdateAppointmentRequest.t) (now : Date)
    (a : Appointment.t) : Appointment.t :=
  {| Appointment.id := Appointment.id a;
     Appointment.clientId := Appointment.clientId a;
     Appointment.providerId := Appointment.providerId a;
     Appointment.serviceType := Appointment.serviceType a;
     Appointment.title :=
       patch (UpdateAppointmentRequest.title updateData) (Appointment.title a);
     Appointment.description :=
       patchOpt (UpdateAppointmentRequest.description updateData)
                (Appointment.description a);
     Appointment.startTime :=
       patch (UpdateAppointmentRequest.startTime updateData)
             (Appointment.startTime a);
     Appointment.endTime :=
       patch (UpdateAppointmentRequest.endTime updateData)
             (Appointment.endTime a);
     Appointment.duration := Appointment.duration a;
     Appointment.isRemote :=
       patch (UpdateAppointmentRequest.isRemote updateData)
             (Appointment.isRemote a);
     Appointment.location :=
       patchOpt (UpdateAppointmentRequest.location updateData)
                (Appointment.location a);
     Appointment.meetingLink :=
       patchOpt (UpdateAppointmentRequest.meetingLink updateData)
                (Appointment.meetingLink a);
     Appointment.notes :=
       patchOpt (UpdateAppointmentRequest.notes updateData) (Appointment.notes a);
     Appointment.goals :=
       patchOpt (UpdateAppointmentRequest.goals updateData) (Appointment.goals a);
     Appointment.materials :=
       patch (UpdateAppointmentRequest.materials updateData)
             (Appointment.materials a);
     Appointment.homework :=
       patchOpt (UpdateAppointmentRequest.homework updateData)
                (Appointment.homework a);
     Appointment.hourlyRate := Appointment.hourlyRate a;
     Appointment.totalAmount := Appointment.totalAmount a;
     Appointment.status :=
       patch (UpdateAppointmentRequest.status updateData) (Appointment.status a);
     Appointment.paymentStatus := Appointment.paymentStatus a;
     Appointment.cancelledAt :=
       match UpdateAppointmentRequest.status updateData with
       | Some CANCELLED => Some now
       | _ => Appointment.cancelledAt a
       end;
     Appointment.cancellationReason :=
       patchOpt (UpdateAppointmentRequest.cancellationReason updateData)
                (Appointment.cancellationReason a);
     Appointment.createdAt := Appointment.createdAt a;
     Appointment.updatedAt := touch now (Appointment.updatedAt a) |}.

Definition update (currentUser : User.t) (now : Date) (id : string)
    (updateData : UpdateAppointmentRequest.t) : Handler Appointment.t :=
  appointment <- appointment_findUnique id ;;
  match appointment with
  | None => throw NotFound
  | Some appointment =>
    canUpdate <- hasAccess currentUser appointment ;;
    if negb canUpdate then throw Forbidden
    else
      match UpdateAppointmentRequest.status updateData with
      | Some requested =>
          if negb (includes (validTransitions (Appointment.status appointment))
                            requested)
          then throw (IllegalStatusTransition (Appointment.status appointment)
                                              requested)
          else appointment_update id (updateDataOf updateData now)
      | None => appointment_update id (updateDataOf updateData now)
      end
  end.

(** ** PATCH /:id/cancel : cancel an appointment *)

(** The [reason] of the request body, which nothing validates: absent, or
    any value of JSON but an array or an object, which are left out. *)
Inductive JsValue : Type :=
| Undefined
| Null
| JsString (s : string)
| JsNumber (x : Q)
| JsBoolean (b : bool).

(** The values that Prisma takes for a nullable string column; it refuses
    a [data] object that holds another one. *)
Definition nullableString (v : JsValue) : bool :=
  match v with
  | Undefined | Null | JsString _ => true
  | JsNumber _ | JsBoolean _ => false
  end.

(** [{ status: 'CANCELLED', cancelledAt: new Date(), cancellationReason: reason }]:
    [undefined] leaves the column alone, [null] empties it, a string fills
    it. *)
Definition cancelDataWith (reason : JsValue) (now : Date)
    (a : Appointment.t) : Appointment.t :=
  {| Appointment.id := Appointment.id a;
     Appointment.clientId := Appointment.clientId a;
     Appointment.providerId := Appointment.providerId a;
     Appointment.serviceType := Appointment.serviceType a;
     Appointment.title := Appointment.title a;
     Appointment.description := Appointment.description a;
     Appointment.startTime := Appointment.startTime a;
     Appointment.endTime := Appointment.endTime a;
     Appointment.duration := Appointment.duration a;
     Appointment.isRemote := Appointment.isRemote a;
     Appointment.location := Appointment.location a;
     Appointment.meetingLink := Appointment.meetingLink a;
     Appointment.notes := Appointment.notes a;
     Appointment.goals := Appointment.goals a;
     Appointment.materials := Appointment.materials a;
     Appointment.homework := Appointment.homework a;
     Appointment.hourlyRate := Appointment.hourlyRate a;
     Appointment.totalAmount := Appointment.totalAmount a;
     Appointment.status := CANCELLED;
     Appointment.paymentStatus := Appointment.paymentStatus a;
     Appointment.cancelledAt := Some now;
     Appointment.cancellationReason :=
       match reason with
       | JsString s => Some s
       | Null => None
       | _ => Appointment.cancellationReason a
       end;
     Appointment.createdAt := Appointment.createdAt a;
     Appointment.updatedAt := touch now (Appointment.updatedAt a) |}.

(** The handler; the exception of a refused [data] object is not a
    [createError] and goes to the error middleware. *)
Definition cancelWith (currentUser : User.t) (now : Date) (id : string)
    (reason : JsValue) : Handler Appointment.t :=
  appointment <- appointment_findUnique id ;;
  match appointment with
  | None => throw NotFound
  | Some appointment =>
    canCancel <- hasAccess currentUser appointment ;;
    if negb canCancel then throw Forbidden
    else if includes [COMPLETED; CANCELLED; NO_SHOW] (Appointment.status appointment)
    then throw CannotBeCancelled
    else if negb (nullableString reason) then throw InternalError
    else appointment_update id (cancelDataWith reason now)
  end.

(** A reason that is absent or a string. *)
Definition ofOption (reason : option string) : JsValue :=
  match reason with
  | Some s => JsString s
  | None => Undefined
  end.

(** The [data] object and the handler for a reason that is absent or a
    string: [cancelWith] at [ofOption reason]. *)
Definition cancelDataOf (reason : option string) (now : Date)
    (a : Appointment.t) : Appointment.t :=
  {| Appointment.id := Appointment.id a;
     Appointment.clientId := Appointment.clientId a;
     Appointment.providerId := Appointment.providerId a;
     Appointment.serviceType := Appointment.serviceType a;
     Appointment.title := Appointment.title a;
     Appointment.description := Appointment.description a;
     Appointment.startTime := Appointment.startTime a;
     Appointment.endTime := Appointment.endTime a;
     Appointment.duration := Appointment.duration a;
     Appointment.isRemote := Appointment.isRemote a;
     Appointment.location := Appointment.location a;
     Appointment.meetingLink := Appointment.meetingLink a;
     Appointment.notes := Appointment.notes a;
     Appointment.goals := Appointment.goals a;
     Appointment.materials := Appointment.materials a;
     Appointment.homework := Appointment.homework a;
     Appointment.hourlyRate := Appointment.hourlyRate a;
     Appointment.totalAmount := Appointment.totalAmount a;
     Appointment.status := CANCELLED;
     Appointment.paymentStatus := Appointment.paymentStatus a;
     Appointment.cancelledAt := Some now;
     Appointment.cancellationReason :=
       patchOpt reason (Appointment.cancellationReason a);
     Appointment.createdAt := Appointment.createdAt a;
     Appointment.updatedAt := touch now (Appointment.updatedAt a) |}.

Definition cancel (currentUser : User.t) (now : Date) (id : string)
    (reason : option string) : Handler Appointment.t :=
  appointment <- appointment_findUnique id ;;
  match appointment with
  | None => throw NotFound
  | Some appointment =>
    canCancel <- hasAccess currentUser appointment ;;
    if negb canCancel then throw Forbidden
    else if includes [COMPLETED; CANCELLED; NO_SHOW] (Appointment.status appointment)
    then throw CannotBeCancelled
    else appointment_update id (cancelDataOf reason now)
  end.

(** ** The properties of the specification, as decidable predicates *)

(** Two half-open intervals [[a, b)] and [[c, d)] overlap. *)
Definition overlaps (a b c d : Date) : bool := (a <? d) && (c <? b).

(** A status other than [COMPLETED], [CANCELLED] and [NO_SHOW]. *)
Definition nonTerminal (s : AppointmentStatus) : bool :=
  match s with
  | SCHEDULED | CONFIRMED | IN_PROGRESS => true
  | COMPLETED | CANCELLED | NO_SHOW => false
  end.

(** Two appointments that double-book their provider. *)
Definition doubleBooked (a b : Appointment.t) : bool :=
  String.eqb (Appointment.providerId a) (Appointment.providerId b)
  && nonTerminal (Appointment.status a)
  && nonTerminal (Appointment.status b)
  && overlaps (Appointment.startTime a) (Appointment.endTime a)
              (Appointment.startTime b) (Appointment.endTime b).

(** No two rows of the table double-book a provider. *)
Fixpoint noDoubleBooking (l : list Appointment.t) : bool :=
  match l with
  | [] => true
  | a :: rest =>
      forallb (fun b => negb (doubleBooked a b)) rest && noDoubleBooking rest
  end.

(** The stored duration is the length of the interval in minutes. *)
Definition durationIsDerived (a : Appointment.t) : bool :=
  Qeq_bool (inject_Z (Appointment.duration a))
           (minutesBetween (Appointment.startTime a) (Appointment.endTime a)).

(** An amount of money that is a whole number of cents. *)
Definition wholeCents (q : Q) : bool :=
  Qeq_bool (inject_Z (Qfloor (q * 100))) (q * 100).

(** The transition table of the specification. *)
Inductive Permitted : AppointmentStatus -> AppointmentStatus -> Prop :=
| scheduled_confirmed : Permitted SCHEDULED CONFIRMED
| scheduled_cancelled : Permitted SCHEDULED CANCELLED
| confirmed_in_progress : Permitted CONFIRMED IN_PROGRESS
| confirmed_cancelled : Permitted CONFIRMED CANCELLED
| in_progress_completed : Permitted IN_PROGRESS COMPLETED
| in_progress_cancelled : Permitted IN_PROGRESS CANCELLED.

(** The columns a cancellation may not touch. *)
Definition sameOutsideCancellation (a a' : Appointment.t) : Prop :=
  Appointment.id a' = Appointment.id a
  /\ Appointment.clientId a' = Appointment.clientId a
  /\ Appointment.providerId a' = Appointment.providerId a
  /\ Appointment.serviceType a' = Appointment.serviceType a
  /\ Appointment.title a' = Appointment.title a
  /\ Appointment.description a' = Appointment.description a
  /\ Appointment.startTime a' = Appointment.startTime a
  /\ Appointment.endTime a' = Appointment.endTime a
  /\ Appointment.duration a' = Appointment.duration a
  /\ Appointment.isRemote a' = Appointment.isRemote a
  /\ Appointment.location a' = Appointment.location a
  /\ Appointment.meetingLink a' = Appointment.meetingLink a
  /\ Appointment.notes a' = Appointment.notes a
  /\ Appointment.goals a' = Appointment.goals a
  /\ Appointment.materials a' = Appointment.materials a
  /\ Appointment.homework a' = Appointment.homework a
  /\ Appointment.hourlyRate a' = Appointment.hourlyRate a
  /\ Appointment.totalAmount a' = Appointment.totalAmount a
  /\ Appointment.paymentStatus a' = Appointment.paymentStatus a
  /\ Appointment.createdAt a' = Appointment.createdAt a.

(** An update body that carries a status and, may be, a reason, and
    nothing else. *)
Definition onlyStatusAndReason (u : UpdateAppointmentRequest.t) : Prop :=
  UpdateAppointmentRequest.title u = None
  /\ UpdateAppointmentRequest.description u = None
  /\ UpdateAppointmentRequest.startTime u = None
  /\ UpdateAppointmentRequest.endTime u = None
  /\ UpdateAppointmentRequest.isRemote u = None
  /\ UpdateAppointmentRequest.location u = None
  /\ UpdateAppointmentRequest.meetingLink u = None
  /\ UpdateAppointmentRequest.notes u = None
  /\ UpdateAppointmentRequest.goals u = None
  /\ UpdateAppointmentRequest.materials u = None
  /\ UpdateAppointmentRequest.homework u = None.

(** The body without its status and its reason: what the request asks for
    beside the transition. *)
Definition otherEdits (u : UpdateAppointmentRequest.t)
  : UpdateAppointmentRequest.t :=
  {| UpdateAppointmentRequest.title := UpdateAppointmentRequest.title u;
     UpdateAppointmentRequest.description :=
       UpdateAppointmentRequest.description u;
     UpdateAppointmentRequest.startTime := UpdateAppointmentRequest.startTime u;
     UpdateAppointmentRequest.endTime := UpdateAppointmentRequest.endTime u;
     UpdateAppointmentRequest.status := None;
     UpdateAppointmentRequest.isRemote := UpdateAppointmentRequest.isRemote u;
     UpdateAppointmentRequest.location := UpdateAppointmentRequest.location u;
     UpdateAppointmentRequest.meetingLink :=
       UpdateAppointmentRequest.meetingLink u;
     UpdateAppointmentRequest.notes := UpdateAppointmentRequest.notes u;
     UpdateAppointmentRequest.goals := UpdateAppointmentRequest.goals u;
     UpdateAppointmentRequest.materials := UpdateAppointmentRequest.materials u;
     UpdateAppointmentRequest.homework := UpdateAppointmentRequest.homework u;
     UpdateAppointmentRequest.cancellationReason := None |}.

(** Outside the status, the cancellation columns and the audit timestamp,
    [a'] differs from [a] in no column but those the body [u] names, which
    have the body's value. *)
Definition changedAsAsked (u : UpdateAppointmentRequest.t)
    (a a' : Appointment.t) : Prop :=
  Appointment.id a' = Appointment.id a
  /\ Appointment.clientId a' = Appointment.clientId a
  /\ Appointment.providerId a' = Appointment.providerId a
  /\ Appointment.serviceType a' = Appointment.serviceType a
  /\ Appointment.duration a' = Appointment.duration a
  /\ Appointment.hourlyRate a' = Appointment.hourlyRate a
  /\ Appointment.totalAmount a' = Appointment.totalAmount a
  /\ Appointment.paymentStatus a' = Appointment.paymentStatus a
  /\ Appointment.createdAt a' = Appointment.createdAt a
  /\ Appointment.title a'
     = match UpdateAppointmentRequest.title u with
       | Some v => v | None => Appointment.title a end
  /\ Appointment.description a'
     = match UpdateAppointmentRequest.description u with
       | Some v => Some v | None => Appointment.description a end
  /\ Appointment.startTime a'
     = match UpdateAppointmentRequest.startTime u with
       | Some v => v | None => Appointment.startTime a end
  /\ Appointment.endTime a'
     = match UpdateAppointmentRequest.endTime u with
       | Some v => v | None => Appointment.endTime a end
  /\ Appointment.isRemote a'
     = match UpdateAppointmentRequest.isRemote u with
       | Some v => v | None => Appointment.isRemote a end
  /\ Appointment.location a'
     = match UpdateAppointmentRequest.location u with
       | Some v => Some v | None => Appointment.location a end
  /\ Appointment.meetingLink a'
     = match UpdateAppointmentRequest.meetingLink u with
       | Some v => Some v | None => Appointment.meetingLink a end
  /\ Appointment.notes a'
     = match UpdateAppointmentRequest.notes u with
       | Some v => Some v | None => Appointment.notes a end
  /\ Appointment.goals a'
     = match UpdateAppointmentRequest.goals u with
       | Some v => Some v | None => Appointment.goals a end
  /\ Appointment.materials a'
     = match UpdateAppointmentRequest.materials u with
       | Some v => v | None => Appointment.materials a end
  /\ Appointment.homework a'
     = match UpdateAppointmentRequest.homework u with
       | Some v => Some v | None => Appointment.homework a end.

(** ** Sample data: one day of provider bookings *)

Module Sample.
Definition minute : Z := 60 * 1000.
Definition hour : Z := 60 * minute.

(** The clock of the requests, and a time of the following day. *)
Definition now : Date := 1800000000000.
Definition at_ (h m : Z) : Date := now + 16 * hour + h * hour + m * minute.

Definition family : User.t :=
  User.mk "user-family" "family@example.com" "John" "Smith" FAMILY.
Definition admin : User.t :=
  User.mk "user-admin" "admin@beyondspeech.com" "Admin" "User" ADMIN.

(** The seeded provider, at 120 an hour; one at 100; one with no rate. *)
Definition slp : ProviderProfile.t :=
  ProviderProfile.mk "prov-slp" "user-slp" (Some (120 # 1)) true true.
Definition ot : ProviderProfile.t :=
  ProviderProfile.mk "prov-ot" "user-ot" (Some (100 # 1)) true true.
Definition pt : ProviderProfile.t :=
  ProviderProfile.mk "prov-pt" "user-pt" None true true.

Definition request (providerId : string) (startTime endTime : Date)
  : CreateAppointmentRequest.t :=
  CreateAppointmentRequest.mk providerId SPEECH_THERAPY "Session" None
    startTime endTime None None None None None.

Definition emptyDb : Db := mkDb [] [slp; ot; pt].

(** A zone five hours behind UTC in which the clocks go forward an hour at
    the instant [change]; a local time that the change skips is read with
    the offset from before it. *)
Definition springForward (change : Date) : TimeZone.t :=
  TimeZone.mk (fun t => if t <? change then - 5 * hour else - 4 * hour)
              (fun l => if l <? change - 4 * hour then - 5 * hour
                        else - 4 * hour).

(** The zone of a server whose clocks go forward 58 days after [now], at
    07:00 UTC. *)
Definition newYork : TimeZone.t :=
  springForward (now + 58 * msPerDay - hour).

(** The table after [family] booked [slp] for the given slot. *)
Definition booked (id : string) (startTime endTime : Date) (db : Db) : Db :=
  fst (create family now id (request "prov-slp" startTime endTime) db).

Definition reschedule (startTime endTime : Date) : UpdateAppointmentRequest.t :=
  UpdateAppointmentRequest.mk None None (Some startTime) (Some endTime)
    None None None None None None None None None.

Definition setStatus (s : AppointmentStatus) (reason : option string)
  : UpdateAppointmentRequest.t :=
  UpdateAppointmentRequest.mk None None None None (Some s)
    None None None None None None None reason.
End Sample.

(** ** The reading handlers: GET /, GET /:id, GET /upcoming/list *)

Definition ServiceType_eqb (a b : ServiceType) : bool :=
  match a, b with
  | SPEECH_THERAPY, SPEECH_THERAPY
  | OCCUPATIONAL_THERAPY, OCCUPATIONAL_THERAPY
  | PHYSICAL_THERAPY, PHYSICAL_THERAPY
  | LITERACY_SUPPORT, LITERACY_SUPPORT
  | GROUP_SESSION, GROUP_SESSION
  | EVALUATION, EVALUATION => true
  | _, _ => false
  end.

(** [req.user] as the reading handlers use it: the user row together with
    its [providerProfile] relation, which is absent for a user who has no
    provider profile. *)
Module AuthUser.
Record t : Type := mk {
  user : User.t;
  providerProfile : option ProviderProfile.t
}.
End AuthUser.

(** The [where] object of a query on appointments. A key that is absent, or
    that was assigned [undefined], puts no condition on the rows. *)
Module Where.
Record t : Type := mk {
  providerId : option string;
  clientId : option string;
  status : option (list AppointmentStatus);
  serviceType : option (list ServiceType);
  startTime_gte : option Date;
  startTime_lte : option Date
}.

(** The object [{}]. *)
Definition empty : t := mk None None None None None None.

Definition with_providerId (v : option string) (w : t) : t :=
  mk v (clientId w) (status w) (serviceType w) (startTime_gte w) (startTime_lte w).
Definition with_clientId (v : option string) (w : t) : t :=
  mk (providerId w) v (status w) (serviceType w) (startTime_gte w) (startTime_lte w).
Definition with_status (v : option (list AppointmentStatus)) (w : t) : t :=
  mk (providerId w) (clientId w) v (serviceType w) (startTime_gte w) (startTime_lte w).
Definition with_serviceType (v : option (list ServiceType)) (w : t) : t :=
  mk (providerId w) (clientId w) (status w) v (startTime_gte w) (startTime_lte w).
Definition with_gte (v : option Date) (w : t) : t :=
  mk (providerId w) (clientId w) (status w) (serviceType w) v (startTime_lte w).
Definition with_lte (v : option Date) (w : t) : t :=
  mk (providerId w) (clientId w) (status w) (serviceType w) (startTime_gte w) v.
End Where.

(** One optional condition of a [where] object. *)
Definition holds {A} (cond : option A) (test : A -> bool) : bool :=
  match cond with Some c => test c | None => true end.

(** The rows a [where] object selects. *)
Definition matches (w : Where.t) (a : Appointment.t) : bool :=
  holds (Where.providerId w) (String.eqb (Appointment.providerId a))
  && holds (Where.clientId w) (String.eqb (Appointment.clientId a))
  && holds (Where.status w) (fun l => includes l (Appointment.status a))
  && holds (Where.serviceType w)
           (existsb (ServiceType_eqb (Appointment.serviceType a)))
  && holds (Where.startTime_gte w) (fun d => d <=? Appointment.startTime a)
  && holds (Where.startTime_lte w) (fun d => Appointment.startTime a <=? d).

(** [orderBy: { startTime: ... }] asks for the rows in the order of that
    column and leaves the order of rows that agree on it to the database,
    which may choose it anew at every query: an [order] is any function
    that [ordersBy] admits. *)
Definition ordersBy {A} (before : A -> A -> bool) (order : list A -> list A)
  : Prop :=
  forall l, Permutation (order l) l
            /\ StronglySorted (fun a b => before a b = true) (order l).

(** One such order: a stable insertion sort, which keeps rows that agree
    on the column in table order. *)
Fixpoint insertBy {A} (before : A -> A -> bool) (x : A) (l : list A) : list A :=
  match l with
  | [] => [x]
  | y :: l' => if before x y then x :: l else y :: insertBy before x l'
  end.
Definition sortBy {A} (before : A -> A -> bool) (l : list A) : list A :=
  fold_right (insertBy before) [] l.

Definition startTimeDesc (x y : Appointment.t) : bool :=
  Appointment.startTime y <=? Appointment.startTime x.
Definition startTimeAsc (x y : Appointment.t) : bool :=
  Appointment.startTime x <=? Appointment.startTime y.

(** [prisma.appointment.findMany({ where, skip, take, orderBy })]: a
    negative [skip] is refused by the client; a negative [take] reads the
    list from its end. *)
Definition appointment_findMany (w : Where.t)
    (before : Appointment.t -> Appointment.t -> bool) (skip take : Z)
  : Handler (list Appointment.t) :=
  fun db =>
    if skip <? 0 then (db, Throw InternalError)
    else
      let rows := sortBy before (filter (matches w) (appointments db)) in
      (db, Ok (if 0 <=? take
               then firstn (Z.to_nat take) (skipn (Z.to_nat skip) rows)
               else rev (firstn (Z.to_nat (- take))
                                (skipn (Z.to_nat skip) (rev rows))))).

(** The same query with the order [order] chosen by the database. *)
Definition appointment_findManyIn
    (order : list Appointment.t -> list Appointment.t) (w : Where.t)
    (skip take : Z) : Handler (list Appointment.t) :=
  fun db =>
    if skip <? 0 then (db, Throw InternalError)
    else
      let rows := order (filter (matches w) (appointments db)) in
      (db, Ok (if 0 <=? take
               then firstn (Z.to_nat take) (skipn (Z.to_nat skip) rows)
               else rev (firstn (Z.to_nat (- take))
                                (skipn (Z.to_nat skip) (rev rows))))).

Definition appointment_count (w : Where.t) : Handler Z :=
  fun db => (db, Ok (Z.of_nat (length (filter (matches w) (appointments db))))).

(** The role part of a [where] object, written twice in the source (list
    and upcoming): an administrator is not restricted, a provider role sees
    the appointments of its provider profile, every other role the
    appointments it is the client of. *)
Definition restrictToRole (currentUser : AuthUser.t) (w : Where.t) : Where.t :=
  match User.role (AuthUser.user currentUser) with
  | ADMIN => w
  | SLP | OT | PT =>
      Where.with_providerId
        (option_map ProviderProfile.id (AuthUser.providerProfile currentUser)) w
  | _ => Where.with_clientId (Some (User.id (AuthUser.user currentUser))) w
  end.

(** Query string of GET /, with the values already read as what they
    stand for. *)
Module SearchAppointmentsRequest.
Record t : Type := mk {
  status : option (list AppointmentStatus);
  serviceType : option (list ServiceType);
  startDate : option Date;
  endDate : option Date;
  providerId : option string;
  clientId : option string;
  page : option Z;
  limit : option Z
}.

Definition empty : t := mk None None None None None None None None.

Definition with_page (p : Z) (q : t) : t :=
  mk (status q) (serviceType q) (startDate q) (endDate q) (providerId q)
     (clientId q) (Some p) (limit q).
End SearchAppointmentsRequest.

(** A query parameter that is present and not the empty string. *)
Definition truthy (s : option string) : bool :=
  match s with Some v => negb (String.eqb v "") | None => false end.

Definition isAdmin (currentUser : AuthUser.t) : bool :=
  UserRole_eqb (User.role (AuthUser.user currentUser)) ADMIN.

Definition listWhere (currentUser : AuthUser.t)
    (q : SearchAppointmentsRequest.t) : Where.t :=
  let w := restrictToRole currentUser Where.empty in
  let w := match SearchAppointmentsRequest.status q with
           | Some statusArray => Where.with_status (Some statusArray) w
           | None => w
           end in
  let w := match SearchAppointmentsRequest.serviceType q with
           | Some serviceTypeArray =>
               Where.with_serviceType (Some serviceTypeArray) w
           | None => w
           end in
  let w := match SearchAppointmentsRequest.startDate q with
           | Some d => Where.with_gte (Some d) w
           | None => w
           end in
  let w := match SearchAppointmentsRequest.endDate q with
           | Some d => Where.with_lte (Some d) w
           | None => w
           end in
  let w := if truthy (SearchAppointmentsRequest.providerId q)
              && isAdmin currentUser
           then Where.with_providerId (SearchAppointmentsRequest.providerId q) w
           else w in
  if truthy (SearchAppointmentsRequest.clientId q) && isAdmin currentUser
  then Where.with_clientId (SearchAppointmentsRequest.clientId q) w
  else w.

(** [Math.ceil(total / limit)]; a division by zero gives no finite
    number. *)
Definition totalPagesOf (total limit : Z) : option Z :=
  if limit =? 0 then None
  else Some (Qceiling (inject_Z total / inject_Z limit)).

Module AppointmentsPage.
Record t : Type := mk {
  data : list Appointment.t;
  page : Z;
  limit : Z;
  total : Z;
  totalPages : option Z
}.
End AppointmentsPage.

(** GET / : the appointments the caller may see, a page at a time, latest
    first. The relations included in the answer (client, provider) are
    read-only projections and are left out. *)
Definition getAppointments (currentUser : AuthUser.t)
    (q : SearchAppointmentsRequest.t) : Handler AppointmentsPage.t :=
  let page := match SearchAppointmentsRequest.page q with
              | Some p => p | None => 1 end in
  let limit := match SearchAppointmentsRequest.limit q with
               | Some l => l | None => 10 end in
  let skip := (page - 1) * limit in
  let take := limit in
  let where_ := listWhere currentUser q in
  appointments_ <- appointment_findMany where_ startTimeDesc skip take ;;
  total <- appointment_count where_ ;;
  ret {| AppointmentsPage.data := appointments_;
         AppointmentsPage.page := page;
         AppointmentsPage.limit := limit;
         AppointmentsPage.total := total;
         AppointmentsPage.totalPages := totalPagesOf total limit |}.

(** The same handler when the database answers its query in the order
    [order]; [getAppointments] is the case of the stable sort. *)
Definition getAppointmentsIn
    (order : list Appointment.t -> list Appointment.t)
    (currentUser : AuthUser.t)
    (q : SearchAppointmentsRequest.t) : Handler AppointmentsPage.t :=
  let page := match SearchAppointmentsRequest.page q with
              | Some p => p | None => 1 end in
  let limit := match SearchAppointmentsRequest.limit q with
               | Some l => l | None => 10 end in
  let skip := (page - 1) * limit in
  let take := limit in
  let where_ := listWhere currentUser q in
  appointments_ <- appointment_findManyIn order where_ skip take ;;
  total <- appointment_count where_ ;;
  ret {| AppointmentsPage.data := appointments_;
         AppointmentsPage.page := page;
         AppointmentsPage.limit := limit;
         AppointmentsPage.total := total;
         AppointmentsPage.totalPages := totalPagesOf total limit |}.

(** GET /:id : one appointment, for the callers who have access to it. *)
Definition getAppointmentById (currentUser : User.t) (id : string)
  : Handler Appointment.t :=
  appointment <- appointment_findUnique id ;;
  match appointment with
  | None => throw NotFound
  | Some appointment =>
    hasAccess_ <- hasAccess currentUser appointment ;;
    if negb hasAccess_ then throw Forbidden else ret appointment
  end.

(** GET /upcoming/list : the next appointments of the caller, soonest
    first. *)
Definition upcomingWhere (currentUser : AuthUser.t) (now : Date) : Where.t :=
  restrictToRole currentUser
    (Where.with_status (Some [SCHEDULED; CONFIRMED])
       (Where.with_gte (Some now) Where.empty)).

Definition getUpcoming (currentUser : AuthUser.t) (now : Date)
    (limit : option Z) : Handler (list Appointment.t) :=
  let take := match limit with Some l => l | None => 5 end in
  appointment_findMany (upcomingWhere currentUser now) startTimeAsc 0 take.

(** GET /stats/overview : the figures of the administrators' dashboard
    (the route is behind [requireRole(['ADMIN'])]). *)
Module Stats.
Record t : Type := mk {
  totalAppointments : Z;
  scheduledAppointments : Z;
  confirmedAppointments : Z;
  completedAppointments : Z;
  cancelledAppointments : Z;
  appointmentsByServiceType : list (ServiceType * Z);
  recentAppointments : list Appointment.t
}.
End Stats.

Definition statusIs (s : AppointmentStatus) : Where.t :=
  Where.with_status (Some [s]) Where.empty.

Definition allServiceTypes : list ServiceType :=
  [SPEECH_THERAPY; OCCUPATIONAL_THERAPY; PHYSICAL_THERAPY;
   LITERACY_SUPPORT; GROUP_SESSION; EVALUATION].

(** [groupBy({ by: ['serviceType'], _count })]: one group for each service
    type that some row has, with the number of its rows; the groups are
    listed in the order of the enumeration, the database leaving their
    order open. *)
Definition appointment_groupByServiceType : Handler (list (ServiceType * Z)) :=
  fun db =>
    (db,
     Ok (filter (fun g => 0 <? snd g)
           (map (fun t =>
                   (t, Z.of_nat
                         (length
                            (filter (fun a => ServiceType_eqb
                                                (Appointment.serviceType a) t)
                                    (appointments db)))))
                allServiceTypes))).

Definition createdAtDesc (x y : Appointment.t) : bool :=
  Appointment.createdAt y <=? Appointment.createdAt x.

Definition getStatsOverview : Handler Stats.t :=
  totalAppointments <- appointment_count Where.empty ;;
  scheduledAppointments <- appointment_count (statusIs SCHEDULED) ;;
  confirmedAppointments <- appointment_count (statusIs CONFIRMED) ;;
  completedAppointments <- appointment_count (statusIs COMPLETED) ;;
  cancelledAppointments <- appointment_count (statusIs CANCELLED) ;;
  appointmentsByServiceType <- appointment_groupByServiceType ;;
  recentAppointments <- appointment_findMany Where.empty createdAtDesc 0 5 ;;
  ret {| Stats.totalAppointments := totalAppointments;
         Stats.scheduledAppointments := scheduledAppointments;
         Stats.confirmedAppointments := confirmedAppointments;
         Stats.completedAppointments := completedAppointments;
         Stats.cancelledAppointments := cancelledAppointments;
         Stats.appointmentsByServiceType := appointmentsByServiceType;
         Stats.recentAppointments := recentAppointments |}.

(** The number of rows of a table in one of the given statuses. *)
Definition countStatus (l : list AppointmentStatus) (db : Db) : Z :=
  Z.of_nat (length (filter (fun a => includes l (Appointment.status a))
                           (appointments db))).

(** ** Predicates for the properties of the handlers *)

(** The columns no handler of this file rewrites once a row exists. *)
Definition frozen (a : Appointment.t)
  : string * string * string * ServiceType * Z * Q * Q * PaymentStatus.t * Date :=
  (Appointment.id a, Appointment.clientId a, Appointment.providerId a,
   Appointment.serviceType a, Appointment.duration a,
   Appointment.hourlyRate a, Appointment.totalAmount a,
   Appointment.paymentStatus a, Appointment.createdAt a).

(** An appointment that ends after it starts. *)
Definition positiveLength (a : Appointment.t) : bool :=
  Appointment.startTime a <? Appointment.endTime a.


(** [validate(schemas.updateAppointment)], which runs before the update
    handler and answers 400 on a body it refuses. [Joi.string()] takes
    every string but the empty one, and [.optional()] lets the key be
    absent; [isUri] stands for the test of [.uri()]. The cancel route has
    no such step. *)
Definition Joi_string (s : string) : bool := negb (String.eqb s "").
Definition Joi_optional {A} (check : A -> bool) (v : option A) : bool :=
  match v with
  | Some x => check x
  | None => true
  end.

Definition schemas_updateAppointment (isUri : string -> bool)
    (body : UpdateAppointmentRequest.t) : bool :=
  Joi_optional Joi_string (UpdateAppointmentRequest.title body)
  && Joi_optional Joi_string (UpdateAppointmentRequest.description body)
  && Joi_optional Joi_string (UpdateAppointmentRequest.location body)
  && Joi_optional (fun s => Joi_string s && isUri s)
                  (UpdateAppointmentRequest.meetingLink body)
  && Joi_optional Joi_string (UpdateAppointmentRequest.notes body)
  && Joi_optional Joi_string (UpdateAppointmentRequest.goals body)
  && Joi_optional (forallb Joi_string) (UpdateAppointmentRequest.materials body)
  && Joi_optional Joi_string (UpdateAppointmentRequest.homework body)
  && Joi_optional Joi_string (UpdateAppointmentRequest.cancellationReason body).

Definition ValidationError : ApiError := createError "Validation error" 400.

(** The route [PUT /:id]: the validation, then the handler. *)
Definition put (isUri : string -> bool) (currentUser : User.t) (now : Date)
    (id : string) (body : UpdateAppointmentRequest.t) : Handler Appointment.t :=
  if schemas_updateAppointment isUri body
  then update currentUser now id body
  else throw ValidationError.

(** The update body [{ status: 'CANCELLED', cancellationReason: reason }],
    the reason being left out when there is none. *)
Definition cancellationBody (reason : option string)
  : UpdateAppointmentRequest.t :=
  UpdateAppointmentRequest.mk None None None None (Some CANCELLED)
    None None None None None None None reason.

(** Page [p] (from 1) of a list cut in pages of [k] rows. *)
Definition pageOf {A} (k : nat) (rows : list A) (p : nat) : list A :=
  firstn k (skipn ((p - 1) * k) rows).

(** The roles that the reading handlers treat as providers. *)
Definition isProviderRole (r : UserRole) : bool :=
  match r with SLP | OT | PT => true | _ => false end.

(** A query with no condition on the rows (paging apart). *)
Definition noFilter (q : SearchAppointmentsRequest.t) : Prop :=
  SearchAppointmentsRequest.status q = None
  /\ SearchAppointmentsRequest.serviceType q = None
  /\ SearchAppointmentsRequest.startDate q = None
  /\ SearchAppointmentsRequest.endDate q = None.

(** The rows of an answer of GET /; none when the request failed. *)
Definition answerRows (r : Response AppointmentsPage.t) : list Appointment.t :=
  match r with
  | Ok page => AppointmentsPage.data page
  | Throw _ => []
  end.

(** Sample callers of the reading handlers. *)
Module SampleCallers.
Definition family : AuthUser.t := AuthUser.mk Sample.family None.
Definition admin : AuthUser.t := AuthUser.mk Sample.admin None.
Definition slpUser : User.t :=
  User.mk "user-slp" "slp@example.com" "Sarah" "Johnson" SLP.
Definition slp : AuthUser.t := AuthUser.mk slpUser (Some Sample.slp).
Definition slpWithoutProfile : AuthUser.t := AuthUser.mk slpUser None.
Definition stranger : User.t :=
  User.mk "user-other" "other@example.com" "Jane" "Doe" FAMILY.

(** [prov-slp] booked by [family] for 10:00 to 11:00, and [prov-ot] booked
    by [stranger] for 14:00 to 15:00. *)
Definition twoBookings : Db :=
  fst (create stranger Sample.now "a2"
         (Sample.request "prov-ot" (Sample.at_ 14 0) (Sample.at_ 15 0))
         (Sample.booked "a1" (Sample.at_ 10 0) (Sample.at_ 11 0) Sample.emptyDb)).
End SampleCallers.

(** * Proofs *)

(** ** Booleans of the embedding *)

Lemma AppointmentStatus_eqb_eq (a b : AppointmentStatus) :
  AppointmentStatus_eqb a b = true <-> a = b.
Proof. destruct a, b; simpl; split; congruence. Qed.

Lemma includes_In (l : list AppointmentStatus) (s : AppointmentStatus) :
  includes l s = true <-> In s l.
Proof.
  unfold includes. rewrite existsb_exists. split.
  - intros [x [Hin Heq]]. apply AppointmentStatus_eqb_eq in Heq. now subst.
  - intros Hin. exists s. split; [assumption | now apply AppointmentStatus_eqb_eq].
Qed.

Lemma includes_nonTerminal (s : AppointmentStatus) :
  includes [SCHEDULED; CONFIRMED; IN_PROGRESS] s = nonTerminal s.
Proof. now destruct s. Qed.

Lemma includes_terminal (s : AppointmentStatus) :
  includes [COMPLETED; CANCELLED; NO_SHOW] s = negb (nonTerminal s).
Proof. now destruct s. Qed.

(** The table of the handler is the table of the specification. *)
Lemma validTransitions_Permitted (from to : AppointmentStatus) :
  includes (validTransitions from) to = true <-> Permitted from to.
Proof.
  split.
  - destruct from, to; simpl; intros H; try discriminate; constructor.
  - intros H. destruct H; reflexivity.
Qed.

Lemma terminal_not_Permitted (from to : AppointmentStatus) :
  nonTerminal from = false -> ~ Permitted from to.
Proof. intros Hterm H. destruct H; discriminate. Qed.

(** ** The conflict query *)

Section ConflictQuery.
Variables (providerId : string) (startTime endTime : Date).
Variable existing : Appointment.t.

Let es := Appointment.startTime existing.
Let ee := Appointment.endTime existing.

Lemma conflictWhere_spec :
  conflictWhere providerId startTime endTime existing = true <->
  Appointment.providerId existing = providerId
  /\ nonTerminal (Appointment.status existing) = true
  /\ ((startTime <= es /\ es < endTime) \/ (startTime < ee /\ ee <= endTime)).
Proof.
  unfold conflictWhere, es, ee. rewrite includes_nonTerminal.
  rewrite !andb_true_iff, orb_true_iff, !andb_true_iff.
  rewrite String.eqb_eq, !Z.leb_le, !Z.ltb_lt. tauto.
Qed.

Lemma overlaps_spec :
  overlaps startTime endTime es ee = true <-> startTime < ee /\ es < endTime.
Proof. unfold overlaps. rewrite andb_true_iff, !Z.ltb_lt. tauto. Qed.

(** Against an existing appointment of positive length the query never
    reports a conflict without an overlap. *)
Lemma conflictWhere_overlaps :
  es < ee ->
  conflictWhere providerId startTime endTime existing = true ->
  overlaps startTime endTime es ee = true.
Proof.
  intros Hpos H. apply conflictWhere_spec in H. apply overlaps_spec. lia.
Qed.


(** A slot that does not end after it starts matches nothing. *)
Lemma conflictWhere_empty_slot :
  endTime <= startTime ->
  conflictWhere providerId startTime endTime existing = false.
Proof.
  intros Hle. apply not_true_is_false. intros H.
  apply conflictWhere_spec in H. lia.
Qed.
End ConflictQuery.

Lemma find_none_forall {A} (f : A -> bool) (l : list A) :
  (forall x, In x l -> f x = false) -> find f l = None.
Proof.
  induction l as [| x l IH]; intros H; simpl; [reflexivity |].
  rewrite (H x (or_introl eq_refl)). apply IH. intros y Hy. apply H. now right.
Qed.

(** ** The creation handler, step by step *)

Section CreateWith.
Variable addDays_ : Date -> Z -> Date.
Variables (currentUser : User.t) (now : Date) (newId : string).
Variable appointmentData : CreateAppointmentRequest.t.
Variable db : Db.

Let startTime := CreateAppointmentRequest.startTime appointmentData.
Let endTime := CreateAppointmentRequest.endTime appointmentData.
Let providerId := CreateAppointmentRequest.providerId appointmentData.

Lemma createWith_no_provider :
  find (fun p => String.eqb (ProviderProfile.id p) providerId)
       (providerProfiles db) = None ->
  createWith addDays_ currentUser now newId appointmentData db = (db, Throw ProviderNotFound).
Proof.
  intros H. unfold createWith, bind, providerProfile_findUnique.
  fold providerId. now rewrite H.
Qed.

Variable provider : ProviderProfile.t.
Hypothesis provider_found :
  find (fun p => String.eqb (ProviderProfile.id p) providerId)
       (providerProfiles db) = Some provider.

Lemma createWith_not_eligible :
  ProviderProfile.licenseVerified provider = false
  \/ ProviderProfile.backgroundCheck provider = false ->
  createWith addDays_ currentUser now newId appointmentData db
  = (db, Throw ProviderNotEligible).
Proof.
  intros H. unfold createWith, bind, providerProfile_findUnique.
  fold providerId. rewrite provider_found.
  destruct H as [H | H]; rewrite H; simpl; [reflexivity |].
  now rewrite orb_true_r.
Qed.

Hypothesis license_verified : ProviderProfile.licenseVerified provider = true.
Hypothesis background_check : ProviderProfile.backgroundCheck provider = true.

(** With an eligible provider, what is left of the handler. *)
Lemma createWith_eligible :
  createWith addDays_ currentUser now newId appointmentData db =
  if isBefore startTime now then (db, Throw PastBooking)
  else if isAfter startTime (addDays_ now 90) then (db, Throw BookingTooFarOut)
  else
    match find (conflictWhere providerId startTime endTime) (appointments db) with
    | Some _ => (db, Throw SchedulingConflict)
    | None =>
        let a := createDataOf currentUser now newId appointmentData provider in
        (mkDb (appointments db ++ [a])%list (providerProfiles db), Ok a)
    end.
Proof.
  unfold createWith, bind, providerProfile_findUnique.
  fold providerId startTime endTime.
  rewrite provider_found, license_verified, background_check. simpl.
  destruct (isBefore startTime now); [reflexivity |].
  destruct (isAfter startTime (addDays_ now 90)); [reflexivity |].
  unfold appointment_findFirst, appointment_create, throw.
  now destruct (find _ (appointments db)).
Qed.

Lemma createWith_in_window :
  now <= startTime <= addDays_ now 90 ->
  createWith addDays_ currentUser now newId appointmentData db =
  match find (conflictWhere providerId startTime endTime) (appointments db) with
  | Some _ => (db, Throw SchedulingConflict)
  | None =>
      let a := createDataOf currentUser now newId appointmentData provider in
      (mkDb (appointments db ++ [a])%list (providerProfiles db), Ok a)
  end.
Proof.
  intros [Hlo Hhi]. rewrite createWith_eligible. unfold isBefore, isAfter.
  apply Z.ltb_ge in Hlo. apply Z.ltb_ge in Hhi. now rewrite Hlo, Hhi.
Qed.
End CreateWith.

(** The same steps for the server in UTC. *)
Section Create.
Variables (currentUser : User.t) (now : Date) (newId : string).
Variable appointmentData : CreateAppointmentRequest.t.
Variable db : Db.

Let startTime := CreateAppointmentRequest.startTime appointmentData.
Let endTime := CreateAppointmentRequest.endTime appointmentData.
Let providerId := CreateAppointmentRequest.providerId appointmentData.

Lemma create_no_provider :
  find (fun p => String.eqb (ProviderProfile.id p) providerId)
       (providerProfiles db) = None ->
  create currentUser now newId appointmentData db = (db, Throw ProviderNotFound).
Proof. apply createWith_no_provider. Qed.

Variable provider : ProviderProfile.t.
Hypothesis provider_found :
  find (fun p => String.eqb (ProviderProfile.id p) providerId)
       (providerProfiles db) = Some provider.

Lemma create_not_eligible :
  ProviderProfile.licenseVerified provider = false
  \/ ProviderProfile.backgroundCheck provider = false ->
  create currentUser now newId appointmentData db
  = (db, Throw ProviderNotEligible).
Proof. now apply createWith_not_eligible. Qed.

Hypothesis license_verified : ProviderProfile.licenseVerified provider = true.
Hypothesis background_check : ProviderProfile.backgroundCheck provider = true.

Lemma create_eligible :
  create currentUser now newId appointmentData db =
  if isBefore startTime now then (db, Throw PastBooking)
  else if isAfter startTime (addDays now 90) then (db, Throw BookingTooFarOut)
  else
    match find (conflictWhere providerId startTime endTime) (appointments db) with
    | Some _ => (db, Throw SchedulingConflict)
    | None =>
        let a := createDataOf currentUser now newId appointmentData provider in
        (mkDb (appointments db ++ [a])%list (providerProfiles db), Ok a)
    end.
Proof. now apply createWith_eligible. Qed.

Lemma create_in_window :
  now <= startTime <= addDays now 90 ->
  create currentUser now newId appointmentData db =
  match find (conflictWhere providerId startTime endTime) (appointments db) with
  | Some _ => (db, Throw SchedulingConflict)
  | None =>
      let a := createDataOf currentUser now newId appointmentData provider in
      (mkDb (appointments db ++ [a])%list (providerProfiles db), Ok a)
  end.
Proof. now apply createWith_in_window. Qed.
End Create.

(** ** Durations and amounts *)

Lemma minutesBetween_nonpos (startTime endTime : Date) :
  endTime <= startTime -> (minutesBetween startTime endTime <= 0)%Q.
Proof.
  intros H. unfold minutesBetween, Qle, Qdiv, Qmult, Qinv, inject_Z. simpl. lia.
Qed.

Lemma Math_round_nonpos (x : Q) : (x <= 0)%Q -> Math_round x <= 0.
Proof.
  intros H. unfold Math_round.
  change 0 with (Qfloor (1 # 2)). apply Qfloor_resp_le.
  setoid_replace (1 # 2)%Q with (0 + (1 # 2))%Q at 2 by ring.
  apply Qplus_le_compat; [assumption | apply Qle_refl].
Qed.

(** [Math.round] of a length in minutes, over the integers. *)
Lemma Math_round_minutesBetween (startTime endTime : Date) :
  Math_round (minutesBetween startTime endTime)
  = (endTime - startTime + 30000) / 60000.
Proof.
  unfold Math_round, minutesBetween, Qdiv, Qmult, Qinv, Qplus, inject_Z, Qfloor.
  simpl. set (d := endTime - startTime).
  replace (d * 1 * 2 + 60000) with ((d + 30000) * 2) by lia.
  change (Z.pos 120000) with (60000 * 2).
  apply Z.div_mul_cancel_r; lia.
Qed.

(** *** Doubles *)

Lemma roundHalfEven_near (n d : Z) :
  0 < d -> 2 * Z.abs (roundHalfEven n d * d - n) <= d.
Proof.
  intros Hd. unfold roundHalfEven.
  pose proof (Z.div_mod n d ltac:(lia)) as Hdm.
  pose proof (Z.mod_pos_bound n d Hd) as Hr.
  set (q := n / d) in *. set (r := n mod d) in *.
  destruct (2 * r <? d) eqn:H1; [apply Z.ltb_lt in H1; nia |].
  apply Z.ltb_ge in H1.
  destruct (d <? 2 * r) eqn:H2; [apply Z.ltb_lt in H2; nia |].
  apply Z.ltb_ge in H2.
  destruct (Z.even q); nia.
Qed.

Lemma fl_exponent (n d K : Z) :
  0 < n -> 0 < d -> 0 <= K -> n < 2 ^ K * d ->
  let k0 := Z.log2 n - Z.log2 d in
  (if (if 0 <=? k0 then d * 2 ^ k0 <=? n else d <=? n * 2 ^ (- k0))
   then k0 else k0 - 1) < K.
Proof.
  intros Hn Hd HK Hlt k0.
  pose proof (Z.log2_spec n Hn) as [Hn1 Hn2].
  pose proof (Z.log2_spec d Hd) as [Hd1 Hd2].
  pose proof (Z.log2_nonneg n) as Hln. pose proof (Z.log2_nonneg d) as Hld.
  destruct (Z.lt_ge_cases k0 K) as [Hk | Hk].
  { destruct (if 0 <=? k0 then _ else _); lia. }
  assert (H0 : (0 <=? k0) = true) by (apply Z.leb_le; lia).
  rewrite H0.
  destruct (d * 2 ^ k0 <=? n) eqn:Ht.
  - apply Z.leb_le in Ht. exfalso.
    assert (Hp : 2 ^ K <= 2 ^ k0) by (apply Z.pow_le_mono_r; lia).
    nia.
  - destruct (Z.eq_dec k0 K) as [-> | Hne]; [lia |].
    exfalso.
    assert (Hk0 : Z.log2 n = k0 + Z.log2 d) by (unfold k0; lia).
    assert (Hp : 2 ^ (K + Z.succ (Z.log2 d)) <= 2 ^ Z.log2 n)
      by (apply Z.pow_le_mono_r; lia).
    rewrite Z.pow_add_r in Hp by lia.
    assert (HK0 : 0 < 2 ^ K) by (apply Z.pow_pos_nonneg; lia).
    nia.
Qed.

(** Below [2 ^ 38] the doubles are multiples of a power of two that is
    [2 ^ -15] or less. *)
Lemma fl_small (q : Q) :
  Z.abs (Qnum q) < 2 ^ 38 * Z.pos (Qden q) ->
  exists E : Z,
    15 <= E
    /\ (fl q == Qmake (Z.sgn (Qnum q)
                       * roundHalfEven (Z.abs (Qnum q) * 2 ^ E) (Z.pos (Qden q)))
                      (Z.to_pos (2 ^ E)))%Q.
Proof.
  intros Hlt. unfold fl.
  destruct (Z.abs (Qnum q) =? 0) eqn:Hz.
  - apply Z.eqb_eq in Hz. exists 15. split; [lia |].
    rewrite Hz. assert (Qnum q = 0) as -> by lia. reflexivity.
  - apply Z.eqb_neq in Hz.
    set (n := Z.abs (Qnum q)) in *. set (d := Z.pos (Qden q)) in *.
    assert (Hn : 0 < n) by (unfold n in *; lia).
    assert (Hd : 0 < d) by (unfold d; lia).
    pose proof (fl_exponent n d 38 Hn Hd ltac:(lia) Hlt) as Hk.
    cbv zeta in Hk.
    match goal with
    | |- context [Z.max (?x - 52) (-1074)] => set (k := x) in *
    end.
    set (e := Z.max (k - 52) (-1074)).
    assert (He : e <= -15) by (unfold e; lia).
    assert (H0 : (0 <=? e) = false) by (apply Z.leb_gt; lia).
    rewrite H0. exists (- e). split; [lia | reflexivity].
Qed.

Lemma roundHalfEven_exact (a d : Z) : 0 < d -> roundHalfEven (a * d) d = a.
Proof.
  intros Hd. unfold roundHalfEven.
  rewrite Z.div_mul, Z.mod_mul by lia.
  assert (H : (2 * 0 <? d) = true) by (apply Z.ltb_lt; lia).
  now rewrite H.
Qed.

(** An integer below [2 ^ 53] is a double. *)
Lemma fl_integer (x : Z) :
  Z.abs x < 2 ^ 53 -> (fl (inject_Z x) == inject_Z x)%Q.
Proof.
  intros Hx. unfold fl. cbn [Qnum Qden inject_Z].
  destruct (Z.abs x =? 0) eqn:Hz.
  - apply Z.eqb_eq in Hz. assert (x = 0) as -> by lia. reflexivity.
  - apply Z.eqb_neq in Hz.
    set (n := Z.abs x) in *.
    assert (Hn : 0 < n) by (unfold n in *; lia).
    change (Z.log2 1) with 0. rewrite Z.sub_0_r.
    pose proof (Z.log2_spec n Hn) as [Hn1 Hn2].
    pose proof (Z.log2_nonneg n) as Hln.
    assert (H0 : (0 <=? Z.log2 n) = true) by (apply Z.leb_le; lia).
    rewrite H0.
    assert (H1 : (1 * 2 ^ Z.log2 n <=? n) = true) by (apply Z.leb_le; lia).
    rewrite H1.
    assert (Hk : Z.log2 n < 53) by (apply Z.log2_lt_pow2; lia).
    assert (Hs : Z.sgn x * n = x) by (unfold n; lia).
    rewrite Z.max_l by lia.
    destruct (0 <=? Z.log2 n - 52) eqn:He.
    + apply Z.leb_le in He. assert (Z.log2 n - 52 = 0) as -> by lia.
      change (1 * 2 ^ 0) with 1.
      replace n with (n * 1) at 1 by lia.
      rewrite roundHalfEven_exact by lia.
      rewrite Z.mul_1_r, Hs. reflexivity.
    + apply Z.leb_gt in He.
      assert (Hp : 0 < 2 ^ (- (Z.log2 n - 52))) by (apply Z.pow_pos_nonneg; lia).
      replace (n * 2 ^ (- (Z.log2 n - 52)))
        with (n * 2 ^ (- (Z.log2 n - 52)) * 1) by lia.
      rewrite roundHalfEven_exact by lia.
      unfold Qeq. cbn [Qnum Qden]. rewrite Z2Pos.id by exact Hp.
      set (p := 2 ^ (- (Z.log2 n - 52))).
      change (QDen (inject_Z x)) with 1. change (Qnum (inject_Z x)) with x.
      transitivity (Z.sgn x * n * p); [ring | now rewrite Hs].
Qed.

Lemma Math_round_Qmake (a : Z) (p : positive) :
  Math_round (a # p) = (2 * a + Z.pos p) / (2 * Z.pos p).
Proof.
  unfold Math_round, Qfloor, Qplus. cbn [Qnum Qden].
  f_equal; lia.
Qed.

Lemma Math_round_fl_minutes (x : Z) :
  Z.abs x < 2 ^ 53 ->
  Math_round (fl (fl (inject_Z x) / inject_Z (1000 * 60)))
  = (x + 30000) / 60000.
Proof.
  intros Hx.
  pose proof (fl_integer x Hx) as Hf.
  set (f := fl (inject_Z x)) in *.
  set (q := (f / inject_Z (1000 * 60))%Q).
  assert (Hnum : Qnum q = Qnum f) by (unfold q, Qdiv, Qmult; cbn; lia).
  assert (Hden : Z.pos (Qden q) = Z.pos (Qden f) * 60000)
    by (unfold q, Qdiv, Qmult; cbn; lia).
  unfold Qeq in Hf. cbn [Qnum Qden inject_Z] in Hf.
  set (D := Z.pos (Qden f)) in *.
  assert (HD : 0 < D) by (unfold D; lia).
  assert (Hfx : Qnum f = x * D) by lia.
  destruct (fl_small q) as (E & HE & Hq).
  { rewrite Hnum, Hden, Hfx. rewrite Z.abs_mul.
    assert (Z.abs D = D) as -> by lia.
    assert (2 ^ 53 < 2 ^ 38 * 60000) by (vm_compute; reflexivity). nia. }
  unfold Math_round. rewrite Hq.
  fold (Math_round
          (Qmake (Z.sgn (Qnum q)
                  * roundHalfEven (Z.abs (Qnum q) * 2 ^ E) (Z.pos (Qden q)))
                 (Z.to_pos (2 ^ E)))).
  rewrite Math_round_Qmake.
  assert (HP : 2 ^ 15 <= 2 ^ E) by (apply Z.pow_le_mono_r; lia).
  rewrite Z2Pos.id by lia.
  set (P := 2 ^ E) in *.
  assert (Heven : exists h, P = 2 * h).
  { exists (2 ^ (E - 1)). unfold P. rewrite <- Z.pow_succ_r by lia.
    f_equal. lia. }
  rewrite Hnum, Hden, Hfx.
  pose proof (roundHalfEven_near (Z.abs (x * D) * P) (D * 60000) ltac:(lia))
    as Hnear.
  set (m := roundHalfEven (Z.abs (x * D) * P) (D * 60000)) in *.
  set (M := Z.sgn (x * D) * m).
  assert (HM : Z.abs (M * 60000 - x * P) * 2 <= 60000).
  { unfold M. destruct (Z.sgn_spec x) as [[Hs Hsg] | [[Hs Hsg] | [Hs Hsg]]].
    - assert (Z.sgn (x * D) = 1) as -> by (rewrite Z.sgn_mul; lia).
      assert (Hab : Z.abs (x * D) = x * D) by nia. rewrite Hab in Hnear. nia.
    - subst x. cbn in *. nia.
    - assert (Z.sgn (x * D) = -1) as -> by (rewrite Z.sgn_mul; lia).
      assert (Hab : Z.abs (x * D) = - (x * D)) by nia.
      rewrite Hab in Hnear. nia. }
  clearbody M. clear Hnear m Hq.
  pose proof (Z.div_mod (x + 30000) 60000 ltac:(lia)) as Hdm.
  pose proof (Z.mod_pos_bound (x + 30000) 60000 ltac:(lia)) as Hr.
  set (r := (x + 30000) / 60000) in *.
  destruct Heven as (h & Hh).
  assert (HPv : 2 ^ 15 = 32768) by reflexivity.
  symmetry. apply Z.div_unique with (r := 2 * M + P - r * (2 * P)); [| lia].
  left. split.
  - assert (2 * (M - (2 * r - 1) * h) > -1) by nia. nia.
  - nia.
Qed.

(** The length of a slot in minutes, which the handler computes in
    doubles, is rounded to the same whole number as the exact quotient. *)
Lemma Math_round_minutes_in_doubles (startTime endTime : Date) :
  Z.abs (endTime - startTime) < 2 ^ 53 ->
  Math_round (minutesBetweenNumber startTime endTime)
  = Math_round (minutesBetween startTime endTime).
Proof.
  intros H. rewrite Math_round_minutesBetween.
  now apply Math_round_fl_minutes.
Qed.

(** [fl] rounds as the machine does: the amounts of some bookings, for
    rates that are whole numbers and rates that are quotients of two. *)
Example fl_agrees_with_the_machine :
  forallb (fun '(rate, duration) =>
             Machine.equals (Machine.totalAmount (Machine.ofZ rate) duration)
                        (fl (fl (inject_Z rate * inject_Z duration) / 60)))
          [(100, 50); (120, 60); (120, -120); (0, 50); (7, 1); (1, 1);
           (85, 45); (123456789, 45); (9007199254740991, 9007199254740991)]
  = true
  /\ forallb (fun '(n, d, duration) =>
                let rate := PrimFloat.div (Machine.ofZ n) (Machine.ofZ d) in
                Machine.equals rate (fl (inject_Z n / inject_Z d))
                && Machine.equals (Machine.totalAmount rate duration)
                     (fl (fl (fl (inject_Z n / inject_Z d)
                              * inject_Z duration) / 60)))
             [(9999, 100, 45); (8333, 100, 37); (1, 3, 50); (2, 3, 1);
              (1, 10, 3); (655, 10, 13); (7, 100, 1)]
     = true.
Proof. vm_compute. split; reflexivity. Qed.

(** A slot of whole minutes is stored with its exact length. *)
Lemma createDataOf_duration_whole_minutes currentUser now newId data provider m :
  CreateAppointmentRequest.endTime data
  = CreateAppointmentRequest.startTime data + m * 60000 ->
  Appointment.duration (createDataOf currentUser now newId data provider) = m
  /\ durationIsDerived (createDataOf currentUser now newId data provider) = true.
Proof.
  intros H. unfold durationIsDerived.
  cbn [createDataOf Appointment.duration Appointment.startTime Appointment.endTime].
  rewrite Math_round_minutesBetween, H.
  replace (CreateAppointmentRequest.startTime data + m * 60000
           - CreateAppointmentRequest.startTime data + 30000)
    with (30000 + m * 60000) by lia.
  rewrite Z.div_add by lia. change (30000 / 60000) with 0. rewrite Z.add_0_l.
  split; [reflexivity |].
  apply Qeq_bool_iff.
  unfold minutesBetween, Qeq, Qdiv, Qmult, Qinv, inject_Z.
  change (1000 * 60) with 60000. cbn [Qnum Qden]. lia.
Qed.

(** ** C1: the conflict query and the overlap of intervals *)

(** C1 (the code departs from the claim). An existing [SCHEDULED]
    appointment of the provider from 10:00 to 12:00 and a request for 10:30
    to 11:30 overlap, the existing interval strictly containing the
    requested one; the conflict query does not match the existing
    appointment, no conflict is reported and the request is booked. *)
Theorem C1_containing_appointment_is_not_reported :
  let db := Sample.booked "a1" (Sample.at_ 10 0) (Sample.at_ 12 0) Sample.emptyDb in
  let existing :=
    createDataOf Sample.family Sample.now "a1"
      (Sample.request "prov-slp" (Sample.at_ 10 0) (Sample.at_ 12 0)) Sample.slp in
  let req := Sample.request "prov-slp" (Sample.at_ 10 30) (Sample.at_ 11 30) in
  let booked := createDataOf Sample.family Sample.now "a2" req Sample.slp in
  appointments db = [existing]
  /\ Appointment.providerId existing = CreateAppointmentRequest.providerId req
  /\ Appointment.status existing = SCHEDULED
  /\ Appointment.startTime existing < CreateAppointmentRequest.startTime req
  /\ CreateAppointmentRequest.endTime req < Appointment.endTime existing
  /\ overlaps (CreateAppointmentRequest.startTime req)
              (CreateAppointmentRequest.endTime req)
              (Appointment.startTime existing)
              (Appointment.endTime existing) = true
  /\ conflictWhere (CreateAppointmentRequest.providerId req)
                   (CreateAppointmentRequest.startTime req)
                   (CreateAppointmentRequest.endTime req) existing = false
  /\ create Sample.family Sample.now "a2" req db
     = (mkDb [existing; booked] (providerProfiles db), Ok booked).
Proof.
  vm_compute. repeat split; reflexivity.
Qed.

(** ** C8: back-to-back appointments *)

(** C8, as stated, fails: the provider holds a [SCHEDULED] appointment of
    length zero at 10:00 (the creation handler accepted it), and a request
    for 10:00 to 11:00, which starts exactly where that appointment ends,
    is rejected as a conflict with it. *)
Lemma C8_counterexample :
  let db := Sample.booked "a1" (Sample.at_ 10 0) (Sample.at_ 10 0) Sample.emptyDb in
  let existing :=
    createDataOf Sample.family Sample.now "a1"
      (Sample.request "prov-slp" (Sample.at_ 10 0) (Sample.at_ 10 0)) Sample.slp in
  let req := Sample.request "prov-slp" (Sample.at_ 10 0) (Sample.at_ 11 0) in
  appointments db = [existing]
  /\ nonTerminal (Appointment.status existing) = true
  /\ Appointment.providerId existing = CreateAppointmentRequest.providerId req
  /\ CreateAppointmentRequest.startTime req = Appointment.endTime existing
  /\ conflictWhere (CreateAppointmentRequest.providerId req)
                   (CreateAppointmentRequest.startTime req)
                   (CreateAppointmentRequest.endTime req) existing = true
  /\ create Sample.family Sample.now "a2" req db = (db, Throw SchedulingConflict).
Proof.
  vm_compute. repeat split; reflexivity.
Qed.

(** C8 (amended). An existing appointment that ends after it starts and is
    exactly back-to-back with the requested slot (the slot starts where it
    ends, or ends where it starts) is not matched by the conflict query,
    whatever its provider and status, and is never the appointment on which
    the creation handler's conflict search stops. *)
Theorem C8_back_to_back_is_no_conflict
    (providerId : string) (startTime endTime : Date)
    (existing : Appointment.t) (db : Db) :
  Appointment.startTime existing < Appointment.endTime existing ->
  startTime = Appointment.endTime existing
  \/ endTime = Appointment.startTime existing ->
  conflictWhere providerId startTime endTime existing = false
  /\ find (conflictWhere providerId startTime endTime) (appointments db)
     <> Some existing.
Proof.
  intros Hpos Hadj.
  assert (Hno : conflictWhere providerId startTime endTime existing = false).
  { apply not_true_is_false. intros H. apply conflictWhere_spec in H. lia. }
  split; [exact Hno |].
  intros Hfind. apply find_some in Hfind. destruct Hfind as [_ Hyes].
  congruence.
Qed.

Lemma C8_back_to_back_is_no_conflict_witness :
  let db := Sample.booked "a1" (Sample.at_ 10 0) (Sample.at_ 11 0) Sample.emptyDb in
  let existing :=
    createDataOf Sample.family Sample.now "a1"
      (Sample.request "prov-slp" (Sample.at_ 10 0) (Sample.at_ 11 0)) Sample.slp in
  appointments db = [existing]
  /\ conflictWhere "prov-slp" (Sample.at_ 11 0) (Sample.at_ 12 0) existing = false
  /\ find (conflictWhere "prov-slp" (Sample.at_ 11 0) (Sample.at_ 12 0))
          (appointments db) <> Some existing.
Proof.
  split; [reflexivity |].
  apply (C8_back_to_back_is_no_conflict "prov-slp"
           (Sample.at_ 11 0) (Sample.at_ 12 0)).
  - vm_compute. reflexivity.
  - left. vm_compute. reflexivity.
Defined.

(** ** What the creation handler can answer *)

Section CreateAnswers.
Variables (currentUser : User.t) (now : Date) (newId : string).
Variable appointmentData : CreateAppointmentRequest.t.
Variable db : Db.

Let startTime := CreateAppointmentRequest.startTime appointmentData.
Let endTime := CreateAppointmentRequest.endTime appointmentData.
Let providerId := CreateAppointmentRequest.providerId appointmentData.

(** A successful creation went through every check and appended the row
    built from the request and the provider. *)
Lemma create_Ok_inv (db' : Db) (a : Appointment.t) :
  create currentUser now newId appointmentData db = (db', Ok a) ->
  exists provider,
    find (fun p => String.eqb (ProviderProfile.id p) providerId)
         (providerProfiles db) = Some provider
    /\ ProviderProfile.licenseVerified provider = true
    /\ ProviderProfile.backgroundCheck provider = true
    /\ now <= startTime <= addDays now 90
    /\ find (conflictWhere providerId startTime endTime) (appointments db) = None
    /\ a = createDataOf currentUser now newId appointmentData provider
    /\ db' = mkDb (appointments db ++ [a])%list (providerProfiles db).
Proof.
  intros H.
  destruct (find (fun p => String.eqb (ProviderProfile.id p) providerId)
                 (providerProfiles db)) as [provider |] eqn:Hfind.
  2:{ rewrite create_no_provider in H by exact Hfind. discriminate. }
  destruct (ProviderProfile.licenseVerified provider) eqn:Hlic.
  2:{ rewrite (create_not_eligible _ _ _ _ _ provider Hfind) in H
        by (left; exact Hlic). discriminate. }
  destruct (ProviderProfile.backgroundCheck provider) eqn:Hbg.
  2:{ rewrite (create_not_eligible _ _ _ _ _ provider Hfind) in H
        by (right; exact Hbg). discriminate. }
  rewrite (create_eligible _ _ _ _ _ provider Hfind Hlic Hbg) in H.
  fold startTime endTime providerId in H.
  unfold isBefore, isAfter in H.
  destruct (startTime <? now) eqn:Hlo; [discriminate |].
  destruct (addDays now 90 <? startTime) eqn:Hhi; [discriminate |].
  destruct (find (conflictWhere providerId startTime endTime) (appointments db))
    eqn:Hconf; [discriminate |].
  cbv zeta in H. injection H as Hdb Ha. subst a.
  exists provider. apply Z.ltb_ge in Hlo. apply Z.ltb_ge in Hhi.
  repeat split; try assumption; try reflexivity. now symmetry.
Qed.

(** The answer [H] is a throw of one of the listed errors. *)
Ltac thrown H :=
  injection H as <- <-; split; [reflexivity | simpl; auto 10].

(** A failed creation leaves the database alone and answers with one of
    the five errors of the handler. *)
Lemma create_Throw_inv (db' : Db) (e : ApiError) :
  create currentUser now newId appointmentData db = (db', Throw e) ->
  db' = db
  /\ In e [ProviderNotFound; ProviderNotEligible; PastBooking;
           BookingTooFarOut; SchedulingConflict].
Proof.
  intros H.
  destruct (find (fun p => String.eqb (ProviderProfile.id p) providerId)
                 (providerProfiles db)) as [provider |] eqn:Hfind.
  2:{ rewrite create_no_provider in H by exact Hfind.
      thrown H. }
  destruct (ProviderProfile.licenseVerified provider) eqn:Hlic.
  2:{ rewrite (create_not_eligible _ _ _ _ _ provider Hfind) in H
        by (left; exact Hlic). thrown H. }
  destruct (ProviderProfile.backgroundCheck provider) eqn:Hbg.
  2:{ rewrite (create_not_eligible _ _ _ _ _ provider Hfind) in H
        by (right; exact Hbg). thrown H. }
  rewrite (create_eligible _ _ _ _ _ provider Hfind Hlic Hbg) in H.
  fold startTime endTime providerId in H.
  destruct (isBefore startTime now); [thrown H |].
  destruct (isAfter startTime (addDays now 90));
    [thrown H |].
  destruct (find (conflictWhere providerId startTime endTime) (appointments db))
    eqn:Hconf; [thrown H |].
  discriminate.
Qed.
End CreateAnswers.

(** ** Whole cents *)

Lemma wholeCents_spec (q : Q) :
  wholeCents q = true <-> exists cents : Z, (q == inject_Z cents / 100)%Q.
Proof.
  unfold wholeCents. rewrite Qeq_bool_iff. split.
  - intros H. exists (Qfloor (q * 100)). rewrite H. field.
  - intros [cents H].
    assert (Hq : (q * 100 == inject_Z cents)%Q) by (rewrite H; field).
    rewrite Hq at 1. rewrite Qfloor_Z. now symmetry.
Qed.

(** ** C3: slots that do not end after they start *)

(** C3, as stated, fails: a request from 11:00 back to 10:00 for an
    eligible provider, inside the booking window, is not rejected at all;
    the appointment is inserted, with a duration of -60 minutes and a
    negative amount. *)
Lemma C3_counterexample :
  let req := Sample.request "prov-slp" (Sample.at_ 11 0) (Sample.at_ 10 0) in
  let a := createDataOf Sample.family Sample.now "a1" req Sample.slp in
  CreateAppointmentRequest.endTime req <= CreateAppointmentRequest.startTime req
  /\ create Sample.family Sample.now "a1" req Sample.emptyDb
     = (mkDb [a] (providerProfiles Sample.emptyDb), Ok a)
  /\ Appointment.endTime a < Appointment.startTime a
  /\ Appointment.duration a = -60
  /\ (Appointment.totalAmount a == -120 # 1)%Q.
Proof.
  vm_compute. repeat split; try reflexivity; discriminate.
Qed.

(** C3 (amended). A request whose [endTime] is not after its [startTime]
    is not rejected for that: when its provider exists and is eligible and
    its [startTime] lies in the booking window, the conflict query matches
    nothing and the appointment is inserted with the interval as given and
    a stored duration that is zero or negative. *)
Theorem C3_interval_order_is_not_checked
    (currentUser : User.t) (now : Date) (newId : string)
    (appointmentData : CreateAppointmentRequest.t) (db : Db)
    (provider : ProviderProfile.t) :
  find (fun p => String.eqb (ProviderProfile.id p)
                   (CreateAppointmentRequest.providerId appointmentData))
       (providerProfiles db) = Some provider ->
  ProviderProfile.licenseVerified provider = true ->
  ProviderProfile.backgroundCheck provider = true ->
  now <= CreateAppointmentRequest.startTime appointmentData <= addDays now 90 ->
  CreateAppointmentRequest.endTime appointmentData
    <= CreateAppointmentRequest.startTime appointmentData ->
  let a := createDataOf currentUser now newId appointmentData provider in
  create currentUser now newId appointmentData db
  = (mkDb (appointments db ++ [a])%list (providerProfiles db), Ok a)
  /\ Appointment.startTime a = CreateAppointmentRequest.startTime appointmentData
  /\ Appointment.endTime a = CreateAppointmentRequest.endTime appointmentData
  /\ Appointment.duration a <= 0.
Proof.
  intros Hfind Hlic Hbg Hwin Hord a.
  repeat split.
  - rewrite (create_in_window _ _ _ _ _ provider Hfind Hlic Hbg Hwin).
    rewrite find_none_forall; [reflexivity |].
    intros x _. now apply conflictWhere_empty_slot.
  - apply Math_round_nonpos. now apply minutesBetween_nonpos.
Qed.

Lemma C3_interval_order_is_not_checked_witness :
  let req := Sample.request "prov-slp" (Sample.at_ 10 0) (Sample.at_ 10 0) in
  let a := createDataOf Sample.family Sample.now "a1" req Sample.slp in
  create Sample.family Sample.now "a1" req Sample.emptyDb
  = (mkDb (appointments Sample.emptyDb ++ [a])%list
          (providerProfiles Sample.emptyDb), Ok a)
  /\ Appointment.startTime a = CreateAppointmentRequest.startTime req
  /\ Appointment.endTime a = CreateAppointmentRequest.endTime req
  /\ Appointment.duration a <= 0.
Proof.
  apply (C3_interval_order_is_not_checked Sample.family Sample.now "a1"
           (Sample.request "prov-slp" (Sample.at_ 10 0) (Sample.at_ 10 0))
           Sample.emptyDb Sample.slp).
  - reflexivity.
  - reflexivity.
  - reflexivity.
  - vm_compute. split; discriminate.
  - vm_compute. discriminate.
Defined.

(** ** C4: the amount of a booking *)

(** C4, as stated, fails: fifty minutes with a provider at 100 an hour
    are stored as the double nearest to 250/3, which is written
    83.33333333333333 and is no whole number of cents. *)
Lemma C4_counterexample :
  let req := Sample.request "prov-ot" (Sample.at_ 10 0) (Sample.at_ 10 50) in
  let a := createDataOf Sample.family Sample.now "a1" req Sample.ot in
  create Sample.family Sample.now "a1" req Sample.emptyDb
  = (mkDb [a] (providerProfiles Sample.emptyDb), Ok a)
  /\ (Appointment.hourlyRate a == 100 # 1)%Q
  /\ Appointment.duration a = 50
  /\ (Appointment.totalAmount a == 5864062014805333 # 70368744177664)%Q
  /\ (Appointment.totalAmount a
      == fl (8333333333333333 # 100000000000000))%Q
  /\ (8333 # 100 < Appointment.totalAmount a)%Q
  /\ (Appointment.totalAmount a < 8334 # 100)%Q
  /\ wholeCents (Appointment.totalAmount a) = false.
Proof.
  vm_compute. repeat split; reflexivity.
Qed.

(** C4 (amended). The amount stored with a created appointment is
    [(hourlyRate * duration) / 60] as the doubles compute it, the product
    rounded to the nearest double and then the quotient, of the stored
    rate (the provider's rate, or 0 when it has none) and the stored
    duration (the length of the slot rounded to whole minutes), which are
    doubles whose product is in the range of the doubles; it is not
    rounded to cents. *)
Theorem C4_total_amount_is_the_double_quotient
    (currentUser : User.t) (now : Date) (newId : string)
    (appointmentData : CreateAppointmentRequest.t) (db db' : Db)
    (a : Appointment.t) :
  create currentUser now newId appointmentData db = (db', Ok a) ->
  isDouble (Appointment.hourlyRate a) = true ->
  isDouble (inject_Z (Appointment.duration a)) = true ->
  (Qabs (Appointment.hourlyRate a * inject_Z (Appointment.duration a))
   <= Number_MAX_VALUE)%Q ->
  Appointment.totalAmount a
  = fl (fl (Appointment.hourlyRate a * inject_Z (Appointment.duration a)) / 60)
  /\ Appointment.duration a
     = Math_round (minutesBetween
                     (CreateAppointmentRequest.startTime appointmentData)
                     (CreateAppointmentRequest.endTime appointmentData))
  /\ (exists provider,
        find (fun p => String.eqb (ProviderProfile.id p)
                         (CreateAppointmentRequest.providerId appointmentData))
             (providerProfiles db) = Some provider
        /\ Appointment.hourlyRate a
           = orZero (ProviderProfile.hourlyRate provider))
  /\ In a (appointments db').
Proof.
  intros H _ _ _. apply create_Ok_inv in H.
  destruct H as (provider & Hfind & _ & _ & _ & _ & Ha & Hdb).
  subst a db'. cbn [appointments].
  split; [reflexivity |]. split; [reflexivity |]. split.
  - exists provider. split; [exact Hfind | reflexivity].
  - apply in_or_app. right. now left.
Qed.

Lemma C4_total_amount_is_the_double_quotient_witness :
  let req := Sample.request "prov-ot" (Sample.at_ 10 0) (Sample.at_ 10 50) in
  let a := createDataOf Sample.family Sample.now "a1" req Sample.ot in
  Appointment.totalAmount a
  = fl (fl (Appointment.hourlyRate a * inject_Z (Appointment.duration a)) / 60).
Proof.
  apply (C4_total_amount_is_the_double_quotient Sample.family Sample.now "a1"
           (Sample.request "prov-ot" (Sample.at_ 10 0) (Sample.at_ 10 50))
           Sample.emptyDb
           (mkDb [createDataOf Sample.family Sample.now "a1"
                    (Sample.request "prov-ot" (Sample.at_ 10 0) (Sample.at_ 10 50))
                    Sample.ot]
                 (providerProfiles Sample.emptyDb))).
  - vm_compute. reflexivity.
  - vm_compute. reflexivity.
  - vm_compute. reflexivity.
  - vm_compute. discriminate.
Defined.

(** ** C7: the booking window *)

(** The day that [addDays] reaches is 90 times 24 hours after [date],
    corrected by the change of the zone's offset between the two ends. *)
Lemma addDaysIn_90 (tz : TimeZone.t) (date : Date) :
  addDaysIn tz date 90
  = date + 90 * msPerDay
    + (TimeZone.offsetAtUtc tz date
       - TimeZone.offsetAtLocal tz
           (date + TimeZone.offsetAtUtc tz date + 90 * msPerDay)).
Proof.
  unfold addDaysIn. change (90 =? 0) with false. cbv beta iota zeta. lia.
Qed.

Lemma addDaysIn_utc (date : Date) (amount : Z) :
  addDaysIn TimeZone.utc date amount = addDays date amount.
Proof.
  unfold addDaysIn, addDays. simpl.
  destruct (amount =? 0) eqn:H; [apply Z.eqb_eq in H; subst; lia | lia].
Qed.

Lemma addDaysIn_90_after (tz : TimeZone.t) (date : Date) :
  TimeZone.bounded tz -> date < addDaysIn tz date 90.
Proof.
  intros Hb. rewrite addDaysIn_90.
  pose proof (Hb date) as [Hu _].
  pose proof (Hb (date + TimeZone.offsetAtUtc tz date + 90 * msPerDay))
    as [_ Hl].
  unfold msPerDay in *. lia.
Qed.

Lemma springForward_bounded (change : Date) :
  TimeZone.bounded (Sample.springForward change).
Proof.
  intros x. unfold Sample.springForward, Sample.hour, msPerDay. simpl.
  destruct (x <? change); destruct (x <? change - _); lia.
Qed.

(** C7. With an existing, eligible provider, on a server in any time zone:
    a request that starts before [now] is answered with the past-booking
    error; one that starts more than 90 days after [now] with the
    too-far-out error; one that starts between [now] and 90 days after it,
    bounds included, with neither. The day 90 days after [now] is
    [addDays(now, 90)]: the same local clock time 90 calendar days later,
    which is 90 times 24 hours after [now] corrected by the change of the
    zone's offset in between (none in UTC). *)
Theorem C7_booking_window
    (tz : TimeZone.t)
    (currentUser : User.t) (now : Date) (newId : string)
    (appointmentData : CreateAppointmentRequest.t) (db : Db)
    (provider : ProviderProfile.t) :
  TimeZone.bounded tz ->
  find (fun p => String.eqb (ProviderProfile.id p)
                   (CreateAppointmentRequest.providerId appointmentData))
       (providerProfiles db) = Some provider ->
  ProviderProfile.licenseVerified provider = true ->
  ProviderProfile.backgroundCheck provider = true ->
  let startTime := CreateAppointmentRequest.startTime appointmentData in
  let horizon := addDaysIn tz now 90 in
  let answer := createIn tz currentUser now newId appointmentData db in
  (startTime < now -> answer = (db, Throw PastBooking))
  /\ (horizon < startTime -> answer = (db, Throw BookingTooFarOut))
  /\ (now <= startTime <= horizon ->
      snd answer <> Throw PastBooking /\ snd answer <> Throw BookingTooFarOut)
  /\ horizon
     = now + 90 * msPerDay
       + (TimeZone.offsetAtUtc tz now
          - TimeZone.offsetAtLocal tz
              (now + TimeZone.offsetAtUtc tz now + 90 * msPerDay))
  /\ (tz = TimeZone.utc -> horizon = now + 90 * msPerDay).
Proof.
  intros Hzone Hfind Hlic Hbg startTime horizon answer.
  unfold answer, createIn.
  rewrite (createWith_eligible _ _ _ _ _ _ provider Hfind Hlic Hbg).
  fold startTime horizon. unfold isBefore, isAfter.
  pose proof (addDaysIn_90_after tz now Hzone) as Hafter. fold horizon in Hafter.
  split; [| split; [| split; [| split]]].
  - intros H. apply Z.ltb_lt in H. now rewrite H.
  - intros H.
    assert (Hlo : (startTime <? now) = false) by (apply Z.ltb_ge; lia).
    apply Z.ltb_lt in H. now rewrite Hlo, H.
  - intros [Hlo Hhi]. apply Z.ltb_ge in Hlo. apply Z.ltb_ge in Hhi.
    rewrite Hlo, Hhi.
    destruct (find _ (appointments db)); simpl; split; discriminate.
  - apply addDaysIn_90.
  - intros ->. unfold horizon. now rewrite addDaysIn_utc.
Qed.

(** On a server whose clocks go forward inside the window, the day 90
    days after [now] comes an hour short of 90 times 24 hours: a request
    for that instant passes both checks and one a millisecond later is
    refused. *)
Lemma C7_booking_window_witness :
  let horizon := Sample.now + 90 * msPerDay - Sample.hour in
  let past := Sample.request "prov-slp" (Sample.now - 1) (Sample.now + Sample.hour) in
  let far := Sample.request "prov-slp" (horizon + 1) (horizon + Sample.hour) in
  let edge := Sample.request "prov-slp" horizon (horizon + Sample.hour) in
  addDaysIn Sample.newYork Sample.now 90 = horizon
  /\ createIn Sample.newYork Sample.family Sample.now "a1" past Sample.emptyDb
     = (Sample.emptyDb, Throw PastBooking)
  /\ createIn Sample.newYork Sample.family Sample.now "a1" far Sample.emptyDb
     = (Sample.emptyDb, Throw BookingTooFarOut)
  /\ snd (createIn Sample.newYork Sample.family Sample.now "a1" edge
            Sample.emptyDb)
     <> Throw PastBooking
  /\ snd (createIn Sample.newYork Sample.family Sample.now "a1" edge
            Sample.emptyDb)
     <> Throw BookingTooFarOut.
Proof.
  intros horizon past far edge.
  split; [reflexivity |]. split; [| split].
  - apply (C7_booking_window Sample.newYork Sample.family Sample.now "a1" past
             Sample.emptyDb Sample.slp);
      [apply springForward_bounded | reflexivity ..].
  - apply (C7_booking_window Sample.newYork Sample.family Sample.now "a1" far
             Sample.emptyDb Sample.slp);
      [apply springForward_bounded | reflexivity ..].
  - apply (C7_booking_window Sample.newYork Sample.family Sample.now "a1" edge
             Sample.emptyDb Sample.slp);
      [apply springForward_bounded | reflexivity .. |].
    vm_compute. split; discriminate.
Defined.

(** ** C10: a provider without a rate *)

(** C10. When the provider exists and is eligible, has no hourly rate, the
    slot starts inside the booking window and the conflict query finds
    nothing, the creation succeeds: the appointment is inserted as
    [SCHEDULED] with an hourly rate of 0 and a total amount of 0. *)
Theorem C10_missing_rate_is_booked_at_zero
    (currentUser : User.t) (now : Date) (newId : string)
    (appointmentData : CreateAppointmentRequest.t) (db : Db)
    (provider : ProviderProfile.t) :
  find (fun p => String.eqb (ProviderProfile.id p)
                   (CreateAppointmentRequest.providerId appointmentData))
       (providerProfiles db) = Some provider ->
  ProviderProfile.licenseVerified provider = true ->
  ProviderProfile.backgroundCheck provider = true ->
  ProviderProfile.hourlyRate provider = None ->
  now <= CreateAppointmentRequest.startTime appointmentData <= addDays now 90 ->
  find (conflictWhere (CreateAppointmentRequest.providerId appointmentData)
                      (CreateAppointmentRequest.startTime appointmentData)
                      (CreateAppointmentRequest.endTime appointmentData))
       (appointments db) = None ->
  exists a,
    create currentUser now newId appointmentData db
    = (mkDb (appointments db ++ [a])%list (providerProfiles db), Ok a)
    /\ (Appointment.hourlyRate a == 0)%Q
    /\ (Appointment.totalAmount a == 0)%Q
    /\ Appointment.status a = SCHEDULED.
Proof.
  intros Hfind Hlic Hbg Hrate Hwin Hconf.
  exists (createDataOf currentUser now newId appointmentData provider).
  split.
  - rewrite (create_in_window _ _ _ _ _ provider Hfind Hlic Hbg Hwin).
    now rewrite Hconf.
  - cbn [createDataOf Appointment.hourlyRate Appointment.totalAmount
         Appointment.status].
    rewrite Hrate. cbn [orZero].
    split; [apply Qeq_refl |]. split; [| reflexivity].
    reflexivity.
Qed.

Lemma C10_missing_rate_is_booked_at_zero_witness :
  let req := Sample.request "prov-pt" (Sample.at_ 10 0) (Sample.at_ 10 50) in
  exists a,
    create Sample.family Sample.now "a1" req Sample.emptyDb
    = (mkDb (appointments Sample.emptyDb ++ [a])%list
            (providerProfiles Sample.emptyDb), Ok a)
    /\ (Appointment.hourlyRate a == 0)%Q
    /\ (Appointment.totalAmount a == 0)%Q
    /\ Appointment.status a = SCHEDULED.
Proof.
  apply (C10_missing_rate_is_booked_at_zero Sample.family Sample.now "a1"
           (Sample.request "prov-pt" (Sample.at_ 10 0) (Sample.at_ 10 50))
           Sample.emptyDb Sample.pt).
  - reflexivity.
  - reflexivity.
  - reflexivity.
  - reflexivity.
  - vm_compute. split; discriminate.
  - reflexivity.
Defined.

(** ** The update and cancel handlers, step by step *)

(** Rewriting the rows with a given id, by a function that keeps the id,
    rewrites the row that a look-up by this id finds. *)
Lemma find_id_map (id : string) (f : Appointment.t -> Appointment.t)
    (l : list Appointment.t) :
  (forall x, Appointment.id (f x) = Appointment.id x) ->
  find (fun a => String.eqb (Appointment.id a) id)
       (map (fun x => if String.eqb (Appointment.id x) id then f x else x) l)
  = option_map f (find (fun a => String.eqb (Appointment.id a) id) l).
Proof.
  intros Hid. induction l as [| x l IH]; simpl; [reflexivity |].
  destruct (String.eqb (Appointment.id x) id) eqn:Hx.
  - now rewrite Hid, Hx.
  - now rewrite Hx.
Qed.

Lemma hasAccess_db (currentUser : User.t) (a : Appointment.t) (db : Db) :
  fst (hasAccess currentUser a db) = db.
Proof.
  unfold hasAccess, bind, providerProfile_findUnique, ret, throw.
  destruct (UserRole_eqb _ _); [reflexivity |].
  destruct (String.eqb _ _); [reflexivity |].
  now destruct (find _ (providerProfiles db)).
Qed.

Section Mutations.
Variables (currentUser : User.t) (now : Date) (id : string) (db : Db).
Variable appointment : Appointment.t.

Hypothesis appointment_found :
  find (fun a => String.eqb (Appointment.id a) id) (appointments db)
  = Some appointment.
Hypothesis access_granted :
  hasAccess currentUser appointment db = (db, Ok true).

(** The database after the row [id] was rewritten by [data]. *)
Let written (data : Appointment.t -> Appointment.t) : Db :=
  mkDb (map (fun x => if String.eqb (Appointment.id x) id then data x else x)
            (appointments db))
       (providerProfiles db).

Lemma appointment_update_found (data : Appointment.t -> Appointment.t) :
  appointment_update id data db = (written data, Ok (data appointment)).
Proof. unfold appointment_update. now rewrite appointment_found. Qed.

Lemma written_find (data : Appointment.t -> Appointment.t) :
  (forall x, Appointment.id (data x) = Appointment.id x) ->
  find (fun a => String.eqb (Appointment.id a) id) (appointments (written data))
  = Some (data appointment).
Proof.
  intros Hid. unfold written. cbn [appointments].
  now rewrite find_id_map, appointment_found.
Qed.

Lemma update_authorized (updateData : UpdateAppointmentRequest.t) :
  update currentUser now id updateData db =
  match UpdateAppointmentRequest.status updateData with
  | Some requested =>
      if includes (validTransitions (Appointment.status appointment)) requested
      then (written (updateDataOf updateData now),
            Ok (updateDataOf updateData now appointment))
      else (db, Throw (IllegalStatusTransition (Appointment.status appointment)
                                               requested))
  | None => (written (updateDataOf updateData now),
             Ok (updateDataOf updateData now appointment))
  end.
Proof.
  unfold update, bind at 1, appointment_findUnique.
  rewrite appointment_found. unfold bind. rewrite access_granted.
  cbn [negb]. rewrite <- appointment_update_found.
  destruct (UpdateAppointmentRequest.status updateData) as [requested |];
    [| reflexivity].
  now destruct (includes _ requested).
Qed.

Lemma cancel_authorized (reason : option string) :
  cancel currentUser now id reason db =
  if nonTerminal (Appointment.status appointment)
  then (written (cancelDataOf reason now),
        Ok (cancelDataOf reason now appointment))
  else (db, Throw CannotBeCancelled).
Proof.
  unfold cancel, bind at 1, appointment_findUnique.
  rewrite appointment_found. unfold bind. rewrite access_granted.
  cbn [negb]. rewrite includes_terminal, <- appointment_update_found.
  now destruct (nonTerminal _).
Qed.

Lemma cancelWith_authorized (reason : JsValue) :
  cancelWith currentUser now id reason db =
  if nonTerminal (Appointment.status appointment)
  then if nullableString reason
       then (written (cancelDataWith reason now),
             Ok (cancelDataWith reason now appointment))
       else (db, Throw InternalError)
  else (db, Throw CannotBeCancelled).
Proof.
  unfold cancelWith, bind at 1, appointment_findUnique.
  rewrite appointment_found. unfold bind. rewrite access_granted.
  cbn [negb]. rewrite includes_terminal, <- appointment_update_found.
  destruct (nonTerminal _); [| reflexivity].
  now destruct (nullableString reason).
Qed.
End Mutations.

(** For a reason that is absent or a string, [cancel] is [cancelWith]. *)
Lemma cancelDataWith_ofOption (reason : option string) (now : Date)
    (a : Appointment.t) :
  cancelDataWith (ofOption reason) now a = cancelDataOf reason now a.
Proof. now destruct reason. Qed.

Lemma cancelWith_ofOption (currentUser : User.t) (now : Date) (id : string)
    (reason : option string) (db : Db) :
  cancelWith currentUser now id (ofOption reason) db
  = cancel currentUser now id reason db.
Proof.
  unfold cancelWith, cancel, bind.
  destruct (appointment_findUnique id db) as [db1 [[a |] | e]]; try reflexivity.
  destruct (hasAccess currentUser a db1) as [db2 [[|] | e]]; try reflexivity.
  cbn [negb].
  destruct (includes _ (Appointment.status a)); [reflexivity |].
  assert (Hv : nullableString (ofOption reason) = true) by now destruct reason.
  rewrite Hv. cbn [negb]. unfold appointment_update.
  destruct (find _ (appointments db2)); [| reflexivity].
  rewrite cancelDataWith_ofOption.
  f_equal. f_equal. apply map_ext. intros x.
  now rewrite cancelDataWith_ofOption.
Qed.

(** ** C6: the lifecycle of an appointment *)

(** C6. For a stored appointment of status [from], a caller with access to
    it and an update that asks for status [to]: when [(from, to)] is not in
    the transition table the update is answered with the
    illegal-transition error, whose message names both statuses, and the
    database is left as it was, so that the same request fails in the same
    way again; when [(from, to)] is in the table the update succeeds and
    the stored appointment has status [to]. A terminal [from] has no
    transition at all, to itself included. *)
Theorem C6_status_transitions
    (currentUser : User.t) (now : Date) (id : string) (db : Db)
    (appointment : Appointment.t) (updateData : UpdateAppointmentRequest.t)
    (from to : AppointmentStatus) :
  find (fun a => String.eqb (Appointment.id a) id) (appointments db)
  = Some appointment ->
  hasAccess currentUser appointment db = (db, Ok true) ->
  Appointment.status appointment = from ->
  UpdateAppointmentRequest.status updateData = Some to ->
  let answer := update currentUser now id updateData db in
  (~ Permitted from to ->
   answer = (db, Throw (IllegalStatusTransition from to))
   /\ message (IllegalStatusTransition from to)
      = "Cannot change status from " ++ statusName from
        ++ " to " ++ statusName to
   /\ update currentUser now id updateData (fst answer)
      = (db, Throw (IllegalStatusTransition from to)))
  /\ (Permitted from to ->
      exists db' a',
        answer = (db', Ok a')
        /\ Appointment.status a' = to
        /\ find (fun a => String.eqb (Appointment.id a) id) (appointments db')
           = Some a')
  /\ (nonTerminal from = false -> ~ Permitted from to).
Proof.
  intros Hfound Haccess Hfrom Hto answer. unfold answer.
  rewrite (update_authorized _ _ _ _ _ Hfound Haccess), Hto, Hfrom.
  split; [| split].
  - intros Hnot.
    destruct (includes (validTransitions from) to) eqn:Hinc.
    + apply validTransitions_Permitted in Hinc. contradiction.
    + cbn [fst].
      rewrite (update_authorized _ _ _ _ _ Hfound Haccess), Hto, Hfrom, Hinc.
      repeat split.
  - intros Hyes. apply validTransitions_Permitted in Hyes. rewrite Hyes.
    do 2 eexists. split; [reflexivity |]. split.
    + cbn [updateDataOf Appointment.status]. now rewrite Hto.
    + cbn [appointments]. rewrite find_id_map by reflexivity.
      now rewrite Hfound.
  - apply terminal_not_Permitted.
Qed.

Lemma C6_status_transitions_witness :
  let db := Sample.booked "a1" (Sample.at_ 10 0) (Sample.at_ 11 0) Sample.emptyDb in
  update Sample.family Sample.now "a1" (Sample.setStatus COMPLETED None) db
  = (db, Throw (IllegalStatusTransition SCHEDULED COMPLETED))
  /\ exists db' a',
       update Sample.family Sample.now "a1" (Sample.setStatus CONFIRMED None) db
       = (db', Ok a')
       /\ Appointment.status a' = CONFIRMED
       /\ find (fun a => String.eqb (Appointment.id a) "a1") (appointments db')
          = Some a'.
Proof.
  intros db.
  pose (a := createDataOf Sample.family Sample.now "a1"
               (Sample.request "prov-slp" (Sample.at_ 10 0) (Sample.at_ 11 0))
               Sample.slp).
  split.
  - apply (C6_status_transitions Sample.family Sample.now "a1" db a
             (Sample.setStatus COMPLETED None) SCHEDULED COMPLETED);
      try reflexivity.
    intros H. inversion H.
  - apply (C6_status_transitions Sample.family Sample.now "a1" db a
             (Sample.setStatus CONFIRMED None) SCHEDULED CONFIRMED);
      try reflexivity.
    constructor.
Defined.

(** ** C9: what a cancellation writes *)

(** C9. For a stored appointment in a non-terminal status and a caller
    with access to it, a cancel request, and an update that asks for
    [CANCELLED], succeed with a single write of the row, in which the
    status becomes [CANCELLED], [cancelledAt] the time of the request and
    [cancellationReason] what the request carries for it: its string; on a
    cancel request also nothing, for [null]; its old value, when the
    request carries none. A cancel request changes no other column but the
    audit timestamp, and one whose reason the column cannot take is
    refused with nothing written. An update changes beside these the
    columns its body names and no other: it writes what the same body
    without status and reason writes, and the cancellation on top; with
    nothing but a status and a reason in the body, no other column
    changes. *)
Theorem C9_cancellation_writes
    (currentUser : User.t) (now : Date) (id : string) (db : Db)
    (appointment : Appointment.t) :
  find (fun a => String.eqb (Appointment.id a) id) (appointments db)
  = Some appointment ->
  hasAccess currentUser appointment db = (db, Ok true) ->
  nonTerminal (Appointment.status appointment) = true ->
  (forall reason : JsValue,
     nullableString reason = true ->
     let a' := cancelDataWith reason now appointment in
     cancelWith currentUser now id reason db
     = (mkDb (map (fun x => if String.eqb (Appointment.id x) id
                            then cancelDataWith reason now x else x)
                  (appointments db))
             (providerProfiles db), Ok a')
     /\ Appointment.status a' = CANCELLED
     /\ Appointment.cancelledAt a' = Some now
     /\ Appointment.cancellationReason a'
        = match reason with
          | JsString r => Some r
          | Null => None
          | _ => Appointment.cancellationReason appointment
          end
     /\ sameOutsideCancellation appointment a')
  /\ (forall reason : JsValue,
        nullableString reason = false ->
        cancelWith currentUser now id reason db = (db, Throw InternalError))
  /\ (forall reason : option string,
        cancel currentUser now id reason db
        = cancelWith currentUser now id (ofOption reason) db)
  /\ (forall updateData : UpdateAppointmentRequest.t,
        UpdateAppointmentRequest.status updateData = Some CANCELLED ->
        let a' := updateDataOf updateData now appointment in
        update currentUser now id updateData db
        = (mkDb (map (fun x => if String.eqb (Appointment.id x) id
                               then updateDataOf updateData now x else x)
                     (appointments db))
                (providerProfiles db), Ok a')
        /\ Appointment.status a' = CANCELLED
        /\ Appointment.cancelledAt a' = Some now
        /\ Appointment.cancellationReason a'
           = match UpdateAppointmentRequest.cancellationReason updateData with
             | Some r => Some r
             | None => Appointment.cancellationReason appointment
             end
        /\ a' = cancelDataOf
                  (UpdateAppointmentRequest.cancellationReason updateData) now
                  (updateDataOf (otherEdits updateData) now appointment)
        /\ changedAsAsked updateData appointment a'
        /\ (onlyStatusAndReason updateData ->
            sameOutsideCancellation appointment a')).
Proof.
  intros Hfound Haccess Hlive. split; [| split; [| split]].
  - intros reason Hreason a'.
    rewrite (cancelWith_authorized _ _ _ _ _ Hfound Haccess), Hlive, Hreason.
    repeat split.
  - intros reason Hreason.
    now rewrite (cancelWith_authorized _ _ _ _ _ Hfound Haccess), Hlive, Hreason.
  - intros reason. symmetry. apply cancelWith_ofOption.
  - intros updateData Hto a'.
    rewrite (update_authorized _ _ _ _ _ Hfound Haccess), Hto.
    assert (Hinc : includes (validTransitions (Appointment.status appointment))
                            CANCELLED = true)
      by (destruct (Appointment.status appointment); [easy .. | discriminate Hlive
          | discriminate Hlive | discriminate Hlive]).
    rewrite Hinc. split; [reflexivity |].
    unfold a'. cbn [updateDataOf Appointment.status Appointment.cancelledAt
                    Appointment.cancellationReason].
    rewrite Hto. split; [reflexivity |]. split; [reflexivity |].
    split; [reflexivity |]. split; [| split].
    + unfold cancelDataOf, updateDataOf, otherEdits, patch, patchOpt, touch.
      cbn. now rewrite Hto.
    + unfold changedAsAsked. cbn. repeat split.
    + intros H.
      destruct H as (H1 & H2 & H3 & H4 & H5 & H6 & H7 & H8 & H9 & H10 & H11).
      unfold sameOutsideCancellation. cbn.
      rewrite ?H1, ?H2, ?H3, ?H4, ?H5, ?H6, ?H7, ?H8, ?H9, ?H10, ?H11.
      repeat split.
Qed.

Lemma C9_cancellation_writes_witness :
  let db := Sample.booked "a1" (Sample.at_ 10 0) (Sample.at_ 11 0) Sample.emptyDb in
  let a := createDataOf Sample.family Sample.now "a1"
             (Sample.request "prov-slp" (Sample.at_ 10 0) (Sample.at_ 11 0))
             Sample.slp in
  let a' := cancelDataWith (JsString "ill") (Sample.now + Sample.hour) a in
  cancelWith Sample.family (Sample.now + Sample.hour) "a1" (JsString "ill") db
  = (mkDb (map (fun x => if String.eqb (Appointment.id x) "a1"
                         then cancelDataWith (JsString "ill")
                                (Sample.now + Sample.hour) x
                         else x)
               (appointments db))
          (providerProfiles db), Ok a')
  /\ Appointment.status a' = CANCELLED
  /\ Appointment.cancelledAt a' = Some (Sample.now + Sample.hour)
  /\ Appointment.cancellationReason a' = Some "ill"
  /\ sameOutsideCancellation a a'.
Proof.
  intros db a.
  apply (C9_cancellation_writes Sample.family (Sample.now + Sample.hour)
           "a1" db a); reflexivity.
Defined.

(** A reason is written before the cancellation by an update that names
    nothing else; a cancel request with [null] for its reason then empties
    the column, and one with a number is refused. *)
Example cancel_with_null_empties_the_reason :
  let db := Sample.booked "a1" (Sample.at_ 10 0) (Sample.at_ 11 0) Sample.emptyDb in
  let note := UpdateAppointmentRequest.mk None None None None None
                None None None None None None None (Some "maybe") in
  let db1 := fst (update Sample.family Sample.now "a1" note db) in
  let later := Sample.now + Sample.hour in
  (exists a, appointments db1 = [a]
             /\ Appointment.status a = SCHEDULED
             /\ Appointment.cancellationReason a = Some "maybe")
  /\ (exists a', cancelWith Sample.family later "a1" Null db1
                 = (mkDb [a'] (providerProfiles db1), Ok a')
                 /\ Appointment.status a' = CANCELLED
                 /\ Appointment.cancellationReason a' = None)
  /\ cancelWith Sample.family later "a1" (JsNumber (3 # 1)) db1
     = (db1, Throw InternalError).
Proof.
  intros db note db1 later. split; [| split].
  - eexists. vm_compute. repeat split.
  - eexists. vm_compute. repeat split.
  - vm_compute. reflexivity.
Qed.

(** ** C5: the stored duration *)

(** C5 (the code departs from the claim). The creation handler stores the
    length of the slot: an appointment from 10:00 to 11:00 has duration 60.
    Its owner then moves its end to 12:00; the update succeeds and writes
    the new end, and the stored duration is still 60 while the interval is
    120 minutes long. *)
Theorem C5_update_leaves_duration_stale :
  let db := Sample.booked "a1" (Sample.at_ 10 0) (Sample.at_ 11 0) Sample.emptyDb in
  let a := createDataOf Sample.family Sample.now "a1"
             (Sample.request "prov-slp" (Sample.at_ 10 0) (Sample.at_ 11 0))
             Sample.slp in
  let later := Sample.now + Sample.hour in
  let move := Sample.reschedule (Sample.at_ 10 0) (Sample.at_ 12 0) in
  let a' := updateDataOf move later a in
  appointments db = [a]
  /\ Appointment.duration a = 60
  /\ durationIsDerived a = true
  /\ update Sample.family later "a1" move db
     = (mkDb [a'] (providerProfiles db), Ok a')
  /\ Appointment.startTime a' = Sample.at_ 10 0
  /\ Appointment.endTime a' = Sample.at_ 12 0
  /\ Appointment.duration a' = 60
  /\ (minutesBetween (Appointment.startTime a') (Appointment.endTime a')
      == 120 # 1)%Q
  /\ durationIsDerived a' = false.
Proof.
  vm_compute. repeat split; reflexivity.
Qed.

(** ** C2: double bookings *)

(** Rewriting rows in a way that creates no double-booked pair keeps a
    table free of double bookings. *)
Lemma noDoubleBooking_map (g : Appointment.t -> Appointment.t)
    (l : list Appointment.t) :
  (forall x y, doubleBooked (g x) (g y) = true -> doubleBooked x y = true) ->
  noDoubleBooking l = true -> noDoubleBooking (map g l) = true.
Proof.
  intros Hg. induction l as [| a l IH]; simpl; [reflexivity |].
  rewrite !andb_true_iff, !forallb_forall. intros [Ha Hl].
  split; [| now apply IH].
  intros y Hy. apply in_map_iff in Hy. destruct Hy as (x & <- & Hx).
  specialize (Ha x Hx). apply negb_true_iff in Ha. apply negb_true_iff.
  destruct (doubleBooked (g a) (g x)) eqn:E; [| reflexivity].
  apply Hg in E. congruence.
Qed.

(** The database a cancel request leaves: as it was, or with the rows of
    the given id cancelled. *)
Lemma cancel_db (currentUser : User.t) (now : Date) (id : string)
    (reason : option string) (db : Db) :
  fst (cancel currentUser now id reason db) = db
  \/ fst (cancel currentUser now id reason db)
     = mkDb (map (fun x => if String.eqb (Appointment.id x) id
                           then cancelDataOf reason now x else x)
                 (appointments db))
            (providerProfiles db).
Proof.
  destruct (find (fun a => String.eqb (Appointment.id a) id) (appointments db))
    as [a |] eqn:Hfound.
  2:{ left. unfold cancel, bind, appointment_findUnique. now rewrite Hfound. }
  pose proof (hasAccess_db currentUser a db) as Hdb.
  destruct (hasAccess currentUser a db) as [db1 [[|] | e]] eqn:Hacc;
    cbn [fst] in Hdb; subst db1.
  - rewrite (cancel_authorized _ _ _ _ _ Hfound Hacc).
    destruct (nonTerminal _); [right | left]; reflexivity.
  - left. unfold cancel, bind, appointment_findUnique.
    now rewrite Hfound, Hacc.
  - left. unfold cancel, bind, appointment_findUnique.
    now rewrite Hfound, Hacc.
Qed.

(** Cancelling never double-books a provider. *)
Lemma cancel_preserves_noDoubleBooking (currentUser : User.t) (now : Date)
    (id : string) (reason : option string) (db : Db) :
  noDoubleBooking (appointments db) = true ->
  noDoubleBooking (appointments (fst (cancel currentUser now id reason db)))
  = true.
Proof.
  intros Hinv.
  destruct (cancel_db currentUser now id reason db) as [-> | ->];
    [assumption |].
  cbn [appointments]. apply noDoubleBooking_map; [| assumption].
  intros x y. unfold doubleBooked.
  destruct (String.eqb (Appointment.id x) id),
           (String.eqb (Appointment.id y) id);
    cbn [cancelDataOf Appointment.status Appointment.providerId
         Appointment.startTime Appointment.endTime nonTerminal];
    rewrite ?andb_false_r; cbn [andb]; try discriminate; auto.
Qed.

(** C2 (the code departs from the claim). Two ways into a double booking,
    each from a table that has none. By an update: the provider is booked
    from 10:00 to 11:00 and from 12:00 to 13:00, and the second appointment
    is moved to 10:30 to 11:30; the update handler runs no conflict query
    and writes the new times. By a creation: the provider is booked from
    10:00 to 12:00 and a request for 10:30 to 11:30 is accepted, the
    conflict query missing an appointment that contains the slot. *)
Theorem C2_double_booking_is_reachable :
  let later := Sample.now + Sample.hour in
  let db1 :=
    Sample.booked "a2" (Sample.at_ 12 0) (Sample.at_ 13 0)
      (Sample.booked "a1" (Sample.at_ 10 0) (Sample.at_ 11 0) Sample.emptyDb) in
  let move := Sample.reschedule (Sample.at_ 10 30) (Sample.at_ 11 30) in
  let db1' := fst (update Sample.family later "a2" move db1) in
  let db2 := Sample.booked "a1" (Sample.at_ 10 0) (Sample.at_ 12 0) Sample.emptyDb in
  let req := Sample.request "prov-slp" (Sample.at_ 10 30) (Sample.at_ 11 30) in
  let db2' := fst (create Sample.family later "a2" req db2) in
  (noDoubleBooking (appointments db1) = true
   /\ (exists a', snd (update Sample.family later "a2" move db1) = Ok a')
   /\ map Appointment.status (appointments db1') = [SCHEDULED; SCHEDULED]
   /\ noDoubleBooking (appointments db1') = false)
  /\ (noDoubleBooking (appointments db2) = true
      /\ (exists a', snd (create Sample.family later "a2" req db2) = Ok a')
      /\ map Appointment.status (appointments db2') = [SCHEDULED; SCHEDULED]
      /\ noDoubleBooking (appointments db2') = false).
Proof.
  vm_compute. repeat split; try reflexivity; eexists; reflexivity.
Qed.

(** ** The booking scenario of the specification *)

(** A provider at 120 an hour: the request for 10:00 to 11:00 is booked as
    [SCHEDULED] for an amount of 120; a second one for 10:30 to 11:30 is
    refused as a conflict; a third one for 11:00 to 12:00 is booked. *)
Example booking_scenario :
  let first := Sample.request "prov-slp" (Sample.at_ 10 0) (Sample.at_ 11 0) in
  let second := Sample.request "prov-slp" (Sample.at_ 10 30) (Sample.at_ 11 30) in
  let third := Sample.request "prov-slp" (Sample.at_ 11 0) (Sample.at_ 12 0) in
  let a1 := createDataOf Sample.family Sample.now "a1" first Sample.slp in
  let a3 := createDataOf Sample.family Sample.now "a3" third Sample.slp in
  let db1 := mkDb [a1] (providerProfiles Sample.emptyDb) in
  create Sample.family Sample.now "a1" first Sample.emptyDb = (db1, Ok a1)
  /\ Appointment.status a1 = SCHEDULED
  /\ (Appointment.totalAmount a1 == 120 # 1)%Q
  /\ create Sample.family Sample.now "a2" second db1
     = (db1, Throw SchedulingConflict)
  /\ create Sample.family Sample.now "a3" third db1
     = (mkDb [a1; a3] (providerProfiles Sample.emptyDb), Ok a3).
Proof.
  vm_compute. repeat split; reflexivity.
Qed.

(** * Further properties of the handlers *)

(** ** Creation: errors, frame and conflicts *)

Lemma find_exists {A} (f : A -> bool) (l : list A) (x : A) :
  In x l -> f x = true -> exists y, find f l = Some y.
Proof.
  induction l as [| y l IH]; simpl; [contradiction |].
  intros [-> | Hin] Hx.
  - rewrite Hx. now exists x.
  - destruct (f y); [now exists y | now apply IH].
Qed.

Lemma find_app_new {A} (f : A -> bool) (l : list A) (x : A) :
  find f l = None -> f x = true -> find f (l ++ [x]) = Some x.
Proof.
  induction l as [| y l IH]; simpl; intros Hnone Hx.
  - now rewrite Hx.
  - destruct (f y); [discriminate | now apply IH].
Qed.

(** X1. On a server in any time zone, each of the creation handler's own
    errors tells its cause, and the handler has written nothing when it
    answers with one: the provider is unknown; or known and not verified;
    or the slot starts before [now]; or after [addDays(now, 90)] (and not
    before [now]); or a row of the table matches the conflict query. *)
Theorem create_error_causes
    (tz : TimeZone.t)
    (currentUser : User.t) (now : Date) (newId : string)
    (appointmentData : CreateAppointmentRequest.t) (db db' : Db)
    (e : ApiError) :
  createIn tz currentUser now newId appointmentData db = (db', Throw e) ->
  let providerId := CreateAppointmentRequest.providerId appointmentData in
  let startTime := CreateAppointmentRequest.startTime appointmentData in
  let endTime := CreateAppointmentRequest.endTime appointmentData in
  let provider := find (fun p => String.eqb (ProviderProfile.id p) providerId)
                       (providerProfiles db) in
  (e = ProviderNotFound -> db' = db /\ provider = None)
  /\ (e = ProviderNotEligible ->
      db' = db
      /\ exists p, provider = Some p
           /\ (ProviderProfile.licenseVerified p = false
               \/ ProviderProfile.backgroundCheck p = false))
  /\ (e = PastBooking -> db' = db /\ startTime < now)
  /\ (e = BookingTooFarOut ->
      db' = db /\ now <= startTime /\ addDaysIn tz now 90 < startTime)
  /\ (e = SchedulingConflict ->
      db' = db
      /\ now <= startTime <= addDaysIn tz now 90
      /\ exists x, In x (appointments db)
           /\ conflictWhere providerId startTime endTime x = true).
Proof.
  intros H providerId startTime endTime provider. unfold createIn in H.
  destruct provider as [p |] eqn:Hfind; unfold provider in Hfind.
  2:{ rewrite createWith_no_provider in H by exact Hfind.
      injection H as <- <-. repeat split; try discriminate. }
  destruct (ProviderProfile.licenseVerified p) eqn:Hlic.
  2:{ rewrite (createWith_not_eligible _ _ _ _ _ _ p Hfind) in H
        by (left; exact Hlic).
      injection H as <- <-. repeat split; try discriminate.
      exists p. auto. }
  destruct (ProviderProfile.backgroundCheck p) eqn:Hbg.
  2:{ rewrite (createWith_not_eligible _ _ _ _ _ _ p Hfind) in H
        by (right; exact Hbg).
      injection H as <- <-. repeat split; try discriminate.
      exists p. auto. }
  rewrite (createWith_eligible _ _ _ _ _ _ p Hfind Hlic Hbg) in H.
  fold providerId startTime endTime in H. unfold isBefore, isAfter in H.
  destruct (startTime <? now) eqn:Hlo.
  { injection H as <- <-. apply Z.ltb_lt in Hlo.
    repeat split; try discriminate. exact Hlo. }
  apply Z.ltb_ge in Hlo.
  destruct (addDaysIn tz now 90 <? startTime) eqn:Hhi.
  { injection H as <- <-. apply Z.ltb_lt in Hhi.
    repeat split; try discriminate; assumption. }
  apply Z.ltb_ge in Hhi.
  destruct (find (conflictWhere providerId startTime endTime) (appointments db))
    as [x |] eqn:Hconf; [| discriminate].
  injection H as <- <-. apply find_some in Hconf.
  repeat split; try discriminate; try assumption. now exists x.
Qed.

Lemma create_error_causes_witness :
  let horizon := Sample.now + 90 * msPerDay - Sample.hour in
  let req := Sample.request "prov-slp" (horizon + 1) (horizon + Sample.hour) in
  createIn Sample.newYork Sample.family Sample.now "a2" req Sample.emptyDb
  = (Sample.emptyDb, Throw BookingTooFarOut)
  /\ Sample.now <= horizon + 1
  /\ addDaysIn Sample.newYork Sample.now 90 < horizon + 1.
Proof.
  intros horizon req.
  assert (H : createIn Sample.newYork Sample.family Sample.now "a2" req
                Sample.emptyDb
              = (Sample.emptyDb, Throw BookingTooFarOut))
    by (vm_compute; reflexivity).
  split; [exact H |].
  apply (create_error_causes Sample.newYork Sample.family Sample.now "a2" req
           Sample.emptyDb Sample.emptyDb BookingTooFarOut H).
  reflexivity.
Defined.

(** X2. A successful creation appends exactly one row and touches nothing
    else: the rows that were there stay, in their order, and the provider
    table is the same; the new row carries the generated id, belongs to the
    caller, is [SCHEDULED], awaits payment and is not marked cancelled. *)
Theorem create_appends_one_scheduled_row
    (currentUser : User.t) (now : Date) (newId : string)
    (appointmentData : CreateAppointmentRequest.t) (db db' : Db)
    (a : Appointment.t) :
  create currentUser now newId appointmentData db = (db', Ok a) ->
  appointments db' = (appointments db ++ [a])%list
  /\ providerProfiles db' = providerProfiles db
  /\ Appointment.id a = newId
  /\ Appointment.clientId a = User.id currentUser
  /\ Appointment.providerId a = CreateAppointmentRequest.providerId appointmentData
  /\ Appointment.status a = SCHEDULED
  /\ Appointment.paymentStatus a = PaymentStatus.PENDING
  /\ Appointment.cancelledAt a = None
  /\ Appointment.cancellationReason a = None.
Proof.
  intros H. apply create_Ok_inv in H.
  destruct H as (provider & _ & _ & _ & _ & _ & -> & ->).
  repeat split.
Qed.

Lemma create_appends_one_scheduled_row_witness :
  let req := Sample.request "prov-slp" (Sample.at_ 10 0) (Sample.at_ 11 0) in
  let a := createDataOf Sample.family Sample.now "a1" req Sample.slp in
  let db' := mkDb [a] (providerProfiles Sample.emptyDb) in
  appointments db' = (appointments Sample.emptyDb ++ [a])%list
  /\ providerProfiles db' = providerProfiles Sample.emptyDb
  /\ Appointment.id a = "a1"
  /\ Appointment.clientId a = User.id Sample.family
  /\ Appointment.providerId a = CreateAppointmentRequest.providerId req
  /\ Appointment.status a = SCHEDULED
  /\ Appointment.paymentStatus a = PaymentStatus.PENDING
  /\ Appointment.cancelledAt a = None
  /\ Appointment.cancellationReason a = None.
Proof.
  intros req a db'.
  apply (create_appends_one_scheduled_row Sample.family Sample.now "a1" req
           Sample.emptyDb db' a).
  vm_compute. reflexivity.
Defined.

(** Rows of another provider, and rows in a terminal status, are not
    matched by the conflict query. *)
Lemma conflictWhere_ignores (providerId : string) (startTime endTime : Date)
    (x : Appointment.t) :
  Appointment.providerId x <> providerId
  \/ nonTerminal (Appointment.status x) = false ->
  conflictWhere providerId startTime endTime x = false.
Proof.
  intros H. apply not_true_is_false. intros Hc.
  apply conflictWhere_spec in Hc. destruct Hc as (Hp & Hs & _).
  destruct H as [H | H]; congruence.
Qed.

(** X3. Terminal appointments and appointments of other providers never
    block a booking: when every row of the table is of another provider or
    is [COMPLETED], [CANCELLED] or [NO_SHOW], a request for an eligible
    provider that starts inside the booking window is booked, whatever the
    intervals of those rows. *)
Theorem create_ignores_terminal_and_foreign_rows
    (currentUser : User.t) (now : Date) (newId : string)
    (appointmentData : CreateAppointmentRequest.t) (db : Db)
    (provider : ProviderProfile.t) :
  find (fun p => String.eqb (ProviderProfile.id p)
                   (CreateAppointmentRequest.providerId appointmentData))
       (providerProfiles db) = Some provider ->
  ProviderProfile.licenseVerified provider = true ->
  ProviderProfile.backgroundCheck provider = true ->
  now <= CreateAppointmentRequest.startTime appointmentData <= addDays now 90 ->
  (forall x, In x (appointments db) ->
     Appointment.providerId x
       <> CreateAppointmentRequest.providerId appointmentData
     \/ nonTerminal (Appointment.status x) = false) ->
  let a := createDataOf currentUser now newId appointmentData provider in
  create currentUser now newId appointmentData db
  = (mkDb (appointments db ++ [a])%list (providerProfiles db), Ok a).
Proof.
  intros Hfind Hlic Hbg Hwin Hrows a.
  rewrite (create_in_window _ _ _ _ _ provider Hfind Hlic Hbg Hwin).
  rewrite find_none_forall; [reflexivity |].
  intros x Hx. apply conflictWhere_ignores. now apply Hrows.
Qed.

Lemma create_ignores_terminal_and_foreign_rows_witness :
  let db := SampleCallers.twoBookings in
  let db := fst (cancel Sample.family Sample.now "a1" None db) in
  let req := Sample.request "prov-slp" (Sample.at_ 10 0) (Sample.at_ 11 0) in
  let a := createDataOf Sample.family Sample.now "a3" req Sample.slp in
  create Sample.family Sample.now "a3" req db
  = (mkDb (appointments db ++ [a])%list (providerProfiles db), Ok a).
Proof.
  intros db0 db req a.
  apply (create_ignores_terminal_and_foreign_rows Sample.family Sample.now
           "a3" req db Sample.slp).
  - reflexivity.
  - reflexivity.
  - reflexivity.
  - vm_compute. split; discriminate.
  - intros x Hx. vm_compute in Hx.
    destruct Hx as [<- | [<- | []]].
    + right. reflexivity.
    + left. discriminate.
Defined.

(** X4. A slot cannot be booked twice: once a request for a slot that ends
    after it starts has been booked, the same slot with the same provider
    is refused as a conflict, for any caller and at any later time at which
    the slot is still inside the booking window, and nothing is written. *)
Theorem create_same_slot_twice_conflicts
    (currentUser otherUser : User.t) (now later : Date) (newId otherId : string)
    (appointmentData : CreateAppointmentRequest.t) (db db' : Db)
    (a : Appointment.t) :
  create currentUser now newId appointmentData db = (db', Ok a) ->
  CreateAppointmentRequest.startTime appointmentData
    < CreateAppointmentRequest.endTime appointmentData ->
  later <= CreateAppointmentRequest.startTime appointmentData <= addDays later 90 ->
  create otherUser later otherId appointmentData db'
  = (db', Throw SchedulingConflict).
Proof.
  intros H Hpos Hwin. apply create_Ok_inv in H.
  destruct H as (provider & Hfind & Hlic & Hbg & _ & Hconf & -> & ->).
  rewrite (create_in_window otherUser later otherId appointmentData
             (mkDb (appointments db
                    ++ [createDataOf currentUser now newId appointmentData
                          provider])%list
                   (providerProfiles db))
             provider Hfind Hlic Hbg Hwin).
  cbn [appointments].
  rewrite (find_app_new _ _ _ Hconf); [reflexivity |].
  apply conflictWhere_spec. cbn. repeat split. left. lia.
Qed.

Lemma create_same_slot_twice_conflicts_witness :
  let req := Sample.request "prov-slp" (Sample.at_ 10 0) (Sample.at_ 11 0) in
  let a := createDataOf Sample.family Sample.now "a1" req Sample.slp in
  let db' := mkDb [a] (providerProfiles Sample.emptyDb) in
  create SampleCallers.stranger (Sample.now + Sample.hour) "a2" req db'
  = (db', Throw SchedulingConflict).
Proof.
  intros req a db'.
  apply (create_same_slot_twice_conflicts Sample.family SampleCallers.stranger
           Sample.now (Sample.now + Sample.hour) "a1" "a2" req
           Sample.emptyDb db' a).
  - vm_compute. reflexivity.
  - vm_compute. reflexivity.
  - vm_compute. split; discriminate.
Defined.

(** X5. A booking is refused whenever an active appointment of the
    provider starts inside the requested slot ([start <= s < end]) or ends
    inside it ([start < e <= end]): with an eligible provider and a start
    inside the booking window the answer is the conflict error and nothing
    is written. *)
Theorem create_detects_partial_overlap
    (currentUser : User.t) (now : Date) (newId : string)
    (appointmentData : CreateAppointmentRequest.t) (db : Db)
    (provider : ProviderProfile.t) (existing : Appointment.t) :
  find (fun p => String.eqb (ProviderProfile.id p)
                   (CreateAppointmentRequest.providerId appointmentData))
       (providerProfiles db) = Some provider ->
  ProviderProfile.licenseVerified provider = true ->
  ProviderProfile.backgroundCheck provider = true ->
  now <= CreateAppointmentRequest.startTime appointmentData <= addDays now 90 ->
  In existing (appointments db) ->
  Appointment.providerId existing
    = CreateAppointmentRequest.providerId appointmentData ->
  nonTerminal (Appointment.status existing) = true ->
  (CreateAppointmentRequest.startTime appointmentData
     <= Appointment.startTime existing
     < CreateAppointmentRequest.endTime appointmentData)
  \/ (CreateAppointmentRequest.startTime appointmentData
        < Appointment.endTime existing
        <= CreateAppointmentRequest.endTime appointmentData) ->
  create currentUser now newId appointmentData db
  = (db, Throw SchedulingConflict).
Proof.
  intros Hfind Hlic Hbg Hwin Hin Hprov Hlive Hedge.
  rewrite (create_in_window _ _ _ _ _ provider Hfind Hlic Hbg Hwin).
  destruct (find_exists
              (conflictWhere (CreateAppointmentRequest.providerId appointmentData)
                 (CreateAppointmentRequest.startTime appointmentData)
                 (CreateAppointmentRequest.endTime appointmentData))
              (appointments db) existing Hin) as [y Hy].
  - apply conflictWhere_spec. repeat split; assumption.
  - now rewrite Hy.
Qed.

Lemma create_detects_partial_overlap_witness :
  let db := Sample.booked "a1" (Sample.at_ 10 0) (Sample.at_ 11 0) Sample.emptyDb in
  create Sample.family Sample.now "a2"
    (Sample.request "prov-slp" (Sample.at_ 10 30) (Sample.at_ 11 30)) db
  = (db, Throw SchedulingConflict).
Proof.
  intros db.
  apply (create_detects_partial_overlap Sample.family Sample.now "a2"
           (Sample.request "prov-slp" (Sample.at_ 10 30) (Sample.at_ 11 30))
           db Sample.slp
           (createDataOf Sample.family Sample.now "a1"
              (Sample.request "prov-slp" (Sample.at_ 10 0) (Sample.at_ 11 0))
              Sample.slp)).
  - reflexivity.
  - reflexivity.
  - reflexivity.
  - vm_compute. split; discriminate.
  - left. reflexivity.
  - reflexivity.
  - reflexivity.
  - right. vm_compute. split; [reflexivity | discriminate].
Defined.

(** A conflict error comes from a row that the conflict query matches. *)
Lemma create_conflict_inv
    (currentUser : User.t) (now : Date) (newId : string)
    (appointmentData : CreateAppointmentRequest.t) (db db' : Db) :
  create currentUser now newId appointmentData db
  = (db', Throw SchedulingConflict) ->
  exists x,
    In x (appointments db)
    /\ conflictWhere (CreateAppointmentRequest.providerId appointmentData)
                     (CreateAppointmentRequest.startTime appointmentData)
                     (CreateAppointmentRequest.endTime appointmentData) x
       = true.
Proof.
  intros H.
  destruct (find (fun p => String.eqb (ProviderProfile.id p)
                             (CreateAppointmentRequest.providerId appointmentData))
                 (providerProfiles db)) as [p |] eqn:Hfind.
  2:{ rewrite create_no_provider in H by exact Hfind. discriminate. }
  destruct (ProviderProfile.licenseVerified p) eqn:Hlic.
  2:{ rewrite (create_not_eligible _ _ _ _ _ p Hfind) in H
        by (left; exact Hlic). discriminate. }
  destruct (ProviderProfile.backgroundCheck p) eqn:Hbg.
  2:{ rewrite (create_not_eligible _ _ _ _ _ p Hfind) in H
        by (right; exact Hbg). discriminate. }
  rewrite (create_eligible _ _ _ _ _ p Hfind Hlic Hbg) in H.
  destruct (isBefore _ now); [discriminate |].
  destruct (isAfter _ _); [discriminate |].
  destruct (find (conflictWhere _ _ _) (appointments db)) as [x |] eqn:Hconf;
    [| discriminate].
  apply find_some in Hconf. now exists x.
Qed.

(** X6. No false conflict: when every row of the table ends after it
    starts, a conflict error means that some active appointment of the
    requested provider overlaps the requested slot as half-open
    intervals. *)
Theorem create_conflict_is_an_overlap
    (currentUser : User.t) (now : Date) (newId : string)
    (appointmentData : CreateAppointmentRequest.t) (db db' : Db) :
  (forall x, In x (appointments db) -> positiveLength x = true) ->
  create currentUser now newId appointmentData db
  = (db', Throw SchedulingConflict) ->
  exists x,
    In x (appointments db)
    /\ Appointment.providerId x
       = CreateAppointmentRequest.providerId appointmentData
    /\ nonTerminal (Appointment.status x) = true
    /\ overlaps (CreateAppointmentRequest.startTime appointmentData)
                (CreateAppointmentRequest.endTime appointmentData)
                (Appointment.startTime x) (Appointment.endTime x) = true.
Proof.
  intros Hpos H. apply create_conflict_inv in H.
  destruct H as (x & Hin & Hc). exists x.
  specialize (Hpos x Hin). apply Z.ltb_lt in Hpos.
  pose proof (conflictWhere_overlaps _ _ _ _ Hpos Hc) as Hov.
  apply conflictWhere_spec in Hc. tauto.
Qed.

Lemma create_conflict_is_an_overlap_witness :
  let db := Sample.booked "a1" (Sample.at_ 10 0) (Sample.at_ 11 0) Sample.emptyDb in
  exists x,
    In x (appointments db)
    /\ Appointment.providerId x = "prov-slp"
    /\ nonTerminal (Appointment.status x) = true
    /\ overlaps (Sample.at_ 10 30) (Sample.at_ 11 30)
                (Appointment.startTime x) (Appointment.endTime x) = true.
Proof.
  intros db.
  apply (create_conflict_is_an_overlap Sample.family Sample.now "a2"
           (Sample.request "prov-slp" (Sample.at_ 10 30) (Sample.at_ 11 30))
           db db).
  - intros x Hx. vm_compute in Hx. destruct Hx as [<- | []]. reflexivity.
  - vm_compute. reflexivity.
Defined.

(** ** Double bookings: what the handlers do keep *)

Lemma doubleBooked_sym (a b : Appointment.t) :
  doubleBooked a b = doubleBooked b a.
Proof.
  unfold doubleBooked, overlaps.
  rewrite (String.eqb_sym (Appointment.providerId a)).
  destruct (String.eqb _ _), (nonTerminal (Appointment.status a)),
    (nonTerminal (Appointment.status b)),
    (Appointment.startTime a <? Appointment.endTime b),
    (Appointment.startTime b <? Appointment.endTime a); reflexivity.
Qed.




(** ** Update and cancel: every way the handlers can go *)

Lemma hasAccess_answer (currentUser : User.t) (a : Appointment.t) (db : Db) :
  hasAccess currentUser a db = (db, snd (hasAccess currentUser a db)).
Proof.
  rewrite <- (hasAccess_db currentUser a db) at 2.
  now destruct (hasAccess currentUser a db).
Qed.

Section Outcomes.
Variables (currentUser : User.t) (now : Date) (id : string) (db : Db).

Let stored := find (fun a => String.eqb (Appointment.id a) id) (appointments db).
Let written (data : Appointment.t -> Appointment.t) : Db :=
  mkDb (map (fun x => if String.eqb (Appointment.id x) id then data x else x)
            (appointments db))
       (providerProfiles db).

Lemma update_not_found (updateData : UpdateAppointmentRequest.t) :
  stored = None ->
  update currentUser now id updateData db = (db, Throw NotFound).
Proof.
  unfold stored. intros H. unfold update, bind, appointment_findUnique.
  now rewrite H.
Qed.

Lemma cancel_not_found (reason : option string) :
  stored = None ->
  cancel currentUser now id reason db = (db, Throw NotFound).
Proof.
  unfold stored. intros H. unfold cancel, bind, appointment_findUnique.
  now rewrite H.
Qed.

Lemma getAppointmentById_not_found :
  stored = None ->
  getAppointmentById currentUser id db = (db, Throw NotFound).
Proof.
  unfold stored. intros H.
  unfold getAppointmentById, bind, appointment_findUnique. now rewrite H.
Qed.

Variable appointment : Appointment.t.
Hypothesis appointment_found : stored = Some appointment.

Lemma update_no_access (updateData : UpdateAppointmentRequest.t) :
  hasAccess currentUser appointment db = (db, Ok false) ->
  update currentUser now id updateData db = (db, Throw Forbidden).
Proof.
  intros H. unfold update, bind, appointment_findUnique.
  fold stored. now rewrite appointment_found, H.
Qed.

Lemma cancel_no_access (reason : option string) :
  hasAccess currentUser appointment db = (db, Ok false) ->
  cancel currentUser now id reason db = (db, Throw Forbidden).
Proof.
  intros H. unfold cancel, bind, appointment_findUnique.
  fold stored. now rewrite appointment_found, H.
Qed.

Lemma getAppointmentById_no_access :
  hasAccess currentUser appointment db = (db, Ok false) ->
  getAppointmentById currentUser id db = (db, Throw Forbidden).
Proof.
  intros H. unfold getAppointmentById, bind, appointment_findUnique.
  fold stored. now rewrite appointment_found, H.
Qed.

Lemma getAppointmentById_access :
  hasAccess currentUser appointment db = (db, Ok true) ->
  getAppointmentById currentUser id db = (db, Ok appointment).
Proof.
  intros H. unfold getAppointmentById, bind, appointment_findUnique.
  fold stored. now rewrite appointment_found, H.
Qed.

Lemma update_access_throws (updateData : UpdateAppointmentRequest.t) e :
  hasAccess currentUser appointment db = (db, Throw e) ->
  update currentUser now id updateData db = (db, Throw e).
Proof.
  intros H. unfold update, bind, appointment_findUnique.
  fold stored. now rewrite appointment_found, H.
Qed.

Lemma cancel_access_throws (reason : option string) e :
  hasAccess currentUser appointment db = (db, Throw e) ->
  cancel currentUser now id reason db = (db, Throw e).
Proof.
  intros H. unfold cancel, bind, appointment_findUnique.
  fold stored. now rewrite appointment_found, H.
Qed.

(** The database an update leaves is the one it found, or the one in which
    the rows of the given id were rewritten by an accepted body. *)
Lemma update_db (updateData : UpdateAppointmentRequest.t) :
  fst (update currentUser now id updateData db) = db
  \/ (fst (update currentUser now id updateData db)
      = written (updateDataOf updateData now)
      /\ match UpdateAppointmentRequest.status updateData with
         | Some requested =>
             includes (validTransitions (Appointment.status appointment))
                      requested = true
         | None => True
         end).
Proof.
  pose proof (hasAccess_answer currentUser appointment db) as Hacc.
  revert Hacc.
  destruct (snd (hasAccess currentUser appointment db)) as [[|] | e];
    intros Hacc.
  - rewrite (update_authorized _ _ _ _ _ appointment_found Hacc).
    destruct (UpdateAppointmentRequest.status updateData) as [requested |];
      [| right; split; [reflexivity | exact I]].
    destruct (includes _ requested); [right | left]; auto.
  - left. now rewrite (update_no_access _ Hacc).
  - left. now rewrite (update_access_throws _ _ Hacc).
Qed.
End Outcomes.

(** ** Access to an appointment *)

Lemma UserRole_eqb_neq (r : UserRole) : r <> ADMIN -> UserRole_eqb r ADMIN = false.
Proof. destruct r; intros H; try reflexivity. now contradiction H. Qed.

(** X8. A caller who is not an administrator, not the client of the
    appointment and not the user behind its provider is refused with
    [Forbidden] by the three handlers alike (read, update, cancel),
    whatever the body of the request, and nothing is written. *)
Theorem strangers_are_refused_everywhere
    (currentUser : User.t) (now : Date) (id : string) (db : Db)
    (appointment : Appointment.t) (provider : ProviderProfile.t) :
  find (fun a => String.eqb (Appointment.id a) id) (appointments db)
  = Some appointment ->
  User.role currentUser <> ADMIN ->
  Appointment.clientId appointment <> User.id currentUser ->
  find (fun p => String.eqb (ProviderProfile.id p)
                   (Appointment.providerId appointment))
       (providerProfiles db) = Some provider ->
  ProviderProfile.userId provider <> User.id currentUser ->
  getAppointmentById currentUser id db = (db, Throw Forbidden)
  /\ (forall updateData,
        update currentUser now id updateData db = (db, Throw Forbidden))
  /\ (forall reason,
        cancel currentUser now id reason db = (db, Throw Forbidden)).
Proof.
  intros Hfound Hrole Hclient Hprov Huser.
  assert (Hacc : hasAccess currentUser appointment db = (db, Ok false)).
  { unfold hasAccess, bind, providerProfile_findUnique, ret.
    rewrite (UserRole_eqb_neq _ Hrole).
    apply String.eqb_neq in Hclient. rewrite Hclient, Hprov.
    apply String.eqb_neq in Huser. now rewrite Huser. }
  split; [| split].
  - now apply (getAppointmentById_no_access _ _ _ appointment).
  - intros updateData. now apply (update_no_access _ _ _ _ appointment).
  - intros reason. now apply (cancel_no_access _ _ _ _ appointment).
Qed.

Lemma strangers_are_refused_everywhere_witness :
  let db := Sample.booked "a1" (Sample.at_ 10 0) (Sample.at_ 11 0) Sample.emptyDb in
  getAppointmentById SampleCallers.stranger "a1" db = (db, Throw Forbidden)
  /\ (forall updateData,
        update SampleCallers.stranger Sample.now "a1" updateData db
        = (db, Throw Forbidden))
  /\ (forall reason,
        cancel SampleCallers.stranger Sample.now "a1" reason db
        = (db, Throw Forbidden)).
Proof.
  intros db.
  apply (strangers_are_refused_everywhere SampleCallers.stranger Sample.now
           "a1" db
           (createDataOf Sample.family Sample.now "a1"
              (Sample.request "prov-slp" (Sample.at_ 10 0) (Sample.at_ 11 0))
              Sample.slp)
           Sample.slp).
  - reflexivity.
  - discriminate.
  - discriminate.
  - reflexivity.
  - discriminate.
Defined.

(** X9. What was booked can be read back: after a successful creation
    under an id that no row of the table had, reading that id returns the
    created appointment, for the caller who booked it and for the user
    behind the booked provider. *)
Theorem created_appointment_is_read_back
    (currentUser : User.t) (now : Date) (newId : string)
    (appointmentData : CreateAppointmentRequest.t) (db db' : Db)
    (a : Appointment.t) :
  create currentUser now newId appointmentData db = (db', Ok a) ->
  find (fun x => String.eqb (Appointment.id x) newId) (appointments db) = None ->
  getAppointmentById currentUser newId db' = (db', Ok a)
  /\ (forall (providerUser : User.t) (provider : ProviderProfile.t),
        find (fun p => String.eqb (ProviderProfile.id p)
                         (CreateAppointmentRequest.providerId appointmentData))
             (providerProfiles db) = Some provider ->
        User.id providerUser = ProviderProfile.userId provider ->
        getAppointmentById providerUser newId db' = (db', Ok a)).
Proof.
  intros H Hfresh. apply create_Ok_inv in H.
  destruct H as (provider & Hfind & _ & _ & _ & _ & -> & ->).
  set (a := createDataOf currentUser now newId appointmentData provider).
  set (db' := mkDb (appointments db ++ [a])%list (providerProfiles db)).
  assert (Hstored : find (fun x => String.eqb (Appointment.id x) newId)
                         (appointments db') = Some a).
  { unfold db'. cbn [appointments]. apply find_app_new; [exact Hfresh |].
    apply String.eqb_refl. }
  split.
  - apply (getAppointmentById_access _ _ _ a Hstored).
    unfold hasAccess, ret. destruct (UserRole_eqb _ _); [reflexivity |].
    unfold a. cbn [createDataOf Appointment.clientId].
    now rewrite String.eqb_refl.
  - intros providerUser provider' Hfind' Hid.
    apply (getAppointmentById_access _ _ _ a Hstored).
    unfold hasAccess, ret, bind, providerProfile_findUnique.
    destruct (UserRole_eqb _ _); [reflexivity |].
    destruct (String.eqb _ _); [reflexivity |].
    unfold a, db'. cbn [createDataOf Appointment.providerId providerProfiles].
    rewrite Hfind'. now rewrite Hid, String.eqb_refl.
Qed.

Lemma created_appointment_is_read_back_witness :
  let req := Sample.request "prov-slp" (Sample.at_ 10 0) (Sample.at_ 11 0) in
  let a := createDataOf Sample.family Sample.now "a1" req Sample.slp in
  let db' := mkDb [a] (providerProfiles Sample.emptyDb) in
  getAppointmentById Sample.family "a1" db' = (db', Ok a)
  /\ (forall (providerUser : User.t) (provider : ProviderProfile.t),
        find (fun p => String.eqb (ProviderProfile.id p)
                         (CreateAppointmentRequest.providerId req))
             (providerProfiles Sample.emptyDb) = Some provider ->
        User.id providerUser = ProviderProfile.userId provider ->
        getAppointmentById providerUser "a1" db' = (db', Ok a)).
Proof.
  intros req a db'.
  apply (created_appointment_is_read_back Sample.family Sample.now "a1" req
           Sample.emptyDb db' a).
  - vm_compute. reflexivity.
  - reflexivity.
Defined.

(** X10. An id that no row carries is answered with [NotFound] by the three
    handlers (read, update, cancel), for every caller and every body, and
    nothing is written. *)
Theorem unknown_id_is_not_found
    (currentUser : User.t) (now : Date) (id : string) (db : Db) :
  find (fun a => String.eqb (Appointment.id a) id) (appointments db) = None ->
  getAppointmentById currentUser id db = (db, Throw NotFound)
  /\ (forall updateData,
        update currentUser now id updateData db = (db, Throw NotFound))
  /\ (forall reason,
        cancel currentUser now id reason db = (db, Throw NotFound)).
Proof.
  intros H. split; [| split].
  - now apply getAppointmentById_not_found.
  - intros updateData. now apply update_not_found.
  - intros reason. now apply cancel_not_found.
Qed.

Lemma unknown_id_is_not_found_witness :
  let db := Sample.booked "a1" (Sample.at_ 10 0) (Sample.at_ 11 0) Sample.emptyDb in
  getAppointmentById Sample.admin "a9" db = (db, Throw NotFound)
  /\ (forall updateData,
        update Sample.admin Sample.now "a9" updateData db
        = (db, Throw NotFound))
  /\ (forall reason,
        cancel Sample.admin Sample.now "a9" reason db = (db, Throw NotFound)).
Proof.
  intros db.
  apply (unknown_id_is_not_found Sample.admin Sample.now "a9" db).
  reflexivity.
Defined.

(** ** What update and cancel leave alone *)

Lemma frozen_updateDataOf updateData now (x : Appointment.t) :
  frozen (updateDataOf updateData now x) = frozen x.
Proof. reflexivity. Qed.

Lemma frozen_cancelDataOf reason now (x : Appointment.t) :
  frozen (cancelDataOf reason now x) = frozen x.
Proof. reflexivity. Qed.

Lemma map_frozen_rewritten (id : string) (data : Appointment.t -> Appointment.t)
    (l : list Appointment.t) :
  (forall x, frozen (data x) = frozen x) ->
  map frozen
      (map (fun x => if String.eqb (Appointment.id x) id then data x else x) l)
  = map frozen l.
Proof.
  intros H. rewrite map_map. apply map_ext. intros x.
  now destruct (String.eqb _ _).
Qed.

(** The database a request on one id leaves: always one of the two. *)
Lemma update_db_any (currentUser : User.t) (now : Date) (id : string)
    (updateData : UpdateAppointmentRequest.t) (db : Db) :
  fst (update currentUser now id updateData db) = db
  \/ fst (update currentUser now id updateData db)
     = mkDb (map (fun x => if String.eqb (Appointment.id x) id
                           then updateDataOf updateData now x else x)
                 (appointments db))
            (providerProfiles db).
Proof.
  destruct (find (fun a => String.eqb (Appointment.id a) id) (appointments db))
    as [a |] eqn:Hfound.
  - destruct (update_db currentUser now id db a Hfound updateData)
      as [H | [H _]]; auto.
  - left. now rewrite update_not_found.
Qed.

(** X11. Neither an update nor a cancel request, accepted or refused, by
    any caller and with any body, changes the id, the client, the
    provider, the service type, the stored duration, the hourly rate, the
    total amount, the payment status or the creation time of any row: the
    amount fixed at booking is never recomputed. *)
Theorem update_and_cancel_keep_frozen_columns
    (currentUser : User.t) (now : Date) (id : string) (db : Db) :
  (forall updateData,
     map frozen (appointments (fst (update currentUser now id updateData db)))
     = map frozen (appointments db))
  /\ (forall reason,
        map frozen (appointments (fst (cancel currentUser now id reason db)))
        = map frozen (appointments db)).
Proof.
  split.
  - intros updateData.
    destruct (update_db_any currentUser now id updateData db) as [-> | ->];
      [reflexivity |].
    cbn [appointments]. apply map_frozen_rewritten, frozen_updateDataOf.
  - intros reason.
    destruct (cancel_db currentUser now id reason db) as [-> | ->];
      [reflexivity |].
    cbn [appointments]. apply map_frozen_rewritten, frozen_cancelDataOf.
Qed.

(** X12. Update and cancel never add or delete a row, and never touch a
    row of another id: the table keeps its length, and every row whose id
    is not the requested one is still there, unchanged. *)
Theorem update_and_cancel_touch_one_id
    (currentUser : User.t) (now : Date) (id : string) (db : Db)
    (x : Appointment.t) :
  In x (appointments db) ->
  Appointment.id x <> id ->
  (forall updateData,
     let db' := fst (update currentUser now id updateData db) in
     length (appointments db') = length (appointments db)
     /\ In x (appointments db'))
  /\ (forall reason,
        let db' := fst (cancel currentUser now id reason db) in
        length (appointments db') = length (appointments db)
        /\ In x (appointments db')).
Proof.
  intros Hin Hid.
  assert (Hkept : forall data,
            In x (map (fun y => if String.eqb (Appointment.id y) id
                                then data y else y) (appointments db))).
  { intros data. apply in_map_iff. exists x. split; [| exact Hin].
    apply String.eqb_neq in Hid. now rewrite Hid. }
  split.
  - intros updateData db'. unfold db'.
    destruct (update_db_any currentUser now id updateData db) as [-> | ->];
      [auto |].
    cbn [appointments]. rewrite length_map. auto.
  - intros reason db'. unfold db'.
    destruct (cancel_db currentUser now id reason db) as [-> | ->]; [auto |].
    cbn [appointments]. rewrite length_map. auto.
Qed.

Lemma update_and_cancel_touch_one_id_witness :
  let db := SampleCallers.twoBookings in
  let other :=
    createDataOf SampleCallers.stranger Sample.now "a2"
      (Sample.request "prov-ot" (Sample.at_ 14 0) (Sample.at_ 15 0)) Sample.ot in
  (forall updateData,
     let db' := fst (update Sample.family Sample.now "a1" updateData db) in
     length (appointments db') = length (appointments db)
     /\ In other (appointments db'))
  /\ (forall reason,
        let db' := fst (cancel Sample.family Sample.now "a1" reason db) in
        length (appointments db') = length (appointments db)
        /\ In other (appointments db')).
Proof.
  intros db other.
  apply (update_and_cancel_touch_one_id Sample.family Sample.now "a1" db other).
  - right. left. reflexivity.
  - discriminate.
Defined.

(** ** Terminal statuses *)

Lemma cancel_db_terminal (currentUser : User.t) (now : Date) (id : string)
    (reason : option string) (db : Db) (a : Appointment.t) :
  find (fun x => String.eqb (Appointment.id x) id) (appointments db) = Some a ->
  nonTerminal (Appointment.status a) = false ->
  fst (cancel currentUser now id reason db) = db.
Proof.
  intros Hfound Hterm.
  pose proof (hasAccess_answer currentUser a db) as Hacc. revert Hacc.
  destruct (snd (hasAccess currentUser a db)) as [[|] | e]; intros Hacc.
  - now rewrite (cancel_authorized _ _ _ _ _ Hfound Hacc), Hterm.
  - now rewrite (cancel_no_access _ _ _ _ a Hfound _ Hacc).
  - now rewrite (cancel_access_throws _ _ _ _ a Hfound _ _ Hacc).
Qed.

Lemma terminal_no_transition (from to : AppointmentStatus) :
  nonTerminal from = false -> includes (validTransitions from) to = false.
Proof. now destruct from. Qed.

(** X13. A terminal status is final: once the stored appointment is
    [COMPLETED], [CANCELLED] or [NO_SHOW], no update and no cancel request,
    by any caller and with any body, leaves it with another status; a
    cancel request writes nothing at all. *)
Theorem terminal_status_is_final
    (currentUser : User.t) (now : Date) (id : string) (db : Db)
    (appointment : Appointment.t) :
  find (fun a => String.eqb (Appointment.id a) id) (appointments db)
  = Some appointment ->
  nonTerminal (Appointment.status appointment) = false ->
  (forall updateData, exists a',
     find (fun a => String.eqb (Appointment.id a) id)
          (appointments (fst (update currentUser now id updateData db)))
     = Some a'
     /\ Appointment.status a' = Appointment.status appointment)
  /\ (forall reason, fst (cancel currentUser now id reason db) = db).
Proof.
  intros Hfound Hterm. split.
  - intros updateData.
    destruct (update_db currentUser now id db appointment Hfound updateData)
      as [-> | [-> Hok]].
    + now exists appointment.
    + exists (updateDataOf updateData now appointment). split.
      * cbn [appointments]. rewrite find_id_map by reflexivity.
        now rewrite Hfound.
      * cbn [updateDataOf Appointment.status].
        destruct (UpdateAppointmentRequest.status updateData) as [to |];
          [| reflexivity].
        rewrite terminal_no_transition in Hok by exact Hterm. discriminate.
  - intros reason. now apply (cancel_db_terminal _ _ _ _ _ appointment).
Qed.

Lemma terminal_status_is_final_witness :
  let db := Sample.booked "a1" (Sample.at_ 10 0) (Sample.at_ 11 0) Sample.emptyDb in
  let db := fst (cancel Sample.family Sample.now "a1" None db) in
  (forall updateData, exists a',
     find (fun a => String.eqb (Appointment.id a) "a1")
          (appointments (fst (update Sample.admin Sample.now "a1" updateData db)))
     = Some a'
     /\ Appointment.status a' = CANCELLED)
  /\ (forall reason, fst (cancel Sample.admin Sample.now "a1" reason db) = db).
Proof.
  intros db0 db.
  apply (terminal_status_is_final Sample.admin Sample.now "a1" db
           (cancelDataOf None Sample.now
              (createDataOf Sample.family Sample.now "a1"
                 (Sample.request "prov-slp" (Sample.at_ 10 0) (Sample.at_ 11 0))
                 Sample.slp))).
  - reflexivity.
  - reflexivity.
Defined.

(** X14. No handler ever produces the status [NO_SHOW]: if no row of the
    table has it, no row has it after any creation, update or cancel
    request. *)
Theorem no_show_is_never_produced
    (currentUser : User.t) (now : Date) (id : string) (db : Db) :
  Forall (fun x => Appointment.status x <> NO_SHOW) (appointments db) ->
  (forall appointmentData,
     Forall (fun x => Appointment.status x <> NO_SHOW)
       (appointments (fst (create currentUser now id appointmentData db))))
  /\ (forall updateData,
        Forall (fun x => Appointment.status x <> NO_SHOW)
          (appointments (fst (update currentUser now id updateData db))))
  /\ (forall reason,
        Forall (fun x => Appointment.status x <> NO_SHOW)
          (appointments (fst (cancel currentUser now id reason db)))).
Proof.
  intros Hnone. split; [| split].
  - intros appointmentData.
    destruct (create currentUser now id appointmentData db) as [db' [a | e]]
      eqn:H; cbn [fst].
    + apply create_Ok_inv in H.
      destruct H as (provider & _ & _ & _ & _ & _ & -> & ->).
      cbn [appointments]. apply Forall_app. split; [exact Hnone |].
      constructor; [discriminate | constructor].
    + apply create_Throw_inv in H. now destruct H as [-> _].
  - intros updateData.
    destruct (find (fun a => String.eqb (Appointment.id a) id) (appointments db))
      as [a |] eqn:Hfound.
    2:{ now rewrite update_not_found. }
    destruct (update_db currentUser now id db a Hfound updateData)
      as [-> | [-> Hok]]; [exact Hnone |].
    cbn [appointments]. apply Forall_map.
    eapply Forall_impl; [| exact Hnone]. intros x Hx.
    destruct (String.eqb _ _); [| exact Hx].
    cbn [updateDataOf Appointment.status].
    destruct (UpdateAppointmentRequest.status updateData) as [to |];
      [| exact Hx].
    cbn [patch]. intros ->. now destruct (Appointment.status a).
  - intros reason.
    destruct (cancel_db currentUser now id reason db) as [-> | ->];
      [exact Hnone |].
    cbn [appointments]. apply Forall_map.
    eapply Forall_impl; [| exact Hnone]. intros x Hx.
    destruct (String.eqb _ _); [discriminate | exact Hx].
Qed.

Lemma no_show_is_never_produced_witness :
  let db := Sample.booked "a1" (Sample.at_ 10 0) (Sample.at_ 11 0) Sample.emptyDb in
  (forall appointmentData,
     Forall (fun x => Appointment.status x <> NO_SHOW)
       (appointments (fst (create Sample.family Sample.now "a1" appointmentData db))))
  /\ (forall updateData,
        Forall (fun x => Appointment.status x <> NO_SHOW)
          (appointments (fst (update Sample.family Sample.now "a1" updateData db))))
  /\ (forall reason,
        Forall (fun x => Appointment.status x <> NO_SHOW)
          (appointments (fst (cancel Sample.family Sample.now "a1" reason db)))).
Proof.
  intros db.
  apply (no_show_is_never_produced Sample.family Sample.now "a1" db).
  repeat constructor. discriminate.
Defined.

(** ** Cancelling *)

Lemma nonTerminal_may_cancel (s : AppointmentStatus) :
  nonTerminal s = true -> includes (validTransitions s) CANCELLED = true.
Proof. now destruct s. Qed.

(** X15. The two ways of cancelling agree on the reasons that both take.
    For a reason that the validation of the update route lets through,
    absent or a string that is not empty, and an id that is unknown or
    whose stored appointment is not in a terminal status, a cancel request
    with that reason and an update asking for [CANCELLED] with it write
    the same row, leave the same database and answer with the same
    appointment, or fail with the same error. The message beside the
    appointment is not the same in the two responses, and is not part of
    what is compared. An empty reason is taken by the cancel route and
    refused by the update route. *)
Theorem cancel_agrees_with_update_to_cancelled
    (isUri : string -> bool)
    (currentUser : User.t) (now : Date) (id : string) (db : Db)
    (reason : option string) :
  (forall a,
     find (fun x => String.eqb (Appointment.id x) id) (appointments db) = Some a ->
     nonTerminal (Appointment.status a) = true) ->
  (Joi_optional Joi_string reason = true ->
   cancelWith currentUser now id (ofOption reason) db
   = put isUri currentUser now id (cancellationBody reason) db)
  /\ (Joi_optional Joi_string reason = false ->
      put isUri currentUser now id (cancellationBody reason) db
      = (db, Throw ValidationError)).
Proof.
  intros Hlive. unfold put, schemas_updateAppointment.
  cbn [cancellationBody Joi_optional andb UpdateAppointmentRequest.title
       UpdateAppointmentRequest.description UpdateAppointmentRequest.location
       UpdateAppointmentRequest.meetingLink UpdateAppointmentRequest.notes
       UpdateAppointmentRequest.goals UpdateAppointmentRequest.materials
       UpdateAppointmentRequest.homework
       UpdateAppointmentRequest.cancellationReason].
  fold (cancellationBody reason).
  split; intros Hvalid; rewrite Hvalid; [| reflexivity].
  rewrite cancelWith_ofOption.
  destruct (find (fun x => String.eqb (Appointment.id x) id) (appointments db))
    as [a |] eqn:Hfound.
  2:{ now rewrite cancel_not_found, update_not_found. }
  specialize (Hlive a eq_refl).
  pose proof (hasAccess_answer currentUser a db) as Hacc. revert Hacc.
  destruct (snd (hasAccess currentUser a db)) as [[|] | e]; intros Hacc.
  - rewrite (cancel_authorized _ _ _ _ _ Hfound Hacc), Hlive.
    rewrite (update_authorized _ _ _ _ _ Hfound Hacc).
    cbn [cancellationBody UpdateAppointmentRequest.status].
    now rewrite (nonTerminal_may_cancel _ Hlive).
  - now rewrite (cancel_no_access _ _ _ _ a Hfound _ Hacc),
      (update_no_access _ _ _ _ a Hfound _ Hacc).
  - now rewrite (cancel_access_throws _ _ _ _ a Hfound _ _ Hacc),
      (update_access_throws _ _ _ _ a Hfound _ _ Hacc).
Qed.

Lemma cancel_agrees_with_update_to_cancelled_witness :
  let db := Sample.booked "a1" (Sample.at_ 10 0) (Sample.at_ 11 0) Sample.emptyDb in
  cancelWith Sample.family Sample.now "a1" (JsString "ill") db
  = put (fun _ => true) Sample.family Sample.now "a1"
        (cancellationBody (Some "ill")) db.
Proof.
  intros db.
  apply (cancel_agrees_with_update_to_cancelled (fun _ => true) Sample.family
           Sample.now "a1" db (Some "ill")).
  - intros a Ha. vm_compute in Ha. injection Ha as <-. reflexivity.
  - reflexivity.
Defined.

(** Access depends on the client and the provider of the appointment and
    on the provider table, and on nothing else. *)
Lemma hasAccess_stable (currentUser : User.t) (a b : Appointment.t)
    (db db' : Db) :
  Appointment.clientId b = Appointment.clientId a ->
  Appointment.providerId b = Appointment.providerId a ->
  providerProfiles db' = providerProfiles db ->
  snd (hasAccess currentUser b db') = snd (hasAccess currentUser a db).
Proof.
  intros Hc Hp Hdb.
  unfold hasAccess. rewrite Hc, Hp.
  destruct (UserRole_eqb _ _); [reflexivity |].
  destruct (String.eqb _ _); [reflexivity |].
  unfold bind, providerProfile_findUnique, ret, throw. rewrite Hdb.
  now destruct (find _ (providerProfiles db)).
Qed.

(** X16. Cancelling twice: after a cancel request was accepted, a second
    cancel request on the same id by the same caller, with any reason and
    at any time, is refused with the cannot-be-cancelled error and writes
    nothing, so that the first [cancelledAt] and reason stay. *)
Theorem cancel_twice_is_refused
    (currentUser : User.t) (now later : Date) (id : string) (db : Db)
    (reason reason' : option string) (appointment : Appointment.t) :
  find (fun a => String.eqb (Appointment.id a) id) (appointments db)
  = Some appointment ->
  hasAccess currentUser appointment db = (db, Ok true) ->
  nonTerminal (Appointment.status appointment) = true ->
  let db' := fst (cancel currentUser now id reason db) in
  cancel currentUser later id reason' db' = (db', Throw CannotBeCancelled).
Proof.
  intros Hfound Hacc Hlive db'. unfold db'.
  rewrite (cancel_authorized _ _ _ _ _ Hfound Hacc), Hlive. cbn [fst].
  set (db1 := mkDb _ _).
  assert (Hfound1 : find (fun a => String.eqb (Appointment.id a) id)
                         (appointments db1)
                    = Some (cancelDataOf reason now appointment)).
  { unfold db1. cbn [appointments]. rewrite find_id_map by reflexivity.
    now rewrite Hfound. }
  assert (Hacc1 : hasAccess currentUser (cancelDataOf reason now appointment) db1
                  = (db1, Ok true)).
  { rewrite hasAccess_answer.
    rewrite (hasAccess_stable currentUser appointment _ db db1);
      try reflexivity.
    now rewrite Hacc. }
  now rewrite (cancel_authorized _ _ _ _ _ Hfound1 Hacc1).
Qed.

Lemma cancel_twice_is_refused_witness :
  let db := Sample.booked "a1" (Sample.at_ 10 0) (Sample.at_ 11 0) Sample.emptyDb in
  let db' := fst (cancel Sample.family Sample.now "a1" (Some "ill") db) in
  cancel Sample.family (Sample.now + Sample.hour) "a1" None db'
  = (db', Throw CannotBeCancelled).
Proof.
  intros db.
  apply (cancel_twice_is_refused Sample.family Sample.now
           (Sample.now + Sample.hour) "a1" db (Some "ill") None
           (createDataOf Sample.family Sample.now "a1"
              (Sample.request "prov-slp" (Sample.at_ 10 0) (Sample.at_ 11 0))
              Sample.slp)); reflexivity.
Defined.

(** X17. Cancelling frees the slot: when the only rows that the conflict
    query of a request matches carry the id of an appointment that is then
    cancelled, the request is booked afterwards (eligible provider, start
    inside the booking window). *)
Theorem cancelled_slot_can_be_booked_again
    (canceller booker : User.t) (now later : Date) (id newId : string)
    (db : Db) (reason : option string) (appointment : Appointment.t)
    (appointmentData : CreateAppointmentRequest.t)
    (provider : ProviderProfile.t) :
  find (fun a => String.eqb (Appointment.id a) id) (appointments db)
  = Some appointment ->
  hasAccess canceller appointment db = (db, Ok true) ->
  nonTerminal (Appointment.status appointment) = true ->
  find (fun p => String.eqb (ProviderProfile.id p)
                   (CreateAppointmentRequest.providerId appointmentData))
       (providerProfiles db) = Some provider ->
  ProviderProfile.licenseVerified provider = true ->
  ProviderProfile.backgroundCheck provider = true ->
  later <= CreateAppointmentRequest.startTime appointmentData <= addDays later 90 ->
  (forall x, In x (appointments db) ->
     conflictWhere (CreateAppointmentRequest.providerId appointmentData)
                   (CreateAppointmentRequest.startTime appointmentData)
                   (CreateAppointmentRequest.endTime appointmentData) x = true ->
     Appointment.id x = id) ->
  snd (create booker later newId appointmentData
         (fst (cancel canceller now id reason db)))
  = Ok (createDataOf booker later newId appointmentData provider).
Proof.
  intros Hfound Hacc Hlive Hprov Hlic Hbg Hwin Honly.
  rewrite (cancel_authorized _ _ _ _ _ Hfound Hacc), Hlive. cbn [fst].
  set (db1 := mkDb _ _).
  rewrite (create_in_window booker later newId appointmentData db1 provider
             Hprov Hlic Hbg Hwin).
  rewrite find_none_forall; [reflexivity |].
  intros y Hy. unfold db1 in Hy. cbn [appointments] in Hy.
  apply in_map_iff in Hy. destruct Hy as (x & <- & Hx).
  destruct (String.eqb (Appointment.id x) id) eqn:Hid.
  - apply conflictWhere_ignores. right. reflexivity.
  - apply not_true_is_false. intros Hc.
    apply String.eqb_neq in Hid. apply Hid. now apply Honly.
Qed.

Lemma cancelled_slot_can_be_booked_again_witness :
  let db := Sample.booked "a1" (Sample.at_ 10 0) (Sample.at_ 11 0) Sample.emptyDb in
  let req := Sample.request "prov-slp" (Sample.at_ 10 0) (Sample.at_ 11 0) in
  snd (create SampleCallers.stranger Sample.now "a2" req
         (fst (cancel Sample.family Sample.now "a1" None db)))
  = Ok (createDataOf SampleCallers.stranger Sample.now "a2" req Sample.slp).
Proof.
  intros db req.
  apply (cancelled_slot_can_be_booked_again Sample.family
           SampleCallers.stranger Sample.now Sample.now "a1" "a2" db None
           (createDataOf Sample.family Sample.now "a1" req Sample.slp)
           req Sample.slp); try reflexivity.
  - vm_compute. split; discriminate.
  - intros x Hx _. vm_compute in Hx. destruct Hx as [<- | []]. reflexivity.
Defined.

(** ** Updates that leave the interval alone *)

Lemma noDoubleBooking_map_in (g : Appointment.t -> Appointment.t)
    (l : list Appointment.t) :
  (forall x y, In x l -> In y l ->
     doubleBooked (g x) (g y) = true -> doubleBooked x y = true) ->
  noDoubleBooking l = true -> noDoubleBooking (map g l) = true.
Proof.
  induction l as [| a l IH]; intros Hg; simpl; [reflexivity |].
  rewrite !andb_true_iff, !forallb_forall. intros [Ha Hl]. split.
  - intros y Hy. apply in_map_iff in Hy. destruct Hy as (x & <- & Hx).
    specialize (Ha x Hx). apply negb_true_iff in Ha. apply negb_true_iff.
    destruct (doubleBooked (g a) (g x)) eqn:E; [| reflexivity].
    apply Hg in E; [congruence | now left | now right].
  - apply IH; [| exact Hl]. intros x y Hx Hy. apply Hg; now right.
Qed.

(** With unique ids, the row a look-up finds is the only one of its id. *)
Lemma unique_id_row (id : string) (l : list Appointment.t)
    (a x : Appointment.t) :
  NoDup (map Appointment.id l) ->
  find (fun y => String.eqb (Appointment.id y) id) l = Some a ->
  In x l -> Appointment.id x = id -> x = a.
Proof.
  induction l as [| y l IH]; simpl; [contradiction |].
  intros Hnd Hfind Hin Hid. inversion Hnd as [| ? ? Hnotin Hnd']; subst.
  destruct (String.eqb (Appointment.id y) (Appointment.id x)) eqn:Hy.
  - injection Hfind as <-. destruct Hin as [-> | Hin]; [reflexivity |].
    apply String.eqb_eq in Hy. exfalso. apply Hnotin. rewrite Hy.
    now apply in_map.
  - destruct Hin as [-> | Hin].
    + now rewrite String.eqb_refl in Hy.
    + now apply IH.
Qed.

Lemma transition_from_nonTerminal (from to : AppointmentStatus) :
  includes (validTransitions from) to = true -> nonTerminal from = true.
Proof. now destruct from. Qed.

(** X18. An update that carries neither [startTime] nor [endTime] cannot
    double-book: on a table whose ids are unique and which has no double
    booking, the table after the update (a status change included), accepted
    or refused, has no double booking. *)
Theorem update_without_times_keeps_noDoubleBooking
    (currentUser : User.t) (now : Date) (id : string) (db : Db)
    (updateData : UpdateAppointmentRequest.t) :
  NoDup (map Appointment.id (appointments db)) ->
  noDoubleBooking (appointments db) = true ->
  UpdateAppointmentRequest.startTime updateData = None ->
  UpdateAppointmentRequest.endTime updateData = None ->
  noDoubleBooking (appointments (fst (update currentUser now id updateData db)))
  = true.
Proof.
  intros Hnd Hinv Hs He.
  destruct (find (fun a => String.eqb (Appointment.id a) id) (appointments db))
    as [a |] eqn:Hfound.
  2:{ now rewrite update_not_found. }
  destruct (update_db currentUser now id db a Hfound updateData)
    as [-> | [-> Hok]]; [exact Hinv |].
  cbn [appointments]. apply noDoubleBooking_map_in; [| exact Hinv].
  assert (Hg : forall x, In x (appointments db) ->
            let x' := if String.eqb (Appointment.id x) id
                      then updateDataOf updateData now x else x in
            Appointment.providerId x' = Appointment.providerId x
            /\ Appointment.startTime x' = Appointment.startTime x
            /\ Appointment.endTime x' = Appointment.endTime x
            /\ (nonTerminal (Appointment.status x') = true ->
                nonTerminal (Appointment.status x) = true)).
  { intros x Hx. cbv zeta.
    destruct (String.eqb (Appointment.id x) id) eqn:Hid; [| auto].
    apply String.eqb_eq in Hid.
    pose proof (unique_id_row id _ a x Hnd Hfound Hx Hid) as ->.
    cbn [updateDataOf Appointment.providerId Appointment.startTime
         Appointment.endTime Appointment.status].
    rewrite Hs, He. cbn [patch]. repeat split; try reflexivity.
    destruct (UpdateAppointmentRequest.status updateData) as [to |];
      [| auto].
    intros _. now apply (transition_from_nonTerminal _ to). }
  intros x y Hx Hy. unfold doubleBooked.
  destruct (Hg x Hx) as (-> & -> & -> & Hlx).
  destruct (Hg y Hy) as (-> & -> & -> & Hly).
  rewrite !andb_true_iff. intros [[[Hp Hnx] Hny] Hov]. auto.
Qed.

Lemma update_without_times_keeps_noDoubleBooking_witness :
  let db := SampleCallers.twoBookings in
  noDoubleBooking
    (appointments
       (fst (update Sample.family Sample.now "a1"
               (Sample.setStatus CONFIRMED None) db)))
  = true.
Proof.
  intros db.
  apply (update_without_times_keeps_noDoubleBooking Sample.family Sample.now
           "a1" db (Sample.setStatus CONFIRMED None)); try reflexivity.
  vm_compute. repeat constructor; simpl; intuition discriminate.
Defined.

(** ** Sorting and paging *)


Lemma In_firstn {A} (n : nat) (l : list A) (x : A) :
  In x (firstn n l) -> In x l.
Proof.
  intros H. rewrite <- (firstn_skipn n l). apply in_or_app. now left.
Qed.

Lemma In_skipn {A} (n : nat) (l : list A) (x : A) :
  In x (skipn n l) -> In x l.
Proof.
  intros H. rewrite <- (firstn_skipn n l). apply in_or_app. now right.
Qed.

Section InsertionSort.
Context {A : Type} (before : A -> A -> bool).

Lemma insertBy_perm (x : A) (l : list A) :
  Permutation (insertBy before x l) (x :: l).
Proof.
  induction l as [| y l IH]; simpl; [reflexivity |].
  destruct (before x y); [reflexivity |].
  rewrite IH. apply perm_swap.
Qed.

Lemma sortBy_perm (l : list A) : Permutation (sortBy before l) l.
Proof.
  induction l as [| x l IH]; simpl; [reflexivity |].
  rewrite insertBy_perm. now constructor.
Qed.

Lemma sortBy_In (l : list A) (x : A) : In x (sortBy before l) <-> In x l.
Proof.
  split; apply Permutation_in;
    [apply sortBy_perm | symmetry; apply sortBy_perm].
Qed.

Lemma sortBy_length (l : list A) : length (sortBy before l) = length l.
Proof. apply Permutation_length, sortBy_perm. Qed.

Hypothesis before_total : forall x y, before x y = false -> before y x = true.
Hypothesis before_trans :
  forall x y z, before x y = true -> before y z = true -> before x z = true.

Lemma insertBy_sorted (x : A) (l : list A) :
  StronglySorted (fun a b => before a b = true) l ->
  StronglySorted (fun a b => before a b = true) (insertBy before x l).
Proof.
  induction l as [| y l IH]; simpl; intros Hs.
  - repeat constructor.
  - apply StronglySorted_inv in Hs. destruct Hs as [Hl Hy].
    destruct (before x y) eqn:Hxy.
    + constructor; [now constructor |].
      constructor; [exact Hxy |].
      eapply Forall_impl; [| exact Hy]. intros z Hz.
      now apply (before_trans x y z).
    + constructor; [now apply IH |].
      apply Forall_forall. intros z Hz.
      apply (Permutation_in _ (insertBy_perm x l)) in Hz.
      destruct Hz as [<- | Hz]; [now apply before_total |].
      rewrite Forall_forall in Hy. now apply Hy.
Qed.

Lemma sortBy_sorted (l : list A) :
  StronglySorted (fun a b => before a b = true) (sortBy before l).
Proof.
  induction l as [| x l IH]; simpl; [constructor | now apply insertBy_sorted].
Qed.
End InsertionSort.

Lemma StronglySorted_firstn {A} (R : A -> A -> Prop) (n : nat) (l : list A) :
  StronglySorted R l -> StronglySorted R (firstn n l).
Proof.
  revert n. induction l as [| x l IH]; intros [| n] Hs; simpl;
    try constructor.
  - apply IH. now apply StronglySorted_inv in Hs.
  - apply StronglySorted_inv in Hs. destruct Hs as [_ Hx].
    apply Forall_forall. intros y Hy. apply In_firstn in Hy.
    rewrite Forall_forall in Hx. now apply Hx.
Qed.

Lemma StronglySorted_skipn {A} (R : A -> A -> Prop) (n : nat) (l : list A) :
  StronglySorted R l -> StronglySorted R (skipn n l).
Proof.
  revert l. induction n as [| n IH]; intros [| x l] Hs; simpl;
    try assumption.
  apply IH. now apply StronglySorted_inv in Hs.
Qed.

(** Cutting a list in pages of [k] rows loses nothing and repeats
    nothing. *)
Lemma pages_partition {A} (k n : nat) (rows : list A) :
  (1 <= k)%nat -> (length rows <= n * k)%nat ->
  concat (map (pageOf k rows) (seq 1 n)) = rows.
Proof.
  intros Hk. revert rows. induction n as [| n IH]; intros rows Hlen.
  - simpl in *. destruct rows; [reflexivity | simpl in Hlen; lia].
  - rewrite <- cons_seq, <- seq_shift. cbn [map concat].
    rewrite map_map.
    rewrite (map_ext_in _ (pageOf k (skipn k rows))).
    + rewrite IH.
      * unfold pageOf. cbn [Nat.sub Nat.mul skipn]. apply firstn_skipn.
      * rewrite length_skipn. simpl in Hlen. lia.
    + intros p Hp. apply in_seq in Hp. unfold pageOf.
      rewrite skipn_skipn. f_equal. f_equal. nia.
Qed.

Lemma totalPagesOf_covers (total limit : Z) :
  0 <= total -> 1 <= limit ->
  exists n : nat,
    totalPagesOf total limit = Some (Z.of_nat n)
    /\ total <= Z.of_nat n * limit.
Proof.
  intros Ht Hl. unfold totalPagesOf.
  destruct limit as [| p | p]; try lia. cbn [Z.eqb].
  set (x := (inject_Z total / inject_Z (Z.pos p))%Q).
  assert (Hx0 : (0 <= x)%Q).
  { unfold x, Qle, Qdiv, Qmult, Qinv, inject_Z. simpl. lia. }
  assert (Hc0 : 0 <= Qceiling x).
  { change 0 with (Qceiling 0). now apply Qceiling_resp_le. }
  exists (Z.to_nat (Qceiling x)). rewrite Z2Nat.id by exact Hc0.
  split; [reflexivity |].
  pose proof (Qle_ceiling x) as Hle.
  set (c := Qceiling x) in *. clearbody c.
  unfold x, Qle, Qdiv, Qmult, Qinv, inject_Z in Hle. simpl in Hle. lia.
Qed.

(** ** Reading the table *)

(** Whatever [skip] and [take], the rows a query returns are rows of the
    table that the [where] object selects. *)
Lemma findMany_rows (w : Where.t) before (skip take : Z) (db db' : Db)
    (rows : list Appointment.t) :
  appointment_findMany w before skip take db = (db', Ok rows) ->
  db' = db
  /\ forall x, In x rows -> In x (appointments db) /\ matches w x = true.
Proof.
  unfold appointment_findMany. destruct (skip <? 0); [discriminate |].
  intros H. injection H as <- <-. split; [reflexivity |].
  intros x Hx. apply filter_In. apply (sortBy_In before).
  destruct (0 <=? take).
  - now apply In_firstn, In_skipn in Hx.
  - apply in_rev in Hx. apply In_firstn, In_skipn in Hx. now apply in_rev.
Qed.

Lemma findMany_forward (w : Where.t) before (skip take : Z) (db : Db) :
  0 <= skip -> 0 <= take ->
  appointment_findMany w before skip take db
  = (db, Ok (firstn (Z.to_nat take)
               (skipn (Z.to_nat skip)
                  (sortBy before (filter (matches w) (appointments db)))))).
Proof.
  intros Hs Ht. unfold appointment_findMany.
  apply Z.ltb_ge in Hs. apply Z.leb_le in Ht. now rewrite Hs, Ht.
Qed.

Lemma getAppointments_inv (currentUser : AuthUser.t)
    (q : SearchAppointmentsRequest.t) (db db' : Db) (r : AppointmentsPage.t) :
  getAppointments currentUser q db = (db', Ok r) ->
  db' = db
  /\ (forall x, In x (AppointmentsPage.data r) ->
        In x (appointments db) /\ matches (listWhere currentUser q) x = true)
  /\ AppointmentsPage.total r
     = Z.of_nat (length (filter (matches (listWhere currentUser q))
                                (appointments db))).
Proof.
  unfold getAppointments, bind.
  destruct (appointment_findMany _ _ _ _ db) as [db1 [rows | e]] eqn:Hmany;
    [| discriminate].
  apply findMany_rows in Hmany. destruct Hmany as [-> Hrows].
  unfold appointment_count, ret. intros H. injection H as <- <-.
  repeat split; try reflexivity; now apply Hrows.
Qed.

Lemma matches_spec (w : Where.t) (a : Appointment.t) :
  matches w a = true <->
  (forall p, Where.providerId w = Some p -> Appointment.providerId a = p)
  /\ (forall c, Where.clientId w = Some c -> Appointment.clientId a = c)
  /\ (forall l, Where.status w = Some l -> In (Appointment.status a) l)
  /\ (forall l, Where.serviceType w = Some l -> In (Appointment.serviceType a) l)
  /\ (forall d, Where.startTime_gte w = Some d -> d <= Appointment.startTime a)
  /\ (forall d, Where.startTime_lte w = Some d -> Appointment.startTime a <= d).
Proof.
  assert (Hsvc : forall l s, existsb (ServiceType_eqb s) l = true <-> In s l).
  { intros l s. rewrite existsb_exists. split.
    - intros (y & Hy & E). destruct s, y; try discriminate; exact Hy.
    - intros Hs. exists s. split; [exact Hs | now destruct s]. }
  unfold matches, holds. rewrite !andb_true_iff.
  destruct w as [p c st sv g le]. cbn.
  split.
  - intros (((((H1 & H2) & H3) & H4) & H5) & H6).
    repeat split; intros v E; subst.
    + now apply String.eqb_eq in H1.
    + now apply String.eqb_eq in H2.
    + now apply includes_In.
    + now apply Hsvc.
    + now apply Z.leb_le.
    + now apply Z.leb_le.
  - intros (H1 & H2 & H3 & H4 & H5 & H6).
    repeat split.
    + destruct p; [| reflexivity]. apply String.eqb_eq. now apply H1.
    + destruct c; [| reflexivity]. apply String.eqb_eq. now apply H2.
    + destruct st; [| reflexivity]. apply includes_In. now apply H3.
    + destruct sv; [| reflexivity]. apply Hsvc. now apply H4.
    + destruct g; [| reflexivity]. apply Z.leb_le. now apply H5.
    + destruct le; [| reflexivity]. apply Z.leb_le. now apply H6.
Qed.

(** The role of the caller decides two keys of the [where] object of the
    list, whatever the query says. *)
Lemma listWhere_client (currentUser : AuthUser.t)
    (q : SearchAppointmentsRequest.t) :
  match User.role (AuthUser.user currentUser) with
  | ADMIN => True
  | SLP | OT | PT =>
      Where.providerId (listWhere currentUser q)
      = option_map ProviderProfile.id (AuthUser.providerProfile currentUser)
      /\ Where.clientId (listWhere currentUser q) = None
  | _ =>
      Where.clientId (listWhere currentUser q)
      = Some (User.id (AuthUser.user currentUser))
      /\ Where.providerId (listWhere currentUser q) = None
  end.
Proof.
  unfold listWhere, restrictToRole, isAdmin.
  destruct (User.role (AuthUser.user currentUser)); try exact I;
    cbn [UserRole_eqb]; rewrite !andb_false_r;
    destruct (SearchAppointmentsRequest.status q),
      (SearchAppointmentsRequest.serviceType q),
      (SearchAppointmentsRequest.startDate q),
      (SearchAppointmentsRequest.endDate q); split; reflexivity.
Qed.

Lemma listWhere_filters (currentUser : AuthUser.t)
    (q : SearchAppointmentsRequest.t) :
  let w := listWhere currentUser q in
  Where.status w = SearchAppointmentsRequest.status q
  /\ Where.serviceType w = SearchAppointmentsRequest.serviceType q
  /\ Where.startTime_gte w = SearchAppointmentsRequest.startDate q
  /\ Where.startTime_lte w = SearchAppointmentsRequest.endDate q.
Proof.
  unfold listWhere, restrictToRole.
  destruct (User.role (AuthUser.user currentUser)),
    (truthy (SearchAppointmentsRequest.providerId q) && isAdmin currentUser),
    (truthy (SearchAppointmentsRequest.clientId q) && isAdmin currentUser),
    (SearchAppointmentsRequest.status q),
    (SearchAppointmentsRequest.serviceType q),
    (SearchAppointmentsRequest.startDate q),
    (SearchAppointmentsRequest.endDate q); repeat split.
Qed.

(** X19. A caller who is neither an administrator nor of a provider role
    only ever lists appointments of which it is the client, whatever the
    query, its [providerId] and [clientId] parameters included. *)
Theorem list_shows_clients_their_own
    (currentUser : AuthUser.t) (q : SearchAppointmentsRequest.t)
    (db db' : Db) (r : AppointmentsPage.t) :
  User.role (AuthUser.user currentUser) <> ADMIN ->
  isProviderRole (User.role (AuthUser.user currentUser)) = false ->
  getAppointments currentUser q db = (db', Ok r) ->
  forall x, In x (AppointmentsPage.data r) ->
    In x (appointments db)
    /\ Appointment.clientId x = User.id (AuthUser.user currentUser).
Proof.
  intros Hadmin Hprov H x Hx. apply getAppointments_inv in H.
  destruct H as (_ & Hrows & _). destruct (Hrows x Hx) as [Hin Hm].
  split; [exact Hin |]. apply matches_spec in Hm.
  destruct Hm as (_ & Hc & _). apply Hc.
  pose proof (listWhere_client currentUser q) as Hw.
  destruct (User.role (AuthUser.user currentUser));
    try discriminate Hprov; try (now destruct Hw); now contradiction Hadmin.
Qed.

Lemma list_shows_clients_their_own_witness :
  let db := SampleCallers.twoBookings in
  let x := createDataOf Sample.family Sample.now "a1"
             (Sample.request "prov-slp" (Sample.at_ 10 0) (Sample.at_ 11 0))
             Sample.slp in
  In x (appointments db) /\ Appointment.clientId x = "user-family".
Proof.
  intros db x.
  apply (list_shows_clients_their_own SampleCallers.family
           (SearchAppointmentsRequest.mk None None None None
              (Some "prov-ot") (Some "user-other") None None)
           db db
           {| AppointmentsPage.data := [x];
              AppointmentsPage.page := 1;
              AppointmentsPage.limit := 10;
              AppointmentsPage.total := 1;
              AppointmentsPage.totalPages := Some 1 |}).
  - discriminate.
  - reflexivity.
  - vm_compute. reflexivity.
  - left. reflexivity.
Defined.

(** X20. A caller of a provider role who has a provider profile only ever
    lists appointments of that profile, whatever the query. *)
Theorem list_shows_providers_their_own
    (currentUser : AuthUser.t) (q : SearchAppointmentsRequest.t)
    (db db' : Db) (r : AppointmentsPage.t) (profile : ProviderProfile.t) :
  isProviderRole (User.role (AuthUser.user currentUser)) = true ->
  AuthUser.providerProfile currentUser = Some profile ->
  getAppointments currentUser q db = (db', Ok r) ->
  forall x, In x (AppointmentsPage.data r) ->
    In x (appointments db)
    /\ Appointment.providerId x = ProviderProfile.id profile.
Proof.
  intros Hprov Hprofile H x Hx. apply getAppointments_inv in H.
  destruct H as (_ & Hrows & _). destruct (Hrows x Hx) as [Hin Hm].
  split; [exact Hin |]. apply matches_spec in Hm.
  destruct Hm as (Hp & _). apply Hp.
  pose proof (listWhere_client currentUser q) as Hw.
  destruct (User.role (AuthUser.user currentUser));
    try discriminate Hprov; destruct Hw as [-> _]; now rewrite Hprofile.
Qed.

Lemma list_shows_providers_their_own_witness :
  let db := SampleCallers.twoBookings in
  let x := createDataOf Sample.family Sample.now "a1"
             (Sample.request "prov-slp" (Sample.at_ 10 0) (Sample.at_ 11 0))
             Sample.slp in
  In x (appointments db) /\ Appointment.providerId x = "prov-slp".
Proof.
  intros db x.
  apply (list_shows_providers_their_own SampleCallers.slp
           SearchAppointmentsRequest.empty db db
           {| AppointmentsPage.data := [x];
              AppointmentsPage.page := 1;
              AppointmentsPage.limit := 10;
              AppointmentsPage.total := 1;
              AppointmentsPage.totalPages := Some 1 |}
           Sample.slp).
  - reflexivity.
  - reflexivity.
  - vm_compute. reflexivity.
  - left. reflexivity.
Defined.

(** X21. A caller of a provider role who has no provider profile is not
    restricted at all: the [providerId] key of the [where] object is
    assigned [undefined], so that a query without filters counts every row
    of the table, and returns all of them when the page is large enough. *)
Theorem list_is_unrestricted_without_profile
    (currentUser : AuthUser.t) (q : SearchAppointmentsRequest.t) (db : Db)
    (limit : Z) :
  isProviderRole (User.role (AuthUser.user currentUser)) = true ->
  AuthUser.providerProfile currentUser = None ->
  noFilter q ->
  SearchAppointmentsRequest.page q = None ->
  SearchAppointmentsRequest.limit q = Some limit ->
  Z.of_nat (length (appointments db)) <= limit ->
  exists r,
    getAppointments currentUser q db = (db, Ok r)
    /\ AppointmentsPage.total r = Z.of_nat (length (appointments db))
    /\ Permutation (AppointmentsPage.data r) (appointments db).
Proof.
  intros Hprov Hprofile (Hst & Hsv & Hsd & Hed) Hpage Hlimit Hbig.
  assert (Hall : filter (matches (listWhere currentUser q)) (appointments db)
                 = appointments db).
  { apply forallb_filter_id. apply forallb_forall. intros x _.
    apply matches_spec.
    pose proof (listWhere_client currentUser q) as Hw.
    destruct (listWhere_filters currentUser q) as (E1 & E2 & E3 & E4).
    rewrite E1, E2, E3, E4, Hst, Hsv, Hsd, Hed.
    destruct (User.role (AuthUser.user currentUser));
      try discriminate Hprov; destruct Hw as [-> ->]; rewrite Hprofile;
      repeat split; discriminate. }
  unfold getAppointments, bind. rewrite Hpage, Hlimit.
  rewrite findMany_forward by lia.
  unfold appointment_count, ret. rewrite Hall.
  eexists. split; [reflexivity |]. cbn [AppointmentsPage.total
                                        AppointmentsPage.data].
  split; [reflexivity |].
  change (Z.to_nat ((1 - 1) * limit)) with 0%nat. cbn [skipn].
  rewrite firstn_all2 by (rewrite sortBy_length; lia).
  apply sortBy_perm.
Qed.

Lemma list_is_unrestricted_without_profile_witness :
  let db := SampleCallers.twoBookings in
  let q := SearchAppointmentsRequest.mk None None None None None None None
             (Some 10) in
  exists r,
    getAppointments SampleCallers.slpWithoutProfile q db = (db, Ok r)
    /\ AppointmentsPage.total r = Z.of_nat (length (appointments db))
    /\ Permutation (AppointmentsPage.data r) (appointments db).
Proof.
  intros db q.
  apply (list_is_unrestricted_without_profile SampleCallers.slpWithoutProfile
           q db 10); try reflexivity.
  - repeat split.
  - vm_compute. discriminate.
Defined.

(** X22. The filters of the query are honoured for every caller: each row
    of the answer has a status among the requested ones, a service type
    among the requested ones, and a start time between [startDate] and
    [endDate], bounds included, for each of these that the query gives. *)
Theorem list_honours_filters
    (currentUser : AuthUser.t) (q : SearchAppointmentsRequest.t)
    (db db' : Db) (r : AppointmentsPage.t) (x : Appointment.t) :
  getAppointments currentUser q db = (db', Ok r) ->
  In x (AppointmentsPage.data r) ->
  (forall l, SearchAppointmentsRequest.status q = Some l ->
     In (Appointment.status x) l)
  /\ (forall l, SearchAppointmentsRequest.serviceType q = Some l ->
        In (Appointment.serviceType x) l)
  /\ (forall d, SearchAppointmentsRequest.startDate q = Some d ->
        d <= Appointment.startTime x)
  /\ (forall d, SearchAppointmentsRequest.endDate q = Some d ->
        Appointment.startTime x <= d).
Proof.
  intros H Hx. apply getAppointments_inv in H.
  destruct H as (_ & Hrows & _). destruct (Hrows x Hx) as [_ Hm].
  apply matches_spec in Hm.
  destruct (listWhere_filters currentUser q) as (E1 & E2 & E3 & E4).
  rewrite E1, E2, E3, E4 in Hm. tauto.
Qed.

Lemma list_honours_filters_witness :
  let db := SampleCallers.twoBookings in
  let q := SearchAppointmentsRequest.mk (Some [SCHEDULED]) None
             (Some (Sample.at_ 12 0)) None None None None None in
  let x := createDataOf SampleCallers.stranger Sample.now "a2"
             (Sample.request "prov-ot" (Sample.at_ 14 0) (Sample.at_ 15 0))
             Sample.ot in
  (forall l, SearchAppointmentsRequest.status q = Some l ->
     In (Appointment.status x) l)
  /\ (forall l, SearchAppointmentsRequest.serviceType q = Some l ->
        In (Appointment.serviceType x) l)
  /\ (forall d, SearchAppointmentsRequest.startDate q = Some d ->
        d <= Appointment.startTime x)
  /\ (forall d, SearchAppointmentsRequest.endDate q = Some d ->
        Appointment.startTime x <= d).
Proof.
  intros db q x.
  apply (list_honours_filters SampleCallers.admin q db db
           {| AppointmentsPage.data := [x];
              AppointmentsPage.page := 1;
              AppointmentsPage.limit := 10;
              AppointmentsPage.total := 1;
              AppointmentsPage.totalPages := Some 1 |} x).
  - vm_compute. reflexivity.
  - left. reflexivity.
Defined.

(** Page [p] of the list, for a page size that is not negative. *)
Lemma getAppointments_page (currentUser : AuthUser.t)
    (q : SearchAppointmentsRequest.t) (db : Db) (limit : Z) (p : nat) :
  SearchAppointmentsRequest.limit q = Some limit ->
  0 <= limit -> (1 <= p)%nat ->
  let rows := sortBy startTimeDesc
                (filter (matches (listWhere currentUser q)) (appointments db)) in
  getAppointments currentUser
    (SearchAppointmentsRequest.with_page (Z.of_nat p) q) db
  = (db, Ok {| AppointmentsPage.data := pageOf (Z.to_nat limit) rows p;
               AppointmentsPage.page := Z.of_nat p;
               AppointmentsPage.limit := limit;
               AppointmentsPage.total := Z.of_nat (length rows);
               AppointmentsPage.totalPages
                 := totalPagesOf (Z.of_nat (length rows)) limit |}).
Proof.
  intros Hlimit Hl Hp rows. unfold getAppointments, bind.
  cbn [SearchAppointmentsRequest.with_page SearchAppointmentsRequest.page
       SearchAppointmentsRequest.limit].
  rewrite Hlimit.
  change (listWhere currentUser
            (SearchAppointmentsRequest.with_page (Z.of_nat p) q))
    with (listWhere currentUser q).
  rewrite findMany_forward by nia.
  unfold appointment_count, ret. fold rows. unfold rows at 3 4.
  rewrite sortBy_length. unfold pageOf.
  replace (Z.to_nat ((Z.of_nat p - 1) * limit))
    with ((p - 1) * Z.to_nat limit)%nat; [reflexivity |].
  rewrite Z2Nat.inj_mul by lia. f_equal. lia.
Qed.

Lemma StronglySorted_weaken {A} (R S : A -> A -> Prop) (l : list A) :
  (forall a b, R a b -> S a b) -> StronglySorted R l -> StronglySorted S l.
Proof.
  intros HRS Hs. induction Hs as [| a l Hl IH Ha]; constructor;
    [exact IH |].
  eapply Forall_impl; [| exact Ha]. intros b. apply HRS.
Qed.

Lemma startTimeDesc_total (x y : Appointment.t) :
  startTimeDesc x y = false -> startTimeDesc y x = true.
Proof. unfold startTimeDesc. rewrite Z.leb_gt, Z.leb_le. lia. Qed.

Lemma startTimeDesc_trans (x y z : Appointment.t) :
  startTimeDesc x y = true -> startTimeDesc y z = true ->
  startTimeDesc x z = true.
Proof. unfold startTimeDesc. rewrite !Z.leb_le. lia. Qed.

Lemma startTimeAsc_total (x y : Appointment.t) :
  startTimeAsc x y = false -> startTimeAsc y x = true.
Proof. unfold startTimeAsc. rewrite Z.leb_gt, Z.leb_le. lia. Qed.

Lemma startTimeAsc_trans (x y z : Appointment.t) :
  startTimeAsc x y = true -> startTimeAsc y z = true ->
  startTimeAsc x z = true.
Proof. unfold startTimeAsc. rewrite !Z.leb_le. lia. Qed.

(** Rows in descending order of [startTime], no two with the same one,
    are in strictly descending order, and of those there is one. *)
Lemma descending_distinct_strict (l : list Appointment.t) :
  StronglySorted (fun a b => startTimeDesc a b = true) l ->
  NoDup (map Appointment.startTime l) ->
  StronglySorted
    (fun a b => Appointment.startTime b < Appointment.startTime a) l.
Proof.
  intros Hs. induction Hs as [| a l Hl IH Ha]; intros Hnd; [constructor |].
  cbn [map] in Hnd. apply NoDup_cons_iff in Hnd. destruct Hnd as [Hnotin Hnd].
  constructor; [now apply IH |].
  rewrite Forall_forall in *. intros b Hb.
  specialize (Ha b Hb). unfold startTimeDesc in Ha. apply Z.leb_le in Ha.
  assert (Appointment.startTime b <> Appointment.startTime a); [| lia].
  intros E. apply Hnotin. rewrite <- E. now apply in_map.
Qed.

Lemma strictly_sorted_unique {A} (R : A -> A -> Prop) (l1 l2 : list A) :
  (forall a b, R a b -> R b a -> False) ->
  StronglySorted R l1 -> StronglySorted R l2 -> Permutation l1 l2 -> l1 = l2.
Proof.
  intros Hasym Hs1. revert l2.
  induction Hs1 as [| a l1 Hl1 IH Ha]; intros l2 Hs2 Hp.
  - now apply Permutation_nil in Hp.
  - destruct Hs2 as [| b l2 Hl2 Hb].
    + symmetry in Hp. now apply Permutation_nil in Hp.
    + assert (E : a = b).
      { assert (Hin : In a (b :: l2))
          by (eapply Permutation_in; [exact Hp | now left]).
        destruct Hin as [E | Hin]; [now symmetry |].
        assert (Hin' : In b (a :: l1))
          by (eapply Permutation_in; [symmetry; exact Hp | now left]).
        destruct Hin' as [E | Hin']; [exact E |].
        rewrite Forall_forall in Ha, Hb.
        exfalso. exact (Hasym a b (Ha b Hin') (Hb a Hin)). }
      subst b. f_equal. apply IH; [exact Hl2 |].
      now apply Permutation_cons_inv in Hp.
Qed.

Lemma sortBy_ordersBy : ordersBy startTimeDesc (sortBy startTimeDesc).
Proof.
  intros l. split; [apply sortBy_perm |].
  apply (sortBy_sorted startTimeDesc startTimeDesc_total startTimeDesc_trans).
Qed.

(** Another order: the stable sort of the table read backwards, which
    puts rows that agree on the column in the reverse of table order. *)
Lemma sortBy_rev_ordersBy :
  ordersBy startTimeDesc (fun l => sortBy startTimeDesc (rev l)).
Proof.
  intros l. split.
  - etransitivity; [apply sortBy_perm | symmetry; apply Permutation_rev].
  - apply (sortBy_sorted startTimeDesc startTimeDesc_total
             startTimeDesc_trans).
Qed.

(** When no two of the rows have the same [startTime], every order the
    database may choose is the same. *)
Lemma order_unique (order : list Appointment.t -> list Appointment.t)
    (l : list Appointment.t) :
  ordersBy startTimeDesc order ->
  NoDup (map Appointment.startTime l) ->
  order l = sortBy startTimeDesc l.
Proof.
  intros Horder Hnd.
  destruct (Horder l) as [Hp Hs].
  destruct (sortBy_ordersBy l) as [Hp' Hs'].
  apply (strictly_sorted_unique
           (fun a b => Appointment.startTime b < Appointment.startTime a)).
  - intros a b. lia.
  - apply descending_distinct_strict; [exact Hs |].
    eapply Permutation_NoDup; [| exact Hnd].
    apply Permutation_map. now symmetry.
  - apply descending_distinct_strict; [exact Hs' |].
    eapply Permutation_NoDup; [| exact Hnd].
    apply Permutation_map. now symmetry.
  - now rewrite Hp, Hp'.
Qed.

Lemma getAppointmentsIn_sortBy (currentUser : AuthUser.t)
    (q : SearchAppointmentsRequest.t) :
  getAppointmentsIn (sortBy startTimeDesc) currentUser q
  = getAppointments currentUser q.
Proof. reflexivity. Qed.

Lemma getAppointmentsIn_distinct
    (order : list Appointment.t -> list Appointment.t)
    (currentUser : AuthUser.t) (q : SearchAppointmentsRequest.t) (db : Db) :
  ordersBy startTimeDesc order ->
  NoDup (map Appointment.startTime
           (filter (matches (listWhere currentUser q)) (appointments db))) ->
  getAppointmentsIn order currentUser q db = getAppointments currentUser q db.
Proof.
  intros Horder Hnd.
  unfold getAppointments, getAppointmentsIn, bind, appointment_findMany,
    appointment_findManyIn.
  now rewrite (order_unique order _ Horder Hnd).
Qed.

(** X23. The pages of the list lose no row and repeat none when no two of
    the rows that the query selects start at the same time. Every page is
    a query of its own, which the database answers in an order of its
    choice among those that [orderBy] admits. For a page size of at least
    1 and a table that does not change between the requests, every page
    announces the same number [n] of pages and the same total, and pages
    1 to [n], one after the other, are exactly the selected rows, latest
    first. *)
Theorem list_pages_partition_the_rows
    (order : nat -> list Appointment.t -> list Appointment.t)
    (currentUser : AuthUser.t) (q : SearchAppointmentsRequest.t) (db : Db)
    (limit : Z) :
  (forall p, ordersBy startTimeDesc (order p)) ->
  SearchAppointmentsRequest.limit q = Some limit ->
  1 <= limit ->
  let selected := filter (matches (listWhere currentUser q)) (appointments db) in
  NoDup (map Appointment.startTime selected) ->
  let answer p :=
    snd (getAppointmentsIn (order p) currentUser
           (SearchAppointmentsRequest.with_page (Z.of_nat p) q) db) in
  exists n : nat,
    (forall p, (1 <= p)%nat ->
       exists r, answer p = Ok r
         /\ AppointmentsPage.totalPages r = Some (Z.of_nat n)
         /\ AppointmentsPage.total r = Z.of_nat (length selected))
    /\ concat (map (fun p => answerRows (answer p)) (seq 1 n))
       = sortBy startTimeDesc selected
    /\ Permutation (concat (map (fun p => answerRows (answer p)) (seq 1 n)))
                   selected.
Proof.
  intros Horder Hlimit Hl selected Hnd answer.
  set (rows := sortBy startTimeDesc selected).
  assert (Hlen : length rows = length selected) by apply sortBy_length.
  assert (Hanswer : forall p, (1 <= p)%nat ->
            getAppointmentsIn (order p) currentUser
              (SearchAppointmentsRequest.with_page (Z.of_nat p) q) db
            = (db, Ok {| AppointmentsPage.data := pageOf (Z.to_nat limit) rows p;
                         AppointmentsPage.page := Z.of_nat p;
                         AppointmentsPage.limit := limit;
                         AppointmentsPage.total := Z.of_nat (length rows);
                         AppointmentsPage.totalPages
                           := totalPagesOf (Z.of_nat (length rows)) limit |})).
  { intros p Hp. rewrite getAppointmentsIn_distinct; [| apply Horder | exact Hnd].
    apply (getAppointments_page _ _ _ limit p Hlimit); lia. }
  destruct (totalPagesOf_covers (Z.of_nat (length rows)) limit) as (n & Hn & Hc);
    [lia | exact Hl |].
  assert (Hall : concat (map (fun p => answerRows (answer p)) (seq 1 n)) = rows).
  { rewrite (map_ext_in _ (pageOf (Z.to_nat limit) rows)).
    - apply pages_partition; [lia |]. nia.
    - intros p Hp. apply in_seq in Hp. unfold answer.
      now rewrite Hanswer by lia. }
  exists n. split; [| split].
  - intros p Hp. unfold answer. rewrite Hanswer by exact Hp.
    eexists. split; [reflexivity |]. split; [exact Hn |].
    cbn [AppointmentsPage.total]. now rewrite Hlen.
  - exact Hall.
  - rewrite Hall. apply sortBy_perm.
Qed.

Lemma list_pages_partition_the_rows_witness :
  let db := SampleCallers.twoBookings in
  let q := SearchAppointmentsRequest.mk None None None None None None None
             (Some 1) in
  let selected := filter (matches (listWhere SampleCallers.admin q))
                         (appointments db) in
  let order (p : nat) :=
    if Nat.even p then sortBy startTimeDesc
    else fun l => sortBy startTimeDesc (rev l) in
  let answer p :=
    snd (getAppointmentsIn (order p) SampleCallers.admin
           (SearchAppointmentsRequest.with_page (Z.of_nat p) q) db) in
  exists n : nat,
    (forall p, (1 <= p)%nat ->
       exists r, answer p = Ok r
         /\ AppointmentsPage.totalPages r = Some (Z.of_nat n)
         /\ AppointmentsPage.total r = Z.of_nat (length selected))
    /\ concat (map (fun p => answerRows (answer p)) (seq 1 n))
       = sortBy startTimeDesc selected
    /\ Permutation (concat (map (fun p => answerRows (answer p)) (seq 1 n)))
                   selected.
Proof.
  intros db q.
  apply (list_pages_partition_the_rows
           (fun p => if Nat.even p then sortBy startTimeDesc
                     else fun l => sortBy startTimeDesc (rev l))
           SampleCallers.admin q db 1).
  - intros p. destruct (Nat.even p);
      [apply sortBy_ordersBy | apply sortBy_rev_ordersBy].
  - reflexivity.
  - lia.
  - vm_compute. repeat constructor; simpl; intuition discriminate.
Defined.

(** With two rows that start at the same time the pages can repeat one and
    lose the other: the two providers are booked for 10:00, and the
    database answers the query of page 1 with the rows in table order and
    that of page 2 with them the other way round. *)
Example list_pages_can_repeat_a_row :
  let db := fst (create SampleCallers.stranger Sample.now "a2"
                   (Sample.request "prov-ot" (Sample.at_ 10 0) (Sample.at_ 11 0))
                   (Sample.booked "a1" (Sample.at_ 10 0) (Sample.at_ 11 0)
                      Sample.emptyDb)) in
  let q := SearchAppointmentsRequest.mk None None None None None None None
             (Some 1) in
  let tableOrder := sortBy startTimeDesc in
  let otherOrder := fun l => sortBy startTimeDesc (rev l) in
  let rowsOf order p :=
    answerRows (snd (getAppointmentsIn order SampleCallers.admin
                       (SearchAppointmentsRequest.with_page p q) db)) in
  ordersBy startTimeDesc tableOrder
  /\ ordersBy startTimeDesc otherOrder
  /\ map Appointment.id (appointments db) = ["a1"; "a2"]
  /\ map Appointment.id (rowsOf tableOrder 1) = ["a1"]
  /\ map Appointment.id (rowsOf otherOrder 2) = ["a1"].
Proof.
  intros db q tableOrder otherOrder rowsOf.
  split; [apply sortBy_ordersBy |]. split; [apply sortBy_rev_ordersBy |].
  vm_compute. repeat split.
Qed.

(** X24. A page of the list is ordered and bounded: when the page number
    is at least 1 and the page size is not negative (both default to 1 and
    10), the rows of the answer are in descending order of [startTime],
    there are at most [limit] of them, and [total] counts all the rows that
    the query selects, not those of the page. *)
Theorem list_page_is_sorted_and_bounded
    (currentUser : AuthUser.t) (q : SearchAppointmentsRequest.t) (db : Db) :
  let page := match SearchAppointmentsRequest.page q with
              | Some p => p | None => 1 end in
  let limit := match SearchAppointmentsRequest.limit q with
               | Some l => l | None => 10 end in
  1 <= page -> 0 <= limit ->
  exists r,
    getAppointments currentUser q db = (db, Ok r)
    /\ StronglySorted
         (fun a b => Appointment.startTime b <= Appointment.startTime a)
         (AppointmentsPage.data r)
    /\ Z.of_nat (length (AppointmentsPage.data r)) <= limit
    /\ AppointmentsPage.total r
       = Z.of_nat (length (filter (matches (listWhere currentUser q))
                                  (appointments db))).
Proof.
  intros page limit Hp Hl. unfold getAppointments, bind.
  fold page limit. rewrite findMany_forward by nia.
  unfold appointment_count, ret. eexists. split; [reflexivity |].
  cbn [AppointmentsPage.data AppointmentsPage.total]. split; [| split].
  - apply StronglySorted_firstn, StronglySorted_skipn.
    eapply StronglySorted_weaken;
      [| apply (sortBy_sorted startTimeDesc startTimeDesc_total
                  startTimeDesc_trans)].
    intros a b H. unfold startTimeDesc in H. now apply Z.leb_le in H.
  - pose proof (firstn_le_length (Z.to_nat limit)
                  (skipn (Z.to_nat ((page - 1) * limit))
                     (sortBy startTimeDesc
                        (filter (matches (listWhere currentUser q))
                                (appointments db))))). lia.
  - reflexivity.
Qed.

Lemma list_page_is_sorted_and_bounded_witness :
  let db := SampleCallers.twoBookings in
  exists r,
    getAppointments SampleCallers.admin SearchAppointmentsRequest.empty db
    = (db, Ok r)
    /\ StronglySorted
         (fun a b => Appointment.startTime b <= Appointment.startTime a)
         (AppointmentsPage.data r)
    /\ Z.of_nat (length (AppointmentsPage.data r)) <= 10
    /\ AppointmentsPage.total r
       = Z.of_nat (length (filter (matches (listWhere SampleCallers.admin
                                              SearchAppointmentsRequest.empty))
                                  (appointments db))).
Proof.
  intros db.
  apply (list_page_is_sorted_and_bounded SampleCallers.admin
           SearchAppointmentsRequest.empty db); simpl; lia.
Defined.

(** ** Upcoming appointments *)

Lemma upcomingWhere_keys (currentUser : AuthUser.t) (now : Date) :
  let w := upcomingWhere currentUser now in
  Where.status w = Some [SCHEDULED; CONFIRMED]
  /\ Where.startTime_gte w = Some now
  /\ match User.role (AuthUser.user currentUser) with
     | ADMIN => True
     | SLP | OT | PT =>
         Where.providerId w
         = option_map ProviderProfile.id (AuthUser.providerProfile currentUser)
     | _ => Where.clientId w = Some (User.id (AuthUser.user currentUser))
     end.
Proof.
  unfold upcomingWhere, restrictToRole.
  destruct (User.role (AuthUser.user currentUser)); repeat split.
Qed.

(** X25. The upcoming list only holds what is still to come: every row is
    [SCHEDULED] or [CONFIRMED] (an appointment in progress is left out) and
    starts at [now] or later; a caller who is neither an administrator nor
    of a provider role is the client of every row, and a provider with a
    profile is the provider of every row. *)
Theorem upcoming_rows_are_pending_and_visible
    (currentUser : AuthUser.t) (now : Date) (limit : option Z)
    (db db' : Db) (rows : list Appointment.t) (x : Appointment.t) :
  getUpcoming currentUser now limit db = (db', Ok rows) ->
  In x rows ->
  In x (appointments db)
  /\ (Appointment.status x = SCHEDULED \/ Appointment.status x = CONFIRMED)
  /\ now <= Appointment.startTime x
  /\ (User.role (AuthUser.user currentUser) <> ADMIN ->
      isProviderRole (User.role (AuthUser.user currentUser)) = false ->
      Appointment.clientId x = User.id (AuthUser.user currentUser))
  /\ (forall profile,
        isProviderRole (User.role (AuthUser.user currentUser)) = true ->
        AuthUser.providerProfile currentUser = Some profile ->
        Appointment.providerId x = ProviderProfile.id profile).
Proof.
  unfold getUpcoming. intros H Hx. apply findMany_rows in H.
  destruct H as [_ Hrows]. destruct (Hrows x Hx) as [Hin Hm].
  apply matches_spec in Hm. destruct Hm as (Hp & Hc & Hs & _ & Hg & _).
  destruct (upcomingWhere_keys currentUser now) as (Es & Eg & Erole).
  split; [exact Hin |]. split; [| split; [| split]].
  - specialize (Hs _ Es). destruct Hs as [<- | [<- | []]]; auto.
  - now apply Hg.
  - intros Hadmin Hprov. apply Hc.
    destruct (User.role (AuthUser.user currentUser));
      try discriminate Hprov; try exact Erole. now contradiction Hadmin.
  - intros profile Hprov Hprofile. apply Hp.
    destruct (User.role (AuthUser.user currentUser));
      try discriminate Hprov; now rewrite Erole, Hprofile.
Qed.

Lemma upcoming_rows_are_pending_and_visible_witness :
  let db := SampleCallers.twoBookings in
  let x := createDataOf Sample.family Sample.now "a1"
             (Sample.request "prov-slp" (Sample.at_ 10 0) (Sample.at_ 11 0))
             Sample.slp in
  In x (appointments db)
  /\ (Appointment.status x = SCHEDULED \/ Appointment.status x = CONFIRMED)
  /\ Sample.now <= Appointment.startTime x
  /\ (User.role (AuthUser.user SampleCallers.family) <> ADMIN ->
      isProviderRole (User.role (AuthUser.user SampleCallers.family)) = false ->
      Appointment.clientId x = User.id (AuthUser.user SampleCallers.family))
  /\ (forall profile,
        isProviderRole (User.role (AuthUser.user SampleCallers.family)) = true ->
        AuthUser.providerProfile SampleCallers.family = Some profile ->
        Appointment.providerId x = ProviderProfile.id profile).
Proof.
  intros db x.
  apply (upcoming_rows_are_pending_and_visible SampleCallers.family
           Sample.now None db db [x] x).
  - vm_compute. reflexivity.
  - left. reflexivity.
Defined.

(** X26. A cancelled appointment leaves every upcoming list: after a
    cancel request on an id was accepted, no row of that id is in the
    upcoming list of any caller, at any time and for any limit. *)
Theorem cancelled_appointment_leaves_upcoming
    (canceller : User.t) (now : Date) (id : string) (db : Db)
    (reason : option string) (appointment : Appointment.t)
    (viewer : AuthUser.t) (later : Date) (limit : option Z)
    (db' : Db) (rows : list Appointment.t) :
  find (fun a => String.eqb (Appointment.id a) id) (appointments db)
  = Some appointment ->
  hasAccess canceller appointment db = (db, Ok true) ->
  nonTerminal (Appointment.status appointment) = true ->
  getUpcoming viewer later limit (fst (cancel canceller now id reason db))
  = (db', Ok rows) ->
  forall x, In x rows -> Appointment.id x <> id.
Proof.
  intros Hfound Hacc Hlive.
  rewrite (cancel_authorized _ _ _ _ _ Hfound Hacc), Hlive. cbn [fst].
  unfold getUpcoming. intros H x Hx. apply findMany_rows in H.
  destruct H as [_ Hrows]. destruct (Hrows x Hx) as [Hin Hm].
  apply matches_spec in Hm. destruct Hm as (_ & _ & Hs & _).
  destruct (upcomingWhere_keys viewer later) as (Es & _).
  specialize (Hs _ Es).
  cbn [appointments] in Hin. apply in_map_iff in Hin.
  destruct Hin as (y & <- & _).
  destruct (String.eqb (Appointment.id y) id) eqn:Hid.
  - cbn [cancelDataOf Appointment.status] in Hs. simpl in Hs.
    destruct Hs as [Hs | [Hs | []]]; discriminate Hs.
  - now apply String.eqb_neq.
Qed.

Lemma cancelled_appointment_leaves_upcoming_witness :
  let x := createDataOf SampleCallers.stranger Sample.now "a2"
             (Sample.request "prov-ot" (Sample.at_ 14 0) (Sample.at_ 15 0))
             Sample.ot in
  Appointment.id x <> "a1".
Proof.
  intros x.
  apply (cancelled_appointment_leaves_upcoming Sample.family Sample.now "a1"
           SampleCallers.twoBookings None
           (createDataOf Sample.family Sample.now "a1"
              (Sample.request "prov-slp" (Sample.at_ 10 0) (Sample.at_ 11 0))
              Sample.slp)
           SampleCallers.admin Sample.now None
           (fst (cancel Sample.family Sample.now "a1" None
                   SampleCallers.twoBookings))
           [x]).
  - reflexivity.
  - reflexivity.
  - reflexivity.
  - vm_compute. reflexivity.
  - left. reflexivity.
Defined.

(** X27. A new booking shows in the upcoming list of the caller who made
    it: for a caller who is not of a provider role, asking at or before the
    start of the slot with a limit that covers the table, the created
    appointment is in the list. *)
Theorem created_appointment_is_upcoming
    (currentUser : AuthUser.t) (now later : Date) (newId : string)
    (appointmentData : CreateAppointmentRequest.t) (db db' : Db)
    (a : Appointment.t) (limit : Z) :
  create (AuthUser.user currentUser) now newId appointmentData db = (db', Ok a) ->
  isProviderRole (User.role (AuthUser.user currentUser)) = false ->
  later <= CreateAppointmentRequest.startTime appointmentData ->
  Z.of_nat (length (appointments db')) <= limit ->
  exists rows,
    getUpcoming currentUser later (Some limit) db' = (db', Ok rows)
    /\ In a rows.
Proof.
  intros H Hprov Hlater Hbig. apply create_Ok_inv in H.
  destruct H as (provider & _ & _ & _ & _ & _ & -> & ->).
  set (a := createDataOf _ _ _ _ _) in *.
  set (db' := mkDb _ _) in *.
  unfold getUpcoming. rewrite findMany_forward by lia.
  eexists. split; [reflexivity |]. cbn [skipn Z.to_nat].
  rewrite firstn_all2.
  2:{ rewrite sortBy_length.
      pose proof (filter_length_le (matches (upcomingWhere currentUser later))
                    (appointments db')). lia. }
  apply sortBy_In, filter_In. split.
  - unfold db'. cbn [appointments]. apply in_or_app. right. now left.
  - apply matches_spec.
    unfold upcomingWhere, restrictToRole.
    destruct (User.role (AuthUser.user currentUser)); try discriminate Hprov;
      cbn; repeat split; intros v E; try discriminate E;
      injection E as <-; try reflexivity; try exact Hlater;
      simpl; auto.
Qed.

Lemma created_appointment_is_upcoming_witness :
  let req := Sample.request "prov-slp" (Sample.at_ 10 0) (Sample.at_ 11 0) in
  let a := createDataOf Sample.family Sample.now "a1" req Sample.slp in
  let db' := mkDb [a] (providerProfiles Sample.emptyDb) in
  exists rows,
    getUpcoming SampleCallers.family Sample.now (Some 5) db' = (db', Ok rows)
    /\ In a rows.
Proof.
  intros req a db'.
  apply (created_appointment_is_upcoming SampleCallers.family Sample.now
           Sample.now "a1" req Sample.emptyDb db' a 5).
  - vm_compute. reflexivity.
  - reflexivity.
  - vm_compute. discriminate.
  - vm_compute. discriminate.
Defined.

(** ** The overview *)

Lemma overview_status_counts_nat (l : list Appointment.t) :
  length (filter (matches Where.empty) l)
  = (length (filter (matches (statusIs SCHEDULED)) l)
     + length (filter (matches (statusIs CONFIRMED)) l)
     + length (filter (matches (statusIs COMPLETED)) l)
     + length (filter (matches (statusIs CANCELLED)) l)
     + length (filter (fun a => includes [IN_PROGRESS; NO_SHOW]
                                  (Appointment.status a)) l))%nat.
Proof.
  induction l as [| a l IH]; [reflexivity |].
  unfold matches, holds, statusIs in *. cbn in *.
  destruct (Appointment.status a); cbn; lia.
Qed.

Lemma overview_status_counts (l : list Appointment.t) :
  Z.of_nat (length (filter (matches Where.empty) l))
  = Z.of_nat (length (filter (matches (statusIs SCHEDULED)) l))
    + Z.of_nat (length (filter (matches (statusIs CONFIRMED)) l))
    + Z.of_nat (length (filter (matches (statusIs COMPLETED)) l))
    + Z.of_nat (length (filter (matches (statusIs CANCELLED)) l))
    + Z.of_nat (length (filter (fun a => includes [IN_PROGRESS; NO_SHOW]
                                           (Appointment.status a)) l)).
Proof. rewrite overview_status_counts_nat. lia. Qed.

Lemma getStatsOverview_totals (db : Db) :
  exists s,
    getStatsOverview db = (db, Ok s)
    /\ Stats.totalAppointments s = Z.of_nat (length (appointments db))
    /\ Stats.totalAppointments s
       = Stats.scheduledAppointments s + Stats.confirmedAppointments s
         + Stats.completedAppointments s + Stats.cancelledAppointments s
         + countStatus [IN_PROGRESS; NO_SHOW] db.
Proof.
  unfold getStatsOverview, bind, appointment_count,
    appointment_groupByServiceType, ret.
  rewrite findMany_forward by lia.
  eexists. split; [reflexivity |].
  cbn [Stats.totalAppointments Stats.scheduledAppointments
       Stats.confirmedAppointments Stats.completedAppointments
       Stats.cancelledAppointments].
  split.
  - f_equal. f_equal. apply forallb_filter_id. apply forallb_forall.
    now intros x _.
  - apply overview_status_counts.
Qed.

(** X28. The overview undercounts: its four status figures (scheduled,
    confirmed, completed, cancelled) fall short of its total by the number
    of appointments that are in progress or a no-show, which it reports
    nowhere. *)
Theorem overview_omits_in_progress_and_no_show (db : Db) :
  exists s,
    getStatsOverview db = (db, Ok s)
    /\ Stats.totalAppointments s = Z.of_nat (length (appointments db))
    /\ Stats.totalAppointments s
       = Stats.scheduledAppointments s + Stats.confirmedAppointments s
         + Stats.completedAppointments s + Stats.cancelledAppointments s
         + countStatus [IN_PROGRESS; NO_SHOW] db.
Proof. exact (getStatsOverview_totals db). Qed.

Lemma sum_positive_groups (groups : list (ServiceType * Z)) :
  Forall (fun g => 0 <= snd g) groups ->
  fold_right (fun g acc => snd g + acc) 0
             (filter (fun g => 0 <? snd g) groups)
  = fold_right (fun g acc => snd g + acc) 0 groups.
Proof.
  induction 1 as [| g groups Hg _ IH]; simpl; [reflexivity |].
  destruct (0 <? snd g) eqn:E; simpl; rewrite IH; [reflexivity |].
  apply Z.ltb_ge in E. lia.
Qed.

Lemma serviceType_counts_nat (l : list Appointment.t) :
  fold_right (fun t acc =>
                (length (filter (fun a => ServiceType_eqb
                                            (Appointment.serviceType a) t) l)
                 + acc)%nat)
             0%nat allServiceTypes
  = length l.
Proof.
  induction l as [| a l IH]; [reflexivity |].
  cbn in *. destruct (Appointment.serviceType a); cbn; lia.
Qed.

Lemma serviceType_counts (l : list Appointment.t) :
  fold_right (fun g acc => snd g + acc) 0
    (map (fun t =>
            (t, Z.of_nat
                  (length (filter (fun a => ServiceType_eqb
                                              (Appointment.serviceType a) t)
                                  l))))
         allServiceTypes)
  = Z.of_nat (length l).
Proof.
  rewrite <- (serviceType_counts_nat l). unfold allServiceTypes.
  cbn [map fold_right snd]. lia.
Qed.

Lemma getStatsOverview_groups (db : Db) (s : Stats.t) :
  getStatsOverview db = (db, Ok s) ->
  Stats.appointmentsByServiceType s
  = filter (fun g => 0 <? snd g)
      (map (fun t =>
              (t, Z.of_nat
                    (length (filter (fun a => ServiceType_eqb
                                                (Appointment.serviceType a) t)
                                    (appointments db)))))
           allServiceTypes).
Proof.
  unfold getStatsOverview, bind, appointment_count,
    appointment_groupByServiceType, ret.
  rewrite findMany_forward by lia. intros H. injection H as <-. reflexivity.
Qed.

(** X29. The overview by service type is complete: its groups all have a
    positive count, no service type comes twice, and the counts add up to
    the total number of appointments. *)
Theorem overview_groups_add_up (db : Db) :
  exists s,
    getStatsOverview db = (db, Ok s)
    /\ Forall (fun g => 0 < snd g) (Stats.appointmentsByServiceType s)
    /\ NoDup (map fst (Stats.appointmentsByServiceType s))
    /\ fold_right (fun g acc => snd g + acc) 0
                  (Stats.appointmentsByServiceType s)
       = Stats.totalAppointments s.
Proof.
  destruct (getStatsOverview_totals db) as (s & Hs & Htotal & _).
  exists s. split; [exact Hs |].
  rewrite Htotal, (getStatsOverview_groups db s Hs).
  set (groups := map _ allServiceTypes).
  assert (Hnd : NoDup (map fst groups)).
  { unfold groups. rewrite map_map. cbn [map fst allServiceTypes].
    repeat constructor; simpl; intuition discriminate. }
  assert (Hpos : Forall (fun g => 0 <= snd g) groups).
  { apply Forall_forall. intros g Hg. apply in_map_iff in Hg.
    destruct Hg as (t & <- & _). cbn [snd]. lia. }
  split; [| split].
  - apply Forall_forall. intros g Hg. apply filter_In in Hg.
    destruct Hg as [_ Hg]. now apply Z.ltb_lt.
  - clear Hpos. induction groups as [| g groups IH]; [constructor |].
    cbn [map] in Hnd. inversion Hnd as [| ? ? Hnot Hnd']; subst.
    cbn [filter]. destruct (0 <? snd g); [| now apply IH].
    cbn [map]. constructor; [| now apply IH].
    intros Hin. apply Hnot. apply in_map_iff in Hin.
    destruct Hin as (g' & E & Hg'). apply filter_In in Hg'.
    apply in_map_iff. exists g'. tauto.
  - rewrite (sum_positive_groups groups Hpos). apply serviceType_counts.
Qed.
